(** * Cockpit metric samplers ([src/cockpit/samples.py])

    A shallow embedding of the samplers that turn kernel pseudo-files
    into named numeric samples, and the properties stated about them.

    Modelling conventions.
    - Python [str] values are [string]s of ASCII characters (the kernel
      files read here are ASCII); characters above 127 are neither
      whitespace nor digits.
    - Python [int] is [Z]; Python [float] is an IEEE-754 binary64 value,
      a [spec_float] with precision 53 and maximal exponent 1024.
    - The sample sink is a dictionary: [gmap string Entry].
    - Mutation and exceptions are threaded by a state-and-exception monad
      in which the state survives a raised exception, as in Python.
    - The operating system is a record of the three queries the samplers
      make ([open], [os.path.exists], [os.walk]) and of the two platform
      constants they read; every query is logged, so that statements
      about what a pass looks at can be made. *)

From Stdlib Require Import ZArith NArith String Ascii List Bool Lia.
From Stdlib Require Import DecimalString SpecFloat.
From stdpp Require Import base option gmap strings list fin_maps.

Import ListNotations.
Local Open Scope string_scope.
Local Open Scope Z_scope.
Local Open Scope list_scope.

(** ** Python strings *)

(** The newline character, as a string. *)
Definition nl : string := String "010" EmptyString.

Module PyStr.

Definition code (c : ascii) : N := N_of_ascii c.

(** [str.isspace] on one ASCII character: TAB..CR, FS..US and space. *)
Definition is_space (c : ascii) : bool :=
  let n := code c in
  ((9 <=? n) && (n <=? 13) || (28 <=? n) && (n <=? 32))%N.

(** The C-locale whitespace skipped by [int()] around its literal. *)
Definition is_c_space (c : ascii) : bool :=
  let n := code c in
  ((9 <=? n) && (n <=? 13) || (n =? 32))%N.

(** [str.isdigit] on one ASCII character. *)
Definition is_digit (c : ascii) : bool :=
  let n := code c in ((48 <=? n) && (n <=? 57))%N.

Definition digit_value (c : ascii) : Z := Z.of_N (code c) - 48.

Definition char_in (c : ascii) (chars : string) : bool :=
  existsb (Ascii.eqb c) (list_ascii_of_string chars).

Fixpoint lstrip_by (p : ascii -> bool) (s : string) : string :=
  match s with
  | EmptyString => EmptyString
  | String c s' => if p c then lstrip_by p s' else s
  end.

Fixpoint rstrip_by (p : ascii -> bool) (s : string) : string :=
  match s with
  | EmptyString => EmptyString
  | String c s' =>
      match rstrip_by p s' with
      | EmptyString => if p c then EmptyString else String c EmptyString
      | r => String c r
      end
  end.

Definition strip_by (p : ascii -> bool) (s : string) : string :=
  rstrip_by p (lstrip_by p s).

(** [s.strip()] *)
Definition strip (s : string) : string := strip_by is_space s.

(** [s.strip(chars)] *)
Definition strip_chars (chars s : string) : string :=
  strip_by (fun c => char_in c chars) s.

(** [s.startswith(p)] *)
Definition startswith (s p : string) : bool := String.prefix p s.

(** [s.split()]: the maximal runs of non-whitespace characters. *)
Fixpoint split (s : string) : list string :=
  match s with
  | EmptyString => []
  | String c s' =>
      if is_space c then split s'
      else
        match s' with
        | EmptyString => [String c EmptyString]
        | String c' _ =>
            if is_space c' then String c EmptyString :: split s'
            else
              match split s' with
              | w :: ws => String c w :: ws
              | [] => [String c EmptyString]
              end
        end
  end.

(** [s.split(sep, 1)] for a one-character separator. *)
Fixpoint split_once (sep : ascii) (s : string) : list string :=
  match s with
  | EmptyString => [EmptyString]
  | String c s' =>
      if Ascii.eqb c sep then [EmptyString; s']
      else
        match split_once sep s' with
        | w :: ws => String c w :: ws
        | [] => [String c EmptyString]
        end
  end.

(** Iterating over a text file: the lines, each with its newline. *)
Fixpoint lines (s : string) : list string :=
  match s with
  | EmptyString => []
  | String c s' =>
      if Ascii.eqb c "010"%char then String c EmptyString :: lines s'
      else
        match s' with
        | EmptyString => [String c EmptyString]
        | _ =>
            match lines s' with
            | w :: ws => String c w :: ws
            | [] => [String c EmptyString]
            end
        end
  end.

(** [s[n:]] and [s[:n]] for a literal [n >= 0]. *)
Fixpoint drop (n : nat) (s : string) : string :=
  match n, s with
  | O, _ => s
  | S _, EmptyString => EmptyString
  | S n', String _ s' => drop n' s'
  end.

Fixpoint take (n : nat) (s : string) : string :=
  match n, s with
  | O, _ => EmptyString
  | S _, EmptyString => EmptyString
  | S n', String c s' => String c (take n' s')
  end.

(** [s[-1]]; [None] is [IndexError]. *)
Fixpoint last_char (s : string) : option ascii :=
  match s with
  | EmptyString => None
  | String c EmptyString => Some c
  | String _ s' => last_char s'
  end.

(** [s.replace(old, new)] for a non-empty [old]: every occurrence,
    left to right, without overlap. *)
Fixpoint replace_from (old new : string) (skip : nat) (s : string) : string :=
  match s with
  | EmptyString => EmptyString
  | String c s' =>
      match skip with
      | S k => replace_from old new k s'
      | O =>
          if String.prefix old s
          then new +:+ replace_from old new (Nat.pred (String.length old)) s'
          else String c (replace_from old new O s')
      end
  end.

Definition replace (old new s : string) : string :=
  replace_from old new O s.

(** The digits of a decimal literal. Underscores may separate digits,
    one at a time. [seen] tells whether the previous character was a
    digit. *)
Fixpoint parse_digits (s : string) (acc : Z) (seen : bool) : option Z :=
  match s with
  | EmptyString => if seen then Some acc else None
  | String c s' =>
      if is_digit c then parse_digits s' (10 * acc + digit_value c) true
      else if Ascii.eqb c "_"%char && seen then
        match s' with
        | String c' _ => if is_digit c' then parse_digits s' acc false else None
        | EmptyString => None
        end
      else None
  end.

(** [int(s)]; [None] is [ValueError]. *)
Definition int (s : string) : option Z :=
  match strip_by is_c_space s with
  | String "+" r => parse_digits r 0 false
  | String "-" r => Z.opp <$> parse_digits r 0 false
  | t => parse_digits t 0 false
  end.

(** [f'{n}'] for a non-negative integer. *)
Definition of_N (n : N) : string := NilEmpty.string_of_uint (N.to_uint n).

(** [os.path.join(a, p)] on POSIX. *)
Definition path_join (a p : string) : string :=
  if String.prefix "/" p then p
  else
    match last_char a with
    | None => p
    | Some c => if Ascii.eqb c "/"%char then a +:+ p else a +:+ "/" +:+ p
    end.

End PyStr.

(** ** Python numbers *)

Inductive num : Type :=
  | PyInt (z : Z)
  | PyFloat (f : spec_float).

(** Values that are compared with [==] across types in the source. *)
Inductive pyval : Type :=
  | VStr (s : string)
  | VNum (n : num).

Inductive exn : Type :=
  | FileNotFoundError (path : string)
  | OSError (errno : Z) (path : string)
  | ValueError
  | KeyError (key : string)
  | IndexError
  | TypeError
  | OverflowError
  | ZeroDivisionError.

Inductive Result (A : Type) : Type :=
  | Ok (a : A)
  | Raise (e : exn).
Arguments Ok {A} a.
Arguments Raise {A} e.

Module PyNum.

Definition prec : Z := 53.
Definition emax : Z := 1024.

(** [float(z)]: round to nearest, ties to even; an infinite result is
    Python's [OverflowError]. *)
Definition float_of_int (z : Z) : spec_float := binary_normalize prec emax z 0 false.

Definition is_finite (f : spec_float) : bool :=
  match f with
  | S754_zero _ | S754_finite _ _ _ => true
  | _ => false
  end.

Definition checked (f : spec_float) : Result spec_float :=
  if is_finite f then Ok f else Raise OverflowError.

(** An integer as an unrounded dyadic, the operand of a correctly
    rounded division. *)
Definition exact (z : Z) : spec_float :=
  match z with
  | Z0 => S754_zero false
  | Zpos p => S754_finite false p 0
  | Zneg p => S754_finite true p 0
  end.

(** [a / b] on integers: the quotient rounded once to binary64. *)
Definition int_truediv (a b : Z) : Result num :=
  if b =? 0 then Raise ZeroDivisionError
  else
    match checked (SFdiv prec emax (exact a) (exact b)) with
    | Ok q => Ok (PyFloat q)
    | Raise e => Raise e
    end.

(** [z * f] for an integer [z] and a float [f]. *)
Definition int_mul_float (z : Z) (f : spec_float) : Result num :=
  match checked (float_of_int z) with
  | Ok fz => Ok (PyFloat (SFmul prec emax fz f))
  | Raise e => Raise e
  end.

(** [a == b] on numbers: equality of the mathematical values. *)
Definition float_eq_int (f : spec_float) (z : Z) : bool :=
  match f with
  | S754_zero _ => z =? 0
  | S754_finite s m e =>
      let v := if s then Zneg m else Zpos m in
      if 0 <=? e then v * 2 ^ e =? z else v =? z * 2 ^ (- e)
  | _ => false
  end.

Definition eqb (a b : num) : bool :=
  match a, b with
  | PyInt x, PyInt y => x =? y
  | PyFloat f, PyFloat g => SFeqb f g
  | PyFloat f, PyInt z | PyInt z, PyFloat f => float_eq_int f z
  end.

End PyNum.

(** [a == b] on the values the samplers compare. A string never equals
    a number. *)
Definition py_eq (a b : pyval) : bool :=
  match a, b with
  | VStr s, VStr t => String.eqb s t
  | VNum x, VNum y => PyNum.eqb x y
  | _, _ => false
  end.

(** ** The operating system, the sink and the heap *)

(** What [open(path)] followed by reading the text gives: the text, or
    [FileNotFoundError], or another [OSError] with its error number. *)
Inductive open_result : Type :=
  | Text (s : string)
  | NoSuchFile
  | Failed (errno : Z).

(** The host as the samplers see it during one pass. [os_walk top] is
    the sequence of directory paths that [os.walk(top)] yields. *)
Record OS : Type := {
  os_open : string -> open_result;
  os_exists : string -> bool;
  os_walk : string -> list string;
  SC_CLK_TCK : Z;
  sys_maxsize : Z
}.

Inductive event : Type :=
  | EvOpen (path : string)
  | EvExists (path : string)
  | EvWalk (top : string).

(** One metric of the sink: a number, or a dictionary of numbers keyed
    by instance. *)
Inductive Entry : Type :=
  | Scalar (v : num)
  | Instanced (m : gmap string num).

(** The sink. [auto_dict] tells whether reading a missing metric name
    creates an empty dictionary for it ([defaultdict(dict)]) or raises
    [KeyError] (a plain [dict]). *)
Record Samples : Type := {
  auto_dict : bool;
  entries : gmap string Entry
}.

(** The mutable objects of the process, and the log of the queries made
    to the operating system so far (oldest first). *)
Record Heap : Type := {
  log : list event;
  sensors : list string;
  cgroups_v2 : option bool;
  samples : Samples
}.

Definition with_log (l : list event) (h : Heap) : Heap :=
  {| log := l; sensors := sensors h; cgroups_v2 := cgroups_v2 h; samples := samples h |}.
Definition with_sensors (s : list string) (h : Heap) : Heap :=
  {| log := log h; sensors := s; cgroups_v2 := cgroups_v2 h; samples := samples h |}.
Definition with_cgroups_v2 (f : option bool) (h : Heap) : Heap :=
  {| log := log h; sensors := sensors h; cgroups_v2 := f; samples := samples h |}.
Definition with_samples (s : Samples) (h : Heap) : Heap :=
  {| log := log h; sensors := sensors h; cgroups_v2 := cgroups_v2 h; samples := s |}.
Definition with_entries (m : gmap string Entry) (s : Samples) : Samples :=
  {| auto_dict := auto_dict s; entries := m |}.

(** ** The monad of a sampling pass *)

Definition M (A : Type) : Type := Heap -> Heap * Result A.

Definition ret {A} (a : A) : M A := fun h => (h, Ok a).

Definition raise {A} (e : exn) : M A := fun h => (h, Raise e).

Definition bind {A B} (m : M A) (k : A -> M B) : M B :=
  fun h =>
    match m h with
    | (h', Ok a) => k a h'
    | (h', Raise e) => (h', Raise e)
    end.

Notation "x <- m ;; k" := (bind m (fun x => k))
  (at level 100, m at next level, right associativity).
Notation "m ;;; k" := (bind m (fun _ => k))
  (at level 100, right associativity).

Definition lift {A} (r : Result A) : M A := fun h => (h, r).

(** [try: m  except FileNotFoundError: handler] *)
Definition try_except_FileNotFoundError {A} (m handler : M A) : M A :=
  fun h =>
    match m h with
    | (h', Raise (FileNotFoundError _)) => handler h'
    | r => r
    end.

(** Control after one turn of a loop body: go on with the next item, or
    leave the loop ([break], and [return] where the loop ends the
    function). *)
Inductive ctl : Type := Next | Stop.

(** [for x in xs: body] *)
Fixpoint for_each {A} (xs : list A) (body : A -> M ctl) : M unit :=
  match xs with
  | [] => ret tt
  | x :: xs' =>
      c <- body x ;;
      match c with
      | Next => for_each xs' body
      | Stop => ret tt
      end
  end.

(** [count] turns of a loop body on consecutive indices from [i]; the
    recursion follows the binary digits of [count], and a turn that
    stops or raises ends it at once. *)
Fixpoint for_count (count : positive) (body : N -> M ctl) (i : N) : M ctl :=
  match count with
  | xH => body i
  | xO q =>
      c <- for_count q body i ;;
      match c with
      | Stop => ret Stop
      | Next => for_count q body (i + Npos q)%N
      end
  | xI q =>
      c <- body i ;;
      match c with
      | Stop => ret Stop
      | Next =>
          c' <- for_count q body (i + 1)%N ;;
          match c' with
          | Stop => ret Stop
          | Next => for_count q body (i + 1 + Npos q)%N
          end
      end
  end.

(** [for i in range(lo, hi): body] *)
Definition for_range (lo hi : N) (body : N -> M ctl) : M unit :=
  match (hi - lo)%N with
  | N0 => ret tt
  | Npos count => for_count count body lo ;;; ret tt
  end.

(** *** Queries to the operating system *)

Definition record (ev : event) : M unit :=
  fun h => (with_log (log h ++ [ev]) h, Ok tt).

(** [open(path)] and the reading of its text. *)
Definition open_file (os : OS) (path : string) : M string :=
  record (EvOpen path) ;;;
  match os_open os path with
  | Text s => ret s
  | NoSuchFile => raise (FileNotFoundError path)
  | Failed errno => raise (OSError errno path)
  end.

(** [os.path.exists(path)] *)
Definition path_exists (os : OS) (path : string) : M bool :=
  record (EvExists path) ;;; ret (os_exists os path).

(** [os.walk(top)] *)
Definition walk (os : OS) (top : string) : M (list string) :=
  record (EvWalk top) ;;; ret (os_walk os top).

(** *** Writes to the sink *)

(** [samples[name] = v] *)
Definition set_scalar (name : string) (v : num) : M unit :=
  fun h =>
    (with_samples (with_entries (<[name := Scalar v]> (entries (samples h))) (samples h)) h,
     Ok tt).

(** [samples[name][key] = v] *)
Definition set_instanced (name key : string) (v : num) : M unit :=
  fun h =>
    let s := samples h in
    match entries s !! name with
    | Some (Instanced m) =>
        (with_samples (with_entries (<[name := Instanced (<[key := v]> m)]> (entries s)) s) h,
         Ok tt)
    | Some (Scalar _) => (h, Raise TypeError)
    | None =>
        if auto_dict s
        then (with_samples (with_entries (<[name := Instanced {[key := v]}]> (entries s)) s) h,
              Ok tt)
        else (h, Raise (KeyError name))
    end.

(** [int(s)] *)
Definition int (s : string) : M Z :=
  match PyStr.int s with
  | Some z => ret z
  | None => raise ValueError
  end.

Definition nonempty (s : string) : bool := negb (String.eqb s EmptyString).

(** ** The samplers *)

(** [USER_HZ] and [MS_PER_JIFFY], computed when the module is loaded.
    The divisor is positive, so the quotient is a finite float. *)
Definition USER_HZ (os : OS) : Z := SC_CLK_TCK os.

Definition MS_PER_JIFFY (os : OS) : spec_float :=
  SFdiv PyNum.prec PyNum.emax
    (PyNum.exact 1000)
    (PyNum.exact (if USER_HZ os >? 0 then USER_HZ os else 100)).

Module CPUSampler.

(** [int(field) * MS_PER_JIFFY] *)
Definition jiffies (os : OS) (field : string) : M num :=
  z <- int field ;;
  lift (PyNum.int_mul_float z (MS_PER_JIFFY os)).

Definition sample_line (os : OS) (line : string) : M ctl :=
  if negb (PyStr.startswith line "cpu") then ret Next
  else
    match firstn 6 (PyStr.split line) with
    | [cpu; user; nice; system; _idle; iowait] =>
        let core := PyStr.drop 3 cpu in
        if nonempty core then
          v <- jiffies os nice ;; set_instanced "cpu.core.nice" core v ;;;
          v <- jiffies os user ;; set_instanced "cpu.core.user" core v ;;;
          v <- jiffies os system ;; set_instanced "cpu.core.system" core v ;;;
          v <- jiffies os iowait ;; set_instanced "cpu.core.iowait" core v ;;;
          ret Next
        else
          v <- jiffies os nice ;; set_scalar "cpu.basic.nice" v ;;;
          v <- jiffies os user ;; set_scalar "cpu.basic.user" v ;;;
          v <- jiffies os system ;; set_scalar "cpu.basic.system" v ;;;
          v <- jiffies os iowait ;; set_scalar "cpu.basic.iowait" v ;;;
          ret Next
    | _ => raise ValueError
    end.

Definition sample (os : OS) : M unit :=
  stat <- open_file os "/proc/stat" ;;
  for_each (PyStr.lines stat) (sample_line os).

End CPUSampler.

Module MemorySampler.

(** The dictionary comprehension over the lines of the file: a line
    without a colon cannot be unpacked into [k, v]; a later line
    replaces an earlier one with the same key. *)
Fixpoint parse (lines : list string) (items : gmap string Z) : Result (gmap string Z) :=
  match lines with
  | [] => Ok items
  | line :: rest =>
      match PyStr.split_once ":" line with
      | [k; v] =>
          match PyStr.int (PyStr.strip_chars (" kB" +:+ nl) v) with
          | Some z => parse rest (<[k := z]> items)
          | None => Raise ValueError
          end
      | _ => Raise ValueError
      end
  end.

(** [items[key]] *)
Definition item (items : gmap string Z) (key : string) : M Z :=
  match items !! key with
  | Some z => ret z
  | None => raise (KeyError key)
  end.

Definition sample (os : OS) : M unit :=
  meminfo <- open_file os "/proc/meminfo" ;;
  items <- lift (parse (PyStr.lines meminfo) ∅) ;;
  free <- item items "MemFree" ;;
  set_scalar "memory.free" (PyInt (1024 * free)) ;;;
  total <- item items "MemTotal" ;;
  available <- item items "MemAvailable" ;;
  set_scalar "memory.used" (PyInt (1024 * (total - available))) ;;;
  buffers <- item items "Buffers" ;;
  cached <- item items "Cached" ;;
  set_scalar "memory.cached" (PyInt (1024 * (buffers + cached))) ;;;
  swap_total <- item items "SwapTotal" ;;
  swap_free <- item items "SwapFree" ;;
  set_scalar "memory.swap-used" (PyInt (1024 * (swap_total - swap_free))).

End MemorySampler.

Module CPUTemperatureSampler.

Definition sensor_path (hwmonid index : N) : string :=
  "/sys/class/hwmon/hwmon" +:+ PyStr.of_N hwmonid +:+ "/temp" +:+ PyStr.of_N index +:+ "_input".

Definition label_path (hwmonid index : N) : string :=
  "/sys/class/hwmon/hwmon" +:+ PyStr.of_N hwmonid +:+ "/temp" +:+ PyStr.of_N index +:+ "_label".

Definition name_path (index : N) : string :=
  "/sys/class/hwmon/hwmon" +:+ PyStr.of_N index +:+ "/name".

(** [self.sensors.append(path)] *)
Definition append_sensor (path : string) : M unit :=
  fun h => (with_sensors (sensors h ++ [path]) h, Ok tt).

Definition get_sensors : M (list string) := fun h => (h, Ok (sensors h)).

Definition detect_turn (os : OS) (hwmonid : N) (name : string) (index : N) : M ctl :=
  let sensor_path := sensor_path hwmonid index in
  present <- path_exists os sensor_path ;;
  if negb present then ret Stop
  else
    raw <- open_file os (label_path hwmonid index) ;;
    let label := PyStr.strip raw in
    if nonempty label then
      if negb (String.eqb label "CPU Temperature") && String.eqb name "atk0110" then ret Next
      else if String.eqb label "Tctl" then ret Next
      else append_sensor sensor_path ;;; ret Next
    else
      if negb (String.eqb name "cpu_thermal") then ret Next
      else append_sensor sensor_path ;;; ret Next.

Definition detect_cpu_sensors (os : OS) (hwmonid : N) (name : string) : M unit :=
  for_range 1 (2 ^ 32) (detect_turn os hwmonid name).

Definition cpu_names : list string :=
  ["coretemp"; "cpu_thermal"; "k8temp"; "k10temp"; "atk0110"].

Definition scan_turn (os : OS) (index : N) : M ctl :=
  try_except_FileNotFoundError
    (raw <- open_file os (name_path index) ;;
     let name := PyStr.strip raw in
     (if existsb (String.eqb name) cpu_names
      then detect_cpu_sensors os index name
      else ret tt) ;;;
     ret Next)
    (ret Stop).

(** The discovery phase: run when the cache is empty. *)
Definition discover (os : OS) : M unit :=
  cached <- get_sensors ;;
  match cached with
  | [] => for_range 0 (2 ^ 32) (scan_turn os)
  | _ :: _ => ret tt
  end.

Definition read_turn (os : OS) (sensor_path : string) : M ctl :=
  raw <- open_file os sensor_path ;;
  temperature <- int (PyStr.strip raw) ;;
  if temperature =? 0 then ret Stop
  else
    v <- lift (PyNum.int_truediv temperature 1000) ;;
    set_instanced "cpu.temperature" sensor_path v ;;;
    ret Next.

Definition sample (os : OS) : M unit :=
  discover os ;;;
  cached <- get_sensors ;;
  for_each cached (read_turn os).

End CPUTemperatureSampler.

Module DiskSampler.

(** The running totals [bytes_read], [bytes_written], [num_ops]. *)
Record totals : Type := {
  bytes_read : Z;
  bytes_written : Z;
  num_ops : Z
}.

Definition is_partition (dev_name : string) : bool :=
  existsb (String.eqb (PyStr.take 2 dev_name)) ["sd"; "hd"; "vd"]
  && match PyStr.last_char dev_name with
     | Some c => PyStr.is_digit c
     | None => false
     end.

Definition is_nvme_partition (dev_name : string) : bool :=
  PyStr.startswith dev_name "nvme" && PyStr.char_in "p"%char dev_name.

(** One line of the loop: [None] is [ValueError], from the unpacking
    of fewer than ten fields or from [int]. *)
Definition add_line (line : string) (t : totals) : option totals :=
  match PyStr.split (PyStr.strip line) with
  | dev_major :: _ :: dev_name :: _ :: num_reads_merged :: num_sectors_read
      :: _ :: _ :: num_writes_merged :: num_sectors_written :: _ =>
      if py_eq (VStr dev_major) (VNum (PyInt 253)) || py_eq (VStr dev_major) (VNum (PyInt 9))
      then Some t
      else if is_partition dev_name then Some t
      else if is_nvme_partition dev_name then Some t
      else
        sectors_read ← PyStr.int num_sectors_read;
        sectors_written ← PyStr.int num_sectors_written;
        reads_merged ← PyStr.int num_reads_merged;
        writes_merged ← PyStr.int num_writes_merged;
        Some {| bytes_read := bytes_read t + sectors_read * 512;
                bytes_written := bytes_written t + sectors_written * 512;
                num_ops := num_ops t + (reads_merged + writes_merged) |}
  | _ => None
  end.

Fixpoint add_lines (lines : list string) (t : totals) : option totals :=
  match lines with
  | [] => Some t
  | line :: rest =>
      match add_line line t with
      | Some t' => add_lines rest t'
      | None => None
      end
  end.

Definition sample (os : OS) : M unit :=
  diskstats <- open_file os "/proc/diskstats" ;;
  match add_lines (PyStr.lines diskstats) {| bytes_read := 0; bytes_written := 0; num_ops := 0 |} with
  | None => raise ValueError
  | Some t =>
      set_scalar "disk.all.read" (PyInt (bytes_read t)) ;;;
      set_scalar "disk.all.written" (PyInt (bytes_written t)) ;;;
      set_scalar "disk.all.ops" (PyInt (num_ops t))
  end.

End DiskSampler.

Module CGroupSampler.

Definition cgroups_v2_path : string := "/sys/fs/cgroup/".

Definition in_range (os : OS) (value : Z) : bool :=
  (sys_maxsize os >? value) && (value >? 0).

Definition keyed_turn (os : OS) (cgroup name key line : string) : M ctl :=
  if negb (PyStr.startswith line key) then ret Next
  else
    match List.last (Some <$> PyStr.split line) None with
    | None => raise IndexError
    | Some field =>
        value <- int field ;;
        if in_range os value then
          v <- lift (PyNum.int_truediv value 1000) ;;
          set_instanced name cgroup v ;;;
          ret Next
        else ret Next
    end.

Definition read_cgroup_keyed_stat (os : OS) (path cgroup name key : string) : M unit :=
  stat <- open_file os path ;;
  for_each (PyStr.lines stat) (keyed_turn os cgroup name key).

Definition read_cgroup_integer_stat (os : OS) (path cgroup name : string) : M unit :=
  try_except_FileNotFoundError
    (stat <- open_file os path ;;
     match PyStr.int (PyStr.strip stat) with
     | None => ret tt
     | Some value =>
         if in_range os value
         then set_instanced name cgroup (PyInt value)
         else ret tt
     end)
    (ret tt).

Definition get_cgroups_v2 : M (option bool) := fun h => (h, Ok (cgroups_v2 h)).

Definition set_cgroups_v2 (b : bool) : M unit :=
  fun h => (with_cgroups_v2 (Some b) h, Ok tt).

Definition probe (os : OS) : M unit :=
  flag <- get_cgroups_v2 ;;
  match flag with
  | None =>
      b <- path_exists os "/sys/fs/cgroup/cgroup.controllers" ;;
      set_cgroups_v2 b
  | Some _ => ret tt
  end.

Definition walk_turn (os : OS) (path : string) : M ctl :=
  let cgroup := PyStr.replace cgroups_v2_path EmptyString path in
  if negb (nonempty cgroup) then ret Next
  else
    read_cgroup_integer_stat os (PyStr.path_join path "memory.current") cgroup "cgroup.memory.usage" ;;;
    read_cgroup_integer_stat os (PyStr.path_join path "memory.max") cgroup "cgroup.memory.limit" ;;;
    read_cgroup_integer_stat os (PyStr.path_join path "memory.swap.current") cgroup "cgroup.memory.sw-usage" ;;;
    read_cgroup_integer_stat os (PyStr.path_join path "memory.swap.max") cgroup "cgroup.memory.sw-limit" ;;;
    read_cgroup_integer_stat os (PyStr.path_join path "cpu.weight") cgroup "cgroup.cpu.shares" ;;;
    read_cgroup_keyed_stat os (PyStr.path_join path "cpu.stat") cgroup "cgroup.cpu.usage" "usage_usec" ;;;
    ret Next.

Definition sample (os : OS) : M unit :=
  probe os ;;;
  if nonempty cgroups_v2_path then
    paths <- walk os cgroups_v2_path ;;
    for_each paths (walk_turn os)
  else ret tt.

End CGroupSampler.

(** ** Reading the sink *)

(** [samples[name]] as a scalar, and [samples[name][key]]. *)
Definition scalar (s : Samples) (name : string) : option num :=
  match entries s !! name with
  | Some (Scalar v) => Some v
  | _ => None
  end.

Definition instance (s : Samples) (name key : string) : option num :=
  match entries s !! name with
  | Some (Instanced m) => m !! key
  | _ => None
  end.

(** The sink takes [samples[name][key] = v]: [name] holds a dictionary,
    or is missing from a sink that creates dictionaries on demand. *)
Definition accepts (s : Samples) (name : string) : Prop :=
  match entries s !! name with
  | Some (Instanced _) => True
  | Some (Scalar _) => False
  | None => auto_dict s = true
  end.

(** The keys of the memory-info file that the memory sampler looks up. *)
Definition required_keys : list string :=
  ["MemFree"; "MemTotal"; "MemAvailable"; "Buffers"; "Cached"; "SwapTotal"; "SwapFree"].

(** ** Concrete hosts *)

Fixpoint assoc (files : list (string * string)) (path : string) : option string :=
  match files with
  | [] => None
  | (p, text) :: rest => if String.eqb p path then Some text else assoc rest path
  end.

(** A 64-bit host with 100 clock ticks per second, the given readable
    files, and the given directories under the cgroup root. *)
Definition host (files : list (string * string)) (cgroup_dirs : list string) : OS :=
  {| os_open path := match assoc files path with Some text => Text text | None => NoSuchFile end;
     os_exists path := bool_decide (is_Some (assoc files path));
     os_walk top := if String.eqb top "/sys/fs/cgroup/" then cgroup_dirs else [];
     SC_CLK_TCK := 100;
     sys_maxsize := 2 ^ 63 - 1 |}.

Definition empty_sink : Samples := {| auto_dict := true; entries := ∅ |}.

(** A process that has not sampled yet. *)
Definition fresh : Heap :=
  {| log := []; sensors := []; cgroups_v2 := None; samples := empty_sink |}.

Definition meminfo_example : string :=
  "MemTotal: 1000 kB" +:+ nl +:+ "MemFree: 200 kB" +:+ nl +:+ "MemAvailable: 300 kB" +:+ nl
  +:+ "Buffers: 50 kB" +:+ nl +:+ "Cached: 50 kB" +:+ nl
  +:+ "SwapTotal: 100 kB" +:+ nl +:+ "SwapFree: 40 kB" +:+ nl.

Definition meminfo_no_swap : string :=
  "MemTotal: 1000 kB" +:+ nl +:+ "MemFree: 200 kB" +:+ nl +:+ "MemAvailable: 300 kB" +:+ nl
  +:+ "Buffers: 50 kB" +:+ nl +:+ "Cached: 50 kB" +:+ nl.

(** The sink after an accepted [samples[name][key] = v]. *)
Definition dict_of (s : Samples) (name : string) : gmap string num :=
  match entries s !! name with
  | Some (Instanced m) => m
  | _ => ∅
  end.

Definition put (name key : string) (v : num) (s : Samples) : Samples :=
  with_entries (<[name := Instanced (<[key := v]> (dict_of s name))]> (entries s)) s.

(** Lines of the block I/O statistics file: a device-mapper device, a
    software-RAID device, a partition and a whole disk. *)
Definition diskstats_dm : string :=
  " 253       0 dm-0 100 5 800 30 200 7 1600 50 0 90 80" +:+ nl.
Definition diskstats_md : string :=
  "   9       0 md0 100 5 800 30 200 7 1600 50 0 90 80" +:+ nl.
Definition diskstats_sda1 : string :=
  "   8       1 sda1 100 5 800 30 200 7 1600 50 0 90 80" +:+ nl.
Definition diskstats_sda : string :=
  "   8       0 sda 100 5 800 30 200 7 1600 50 0 90 80" +:+ nl.

Definition stat_core0 : string := "cpu0 100 10 50 0 20" +:+ nl.

(** ** Conditions on cgroup files, in the words of the specification *)



(** The last field of a line of a keyed file, as an integer. *)
Definition last_field (line : string) : option Z :=
  match List.last (Some <$> PyStr.split line) None with
  | Some field => PyStr.int field
  | None => None
  end.



(** A cgroup tree with two groups; the first has no memory in use, no
    memory limit and no CPU time yet. *)
Definition cgroup_files_limits : list (string * string) :=
  [ ("/sys/fs/cgroup/a/memory.current", "0" +:+ nl);
    ("/sys/fs/cgroup/a/memory.max", "max" +:+ nl);
    ("/sys/fs/cgroup/a/cpu.stat", "usage_usec 0" +:+ nl +:+ "user_usec 7" +:+ nl);
    ("/sys/fs/cgroup/b/memory.current", "4096" +:+ nl);
    ("/sys/fs/cgroup/b/cpu.stat", "usage_usec 5000" +:+ nl) ].

Definition cgroup_dirs_ab : list string :=
  ["/sys/fs/cgroup/"; "/sys/fs/cgroup/a"; "/sys/fs/cgroup/b"].

(** ** Notions used in the statements *)

(** A loop of [n] turns on consecutive indices, by recursion on the
    number of turns: what [for_count] computes. *)
Fixpoint for_turns (n : nat) (body : N -> M ctl) (i : N) : M ctl :=
  match n with
  | O => ret Next
  | S n' =>
      c <- body i ;;
      match c with
      | Stop => ret Stop
      | Next => for_turns n' body (i + 1)%N
      end
  end.

(** The indices [lo], [lo + 1], ..., [lo + n - 1]. *)
Fixpoint N_range (lo : N) (n : nat) : list N :=
  match n with
  | O => []
  | S n' => lo :: N_range (lo + 1)%N n'
  end.

(** A computation keeps an invariant of the heap, whatever its outcome. *)
Definition preserves {A} (I : Heap -> Prop) (m : M A) : Prop :=
  forall h, I h -> I (fst (m h)).

(** A computation neither reads nor writes the cgroups-v2 flag: it
    commutes with any change of the flag. *)
Definition flag_blind {A} (m : M A) : Prop :=
  forall f h, m (with_cgroups_v2 f h) = (with_cgroups_v2 f (fst (m h)), snd (m h)).

(** The paths of the existence queries in a log. *)
Definition existence_queries (l : list event) : list string :=
  flat_map (fun ev => match ev with EvExists p => [p] | _ => [] end) l.

(** A sequence of passes of one sampler: each pass runs on the host as
    it is at that time, with the sink the driver hands in. *)
Fixpoint run_passes (sample : OS -> M unit) (passes : list (OS * Samples)) (h : Heap) : Heap :=
  match passes with
  | [] => h
  | (os, sink) :: rest => run_passes sample rest (fst (sample os (with_samples sink h)))
  end.

(** ** The inclusion rule of sensor discovery, in the words of the
    specification *)

(** The label of an input as the host has it: the stripped text of its
    label file. An input has no label when its label file does not
    exist (the layout of ARM devices), cannot be read, or is blank. *)
Definition sensor_label (os : OS) (hwmonid index : N) : option string :=
  match os_open os (CPUTemperatureSampler.label_path hwmonid index) with
  | Text raw =>
      let label := PyStr.strip raw in
      if nonempty label then Some label else None
  | NoSuchFile | Failed _ => None
  end.

(** With a label: included unless the device is atk0110 and the label is
    not exactly CPU Temperature, or the label is exactly Tctl. Without a
    label: included only when the device is cpu_thermal. *)
Definition rule_includes (name : string) (label : option string) : bool :=
  match label with
  | Some label =>
      negb ((String.eqb name "atk0110" && negb (String.eqb label "CPU Temperature"))
            || String.eqb label "Tctl")
  | None => String.eqb name "cpu_thermal"
  end.

(** An atk0110 device with three labelled inputs, and an ARM device
    whose only input has no label file. *)
Definition hwmon_atk : list (string * string) :=
  [ ("/sys/class/hwmon/hwmon0/name", "atk0110" +:+ nl);
    ("/sys/class/hwmon/hwmon0/temp1_input", "45000" +:+ nl);
    ("/sys/class/hwmon/hwmon0/temp1_label", "CPU Temperature" +:+ nl);
    ("/sys/class/hwmon/hwmon0/temp2_input", "38000" +:+ nl);
    ("/sys/class/hwmon/hwmon0/temp2_label", "MB Temperature" +:+ nl);
    ("/sys/class/hwmon/hwmon0/temp3_input", "41000" +:+ nl);
    ("/sys/class/hwmon/hwmon0/temp3_label", nl) ].

Definition hwmon_arm : list (string * string) :=
  [ ("/sys/class/hwmon/hwmon0/name", "cpu_thermal" +:+ nl);
    ("/sys/class/hwmon/hwmon0/temp1_input", "52000" +:+ nl) ].

(** One sensor read during the reading phase: its path, the integer in
    the file (millidegrees) and the value written (degrees). *)
Record Reading : Type := {
  r_path : string;
  r_millidegrees : Z;
  r_celsius : num
}.

(** The file of the sensor holds a non-zero integer, and the sample is
    that integer divided by 1000. *)
Definition reads_nonzero (os : OS) (r : Reading) : Prop :=
  exists raw,
    os_open os (r_path r) = Text raw
    /\ PyStr.int (PyStr.strip raw) = Some (r_millidegrees r)
    /\ r_millidegrees r <> 0
    /\ PyNum.int_truediv (r_millidegrees r) 1000 = Ok (r_celsius r).

(** The file of the sensor holds zero. *)
Definition reads_zero (os : OS) (path : string) : Prop :=
  exists raw, os_open os path = Text raw /\ PyStr.int (PyStr.strip raw) = Some 0.

Definition write_reading (s : Samples) (r : Reading) : Samples :=
  put "cpu.temperature" (r_path r) (r_celsius r) s.

(** An Intel device with three cores, the second of which is not ready. *)
Definition hwmon_coretemp : list (string * string) :=
  [ ("/sys/class/hwmon/hwmon0/name", "coretemp" +:+ nl);
    ("/sys/class/hwmon/hwmon0/temp1_input", "45000" +:+ nl);
    ("/sys/class/hwmon/hwmon0/temp1_label", "Core 0" +:+ nl);
    ("/sys/class/hwmon/hwmon0/temp2_input", "0" +:+ nl);
    ("/sys/class/hwmon/hwmon0/temp2_label", "Core 1" +:+ nl);
    ("/sys/class/hwmon/hwmon0/temp3_input", "47000" +:+ nl);
    ("/sys/class/hwmon/hwmon0/temp3_label", "Core 2" +:+ nl) ].

(** An AMD device whose only input is the control temperature. *)
Definition hwmon_k10temp_tctl : list (string * string) :=
  [ ("/sys/class/hwmon/hwmon0/name", "k10temp" +:+ nl);
    ("/sys/class/hwmon/hwmon0/temp1_input", "40000" +:+ nl);
    ("/sys/class/hwmon/hwmon0/temp1_label", "Tctl" +:+ nl) ].

(** The cache is the given one, and everything logged after [before] is
    the opening of a cached sensor file. *)
Definition only_cached_opened (cache : list string) (before : list event) (h : Heap) : Prop :=
  sensors h = cache
  /\ exists opened,
       log h = before ++ map EvOpen opened /\ Forall (fun path => path ∈ cache) opened.

(** The cgroups-v2 flag is resolved to [b], and the existence queries
    logged so far are [queries]. *)
Definition resolved (b : bool) (queries : list string) (h : Heap) : Prop :=
  cgroups_v2 h = Some b /\ existence_queries (log h) = queries.

(** A cgroup tree with one group. *)
Definition cgroup_files_one : list (string * string) :=
  [ ("/sys/fs/cgroup/cgroup.controllers", "cpu memory" +:+ nl);
    ("/sys/fs/cgroup/a/memory.current", "4096" +:+ nl);
    ("/sys/fs/cgroup/a/cpu.stat", "usage_usec 5000" +:+ nl) ].

Definition cgroup_dirs_a : list string := ["/sys/fs/cgroup/"; "/sys/fs/cgroup/a"].

(** * The rest of the module *)

(** ** Further Python primitives *)

Module PySeq.

(** [s[:-1]] *)
Fixpoint but_last (s : string) : string :=
  match s with
  | EmptyString => EmptyString
  | String c EmptyString => EmptyString
  | String c s' => String c (but_last s')
  end.

(** [xs[k]] for a literal [k >= 0]. *)
Definition item {A} (xs : list A) (k : nat) : M A :=
  match nth_error xs k with
  | Some x => ret x
  | None => raise IndexError
  end.

End PySeq.

(** ** Metric descriptors *)

Record SampleDescription : Type := {
  name : string;
  units : string;
  semantics : string;
  instanced : bool
}.

Module Descriptions.

Definition CPUSampler : list SampleDescription :=
  [ {| name := "cpu.basic.nice"; units := "millisec"; semantics := "counter"; instanced := false |};
    {| name := "cpu.basic.user"; units := "millisec"; semantics := "counter"; instanced := false |};
    {| name := "cpu.basic.system"; units := "millisec"; semantics := "counter"; instanced := false |};
    {| name := "cpu.basic.iowait"; units := "millisec"; semantics := "counter"; instanced := false |};
    {| name := "cpu.core.nice"; units := "millisec"; semantics := "counter"; instanced := true |};
    {| name := "cpu.core.user"; units := "millisec"; semantics := "counter"; instanced := true |};
    {| name := "cpu.core.system"; units := "millisec"; semantics := "counter"; instanced := true |};
    {| name := "cpu.core.iowait"; units := "millisec"; semantics := "counter"; instanced := true |} ].

Definition MemorySampler : list SampleDescription :=
  [ {| name := "memory.free"; units := "bytes"; semantics := "instant"; instanced := false |};
    {| name := "memory.used"; units := "bytes"; semantics := "instant"; instanced := false |};
    {| name := "memory.cached"; units := "bytes"; semantics := "instant"; instanced := false |};
    {| name := "memory.swap-used"; units := "bytes"; semantics := "instant"; instanced := false |} ].

Definition CPUTemperatureSampler : list SampleDescription :=
  [ {| name := "cpu.temperature"; units := "celsius"; semantics := "instant"; instanced := true |} ].

Definition DiskSampler : list SampleDescription :=
  [ {| name := "disk.all.read"; units := "bytes"; semantics := "counter"; instanced := false |};
    {| name := "disk.all.written"; units := "bytes"; semantics := "counter"; instanced := false |} ].

Definition CGroupSampler : list SampleDescription :=
  [ {| name := "cgroup.memory.usage"; units := "bytes"; semantics := "instant"; instanced := true |};
    {| name := "cgroup.memory.limit"; units := "bytes"; semantics := "instant"; instanced := true |};
    {| name := "cgroup.memory.sw-usage"; units := "bytes"; semantics := "instant"; instanced := true |};
    {| name := "cgroup.memory.sw-limit"; units := "bytes"; semantics := "instant"; instanced := true |};
    {| name := "cgroup.cpu.usage"; units := "millisec"; semantics := "counter"; instanced := true |};
    {| name := "cgroup.cpu.shares"; units := "count"; semantics := "instant"; instanced := true |} ].

Definition NetworkSampler : list SampleDescription :=
  [ {| name := "network.interface.tx"; units := "bytes"; semantics := "counter"; instanced := true |};
    {| name := "network.interface.rx"; units := "bytes"; semantics := "counter"; instanced := true |} ].

Definition MountSampler : list SampleDescription :=
  [ {| name := "mount.total"; units := "bytes"; semantics := "instant"; instanced := true |};
    {| name := "mount.used"; units := "bytes"; semantics := "instant"; instanced := true |} ].

Definition BlockSampler : list SampleDescription :=
  [ {| name := "block.device.read"; units := "bytes"; semantics := "counter"; instanced := true |};
    {| name := "block.device.written"; units := "bytes"; semantics := "counter"; instanced := true |} ].

End Descriptions.

(** ** The host with its file systems *)

(** The fields of [os.statvfs(path)] that the mount sampler reads. *)
Record statvfs_result : Type := {
  f_frsize : Z;
  f_blocks : Z;
  f_bfree : Z
}.

(** What [os.statvfs(path)] gives: the result, or [FileNotFoundError],
    or another [OSError] with its error number. *)
Inductive statvfs_outcome : Type :=
  | Stat (res : statvfs_result)
  | StatNoSuchFile
  | StatFailed (errno : Z).

(** The host of a pass of any sampler. The calls of [os.statvfs] are not
    entered in the log. *)
Record Host : Type := {
  kernel : OS;
  os_statvfs : string -> statvfs_outcome
}.

(** [os.statvfs(path)] *)
Definition statvfs (host : Host) (path : string) : M statvfs_result :=
  match os_statvfs host path with
  | Stat res => ret res
  | StatNoSuchFile => raise (FileNotFoundError path)
  | StatFailed errno => raise (OSError errno path)
  end.

(** The truth value of a [statvfs_result]: a struct sequence of ten
    fields, which is never empty. *)
Definition statvfs_truthy (res : statvfs_result) : bool := true.

(** ** The remaining samplers *)

Module NetworkSampler.

Definition sample_line (line : string) : M ctl :=
  let fields := PyStr.split line in
  first <- PySeq.item fields 0 ;;
  match PyStr.last_char first with
  | None => raise IndexError
  | Some c =>
      if negb (Ascii.eqb c ":"%char) then ret Next
      else
        let iface := PySeq.but_last first in
        received <- PySeq.item fields 1 ;;
        rx <- int received ;;
        set_instanced "network.interface.rx" iface (PyInt rx) ;;;
        sent <- PySeq.item fields 9 ;;
        tx <- int sent ;;
        set_instanced "network.interface.tx" iface (PyInt tx) ;;;
        ret Next
  end.

Definition sample (os : OS) : M unit :=
  network_samples <- open_file os "/proc/net/dev" ;;
  for_each (PyStr.lines network_samples) sample_line.

End NetworkSampler.

Module MountSampler.

Definition sample_line (host : Host) (line : string) : M ctl :=
  match line with
  | EmptyString => raise IndexError
  | String c _ =>
      if negb (Ascii.eqb c "/"%char) then ret Next
      else
        path <- PySeq.item (PyStr.split line) 1 ;;
        res <- statvfs host path ;;
        if statvfs_truthy res then
          let frsize := f_frsize res in
          let total := frsize * f_blocks res in
          set_instanced "mount.total" path (PyInt total) ;;;
          set_instanced "mount.used" path (PyInt (total - frsize * f_bfree res)) ;;;
          ret Next
        else ret Next
  end.

Definition sample (host : Host) : M unit :=
  mounts <- open_file (kernel host) "/proc/mounts" ;;
  for_each (PyStr.lines mounts) (sample_line host).

End MountSampler.

Module BlockSampler.

Definition sample_line (line : string) : M ctl :=
  match PyStr.split (PyStr.strip line) with
  | _ :: _ :: dev_name :: _ :: _ :: sectors_read :: _ :: _ :: _ :: sectors_written :: _ =>
      read <- int sectors_read ;;
      set_instanced "block.device.read" dev_name (PyInt (read * 512)) ;;;
      written <- int sectors_written ;;
      set_instanced "block.device.written" dev_name (PyInt (written * 512)) ;;;
      ret Next
  | _ => raise ValueError
  end.

Definition sample (os : OS) : M unit :=
  diskstats <- open_file os "/proc/diskstats" ;;
  for_each (PyStr.lines diskstats) sample_line.

End BlockSampler.

(** ** The registry *)

(** A sampler class: its descriptors and its sampling operation. *)
Record Sampler : Type := {
  descriptions : list SampleDescription;
  sample : Host -> M unit
}.

Definition BlockSampler_class : Sampler :=
  {| descriptions := Descriptions.BlockSampler;
     sample host := BlockSampler.sample (kernel host) |}.
Definition CGroupSampler_class : Sampler :=
  {| descriptions := Descriptions.CGroupSampler;
     sample host := CGroupSampler.sample (kernel host) |}.
Definition CPUSampler_class : Sampler :=
  {| descriptions := Descriptions.CPUSampler;
     sample host := CPUSampler.sample (kernel host) |}.
Definition CPUTemperatureSampler_class : Sampler :=
  {| descriptions := Descriptions.CPUTemperatureSampler;
     sample host := CPUTemperatureSampler.sample (kernel host) |}.
Definition DiskSampler_class : Sampler :=
  {| descriptions := Descriptions.DiskSampler;
     sample host := DiskSampler.sample (kernel host) |}.
Definition MemorySampler_class : Sampler :=
  {| descriptions := Descriptions.MemorySampler;
     sample host := MemorySampler.sample (kernel host) |}.
Definition MountSampler_class : Sampler :=
  {| descriptions := Descriptions.MountSampler;
     sample host := MountSampler.sample host |}.
Definition NetworkSampler_class : Sampler :=
  {| descriptions := Descriptions.NetworkSampler;
     sample host := NetworkSampler.sample (kernel host) |}.

Definition SAMPLERS : list Sampler :=
  [ BlockSampler_class;
    CGroupSampler_class;
    CPUSampler_class;
    CPUTemperatureSampler_class;
    DiskSampler_class;
    MemorySampler_class;
    MountSampler_class;
    NetworkSampler_class ].

(** ** Notions used in the statements about all samplers *)

(** The descriptors of all registered samplers. *)
Definition all_descriptions : list SampleDescription :=
  flat_map descriptions SAMPLERS.

(** The metric names a sampler declares. *)
Definition declared (c : Sampler) : list string := map name (descriptions c).

(** The sink has the shape the descriptors announce: a declared metric
    that is present holds a number when it is not instanced and a
    dictionary when it is. *)
Definition conforms (s : Samples) : Prop :=
  forall d, d ∈ all_descriptions ->
    match entries s !! name d with
    | Some (Scalar _) => instanced d = false
    | Some (Instanced _) => instanced d = true
    | None => True
    end.

(** The descriptors agree on the kind of a name: no descriptor with
    this name says otherwise. *)
Definition kind_of (is_instanced : bool) (n : string) : bool :=
  forallb (fun d => if String.eqb (name d) n then Bool.eqb (instanced d) is_instanced else true)
    all_descriptions.

(** A host of the mount sampler: the host of the other samplers, and
    the file systems mounted on it. *)
Definition host_with (os : OS) (mounted : list (string * statvfs_result)) : Host :=
  {| kernel := os;
     os_statvfs path :=
       match List.find (fun m => String.eqb (fst m) path) mounted with
       | Some m => Stat (snd m)
       | None => StatNoSuchFile
       end |}.

(** A sink in which every declared metric is in place, as the driver
    hands it in before the first pass. *)
Definition declared_sink : Samples :=
  {| auto_dict := false;
     entries :=
       list_to_map
         (map (fun d => (name d, if instanced d then Instanced ∅ else Scalar (PyInt 0)))
            all_descriptions) |}.

Definition stat_aggregate : string := "cpu  100 10 50 9999 20 0 0 0 0 0" +:+ nl.

(** The same host with another number of clock ticks per second. *)
Definition with_tick_rate (hz : Z) (os : OS) : OS :=
  {| os_open := os_open os;
     os_exists := os_exists os;
     os_walk := os_walk os;
     SC_CLK_TCK := hz;
     sys_maxsize := sys_maxsize os |}.

Definition stat_no_cpu : string := "intr 5 0 0" +:+ nl +:+ "ctxt 77" +:+ nl.

(** A memory-info file with a line that is not of the form key: value. *)
Definition meminfo_blank_line : string :=
  "MemTotal: 1000 kB" +:+ nl +:+ nl +:+ "MemFree: 200 kB" +:+ nl.

(** A memory-info file without the MemAvailable line of recent kernels. *)
Definition meminfo_old_kernel : string :=
  "MemTotal: 1000 kB" +:+ nl +:+ "MemFree: 200 kB" +:+ nl
  +:+ "Buffers: 50 kB" +:+ nl +:+ "Cached: 50 kB" +:+ nl
  +:+ "SwapTotal: 100 kB" +:+ nl +:+ "SwapFree: 40 kB" +:+ nl.

(** The sum of two records of totals. *)
Definition totals_add (a b : DiskSampler.totals) : DiskSampler.totals :=
  {| DiskSampler.bytes_read := DiskSampler.bytes_read a + DiskSampler.bytes_read b;
     DiskSampler.bytes_written := DiskSampler.bytes_written a + DiskSampler.bytes_written b;
     DiskSampler.num_ops := DiskSampler.num_ops a + DiskSampler.num_ops b |}.

Definition totals_zero : DiskSampler.totals :=
  {| DiskSampler.bytes_read := 0; DiskSampler.bytes_written := 0; DiskSampler.num_ops := 0 |}.

(** The same block I/O statistics, in two orders, and with a blank line. *)
Definition diskstats_two : string := diskstats_sda +:+ diskstats_dm.
Definition diskstats_two_swapped : string := diskstats_dm +:+ diskstats_sda.
Definition diskstats_blank_line : string := diskstats_sda +:+ nl +:+ diskstats_dm.

(** The device name of a line of the block I/O statistics file. *)
Definition device_name (line : string) : option string :=
  nth_error (PyStr.split (PyStr.strip line)) 2.

(** The network device statistics file: two header lines and two
    interfaces. *)
Definition net_dev_example : string :=
  "Inter-|   Receive                            |  Transmit" +:+ nl
  +:+ " face |bytes    packets errs drop fifo frame compressed multicast|bytes    packets errs drop fifo colls carrier compressed" +:+ nl
  +:+ "    lo: 1000 10 0 0 0 0 0 0 2000 20 0 0 0 0 0 0" +:+ nl
  +:+ "  eth0: 5000 50 0 0 0 0 0 0 7000 70 0 0 0 0 0 0" +:+ nl.

(** The mount table: a pseudo file system and a device. *)
Definition mounts_example : string :=
  "proc /proc proc rw,nosuid 0 0" +:+ nl
  +:+ "/dev/sda1 / ext4 rw,relatime 0 0" +:+ nl.

Definition mounts_pseudo_only : string :=
  "proc /proc proc rw,nosuid 0 0" +:+ nl
  +:+ "sysfs /sys sysfs rw,nosuid 0 0" +:+ nl.

Definition root_fs : statvfs_result :=
  {| f_frsize := 4096; f_blocks := 1000; f_bfree := 250 |}.

(** [needle in hay], for a non-empty [needle]. *)
Fixpoint contains (needle hay : string) : bool :=
  match hay with
  | EmptyString => false
  | String _ hay' => String.prefix needle hay || contains needle hay'
  end.

(** The six reads of one cgroup directory, under the instance key
    [cgroup]. *)
Definition cgroup_reads (os : OS) (path cgroup : string) : M ctl :=
  CGroupSampler.read_cgroup_integer_stat os (PyStr.path_join path "memory.current") cgroup "cgroup.memory.usage" ;;;
  CGroupSampler.read_cgroup_integer_stat os (PyStr.path_join path "memory.max") cgroup "cgroup.memory.limit" ;;;
  CGroupSampler.read_cgroup_integer_stat os (PyStr.path_join path "memory.swap.current") cgroup "cgroup.memory.sw-usage" ;;;
  CGroupSampler.read_cgroup_integer_stat os (PyStr.path_join path "memory.swap.max") cgroup "cgroup.memory.sw-limit" ;;;
  CGroupSampler.read_cgroup_integer_stat os (PyStr.path_join path "cpu.weight") cgroup "cgroup.cpu.shares" ;;;
  CGroupSampler.read_cgroup_keyed_stat os (PyStr.path_join path "cpu.stat") cgroup "cgroup.cpu.usage" "usage_usec" ;;;
  ret Next.

(** A cgroup-v1 tree: the directory of the memory controller has no
    CPU statistics. *)
Definition cgroup_files_v1 : list (string * string) :=
  [ ("/sys/fs/cgroup/memory/memory.usage_in_bytes", "4096" +:+ nl) ].

Definition cgroup_dirs_v1 : list string := ["/sys/fs/cgroup/"; "/sys/fs/cgroup/memory"].

(** A host whose only hwmon device is not a CPU. *)
Definition hwmon_acpitz : list (string * string) :=
  [ ("/sys/class/hwmon/hwmon0/name", "acpitz" +:+ nl);
    ("/sys/class/hwmon/hwmon0/temp1_input", "27800" +:+ nl) ].

(** The cache is [old] followed by paths of temperature inputs that
    exist on the host. *)
Definition cache_extended (os : OS) (old : list string) (h : Heap) : Prop :=
  exists added,
    sensors h = old ++ added
    /\ Forall (fun path =>
                 os_exists os path = true
                 /\ exists hwmonid index,
                      path = CPUTemperatureSampler.sensor_path hwmonid index) added.

(** An ARM board: a fan controller, then the CPU thermal zone, whose
    only input has no label file, then the GPU thermal zone. *)
Definition hwmon_arm_board : list (string * string) :=
  [ ("/sys/class/hwmon/hwmon0/name", "pwmfan" +:+ nl);
    ("/sys/class/hwmon/hwmon1/name", "cpu_thermal" +:+ nl);
    ("/sys/class/hwmon/hwmon1/temp1_input", "52000" +:+ nl);
    ("/sys/class/hwmon/hwmon2/name", "gpu_thermal" +:+ nl);
    ("/sys/class/hwmon/hwmon2/temp1_input", "48000" +:+ nl) ].

(** ** The lines of the stat file *)

(** The finite binary64 number [m * 2 ^ e], for a positive [m]. *)
Definition dyadic (m e : Z) : spec_float := S754_finite false (Z.to_pos m) e.

(** [z * MS_PER_JIFFY], for an integer [z] that converts to a float. *)
Definition ticks_ms (os : OS) (z : Z) : num :=
  PyFloat (SFmul PyNum.prec PyNum.emax (PyNum.float_of_int z) (MS_PER_JIFFY os)).

(** The four per-core metrics. *)
Definition core_metrics : list string :=
  ["cpu.core.nice"; "cpu.core.user"; "cpu.core.system"; "cpu.core.iowait"].

(** A line that the CPU sampler gets through: one that does not start
    with cpu, or one whose first six fields are there, with integers
    that convert to floats for user, nice, system and iowait. *)
Definition stat_line_taken (line : string) : bool :=
  negb (PyStr.startswith line "cpu")
  || match firstn 6 (PyStr.split line) with
     | [_; user; nice; system; _; iowait] =>
         forallb (fun field =>
                    match PyStr.int field with
                    | Some z => PyNum.is_finite (PyNum.float_of_int z)
                    | None => false
                    end)
           [user; nice; system; iowait]
     | _ => false
     end.

(** The core that a line starting with cpu is about: its first field
    without the three characters of cpu; empty on the aggregate line. *)
Definition core_of (line : string) : string :=
  match PyStr.split line with
  | cpu :: _ => PyStr.drop 3 cpu
  | [] => EmptyString
  end.

(** A stat file of a machine with two cores. *)
Definition stat_two_cores : string :=
  "cpu  200 20 100 9999 40 0 0 0 0 0" +:+ nl
  +:+ "cpu0 100 10 50 0 20" +:+ nl
  +:+ "cpu1 100 10 50 9999 20 0 0 0 0 0" +:+ nl
  +:+ "intr 5 0 0" +:+ nl
  +:+ "ctxt 77" +:+ nl.

(** ** Proof automation *)

Ltac in_list := apply list_elem_of_In; simpl; tauto.

Ltac missing k :=
  exists k; eexists; split; [in_list | split; [assumption | reflexivity]].

(** * Properties *)

(** ** The Python primitives on concrete inputs *)

Example split_stat_line :
  PyStr.split "cpu0 100 10 50 0 20" = ["cpu0"; "100"; "10"; "50"; "0"; "20"].
Proof. reflexivity. Qed.

Example split_padded :
  PyStr.split ("  8   0 sda  1 2" +:+ nl) = ["8"; "0"; "sda"; "1"; "2"].
Proof. reflexivity. Qed.

Example split_once_meminfo :
  PyStr.split_once ":" "MemTotal:       1000 kB" = ["MemTotal"; "       1000 kB"].
Proof. reflexivity. Qed.

Example split_once_none : PyStr.split_once ":" "abc" = ["abc"].
Proof. reflexivity. Qed.

Example strip_kb : PyStr.strip_chars (" kB" +:+ nl) ("       1000 kB" +:+ nl) = "1000".
Proof. reflexivity. Qed.

Example lines_two : PyStr.lines ("a b" +:+ nl +:+ "c") = ["a b" +:+ nl; "c"].
Proof. reflexivity. Qed.

Example int_plain : PyStr.int (" 42" +:+ nl) = Some 42.
Proof. reflexivity. Qed.

Example int_signed : PyStr.int "-1_000" = Some (-1000).
Proof. reflexivity. Qed.

Example int_max : PyStr.int "max" = None.
Proof. reflexivity. Qed.

Example int_empty : PyStr.int EmptyString = None.
Proof. reflexivity. Qed.

Example int_bad_underscore : PyStr.int "1__0" = None /\ PyStr.int "_1" = None /\ PyStr.int "1_" = None.
Proof. repeat split; reflexivity. Qed.

Example replace_root :
  PyStr.replace "/sys/fs/cgroup/" EmptyString "/sys/fs/cgroup/system.slice/a" = "system.slice/a".
Proof. reflexivity. Qed.

Example join_paths :
  PyStr.path_join "/sys/fs/cgroup/a" "memory.max" = "/sys/fs/cgroup/a/memory.max"
  /\ PyStr.path_join "/sys/fs/cgroup/" "a" = "/sys/fs/cgroup/a".
Proof. split; reflexivity. Qed.

Example of_N_12 : PyStr.of_N 12 = "12" /\ PyStr.of_N 0 = "0".
Proof. split; reflexivity. Qed.

Example float_1000 :
  PyNum.float_of_int 1000 = S754_finite false 8796093022208000 (-43).
Proof. reflexivity. Qed.

Example truediv_exact : PyNum.int_truediv 45000 1000 = Ok (PyFloat (PyNum.float_of_int 45)).
Proof. reflexivity. Qed.

Example truediv_third :
  PyNum.int_truediv 1 3 = Ok (PyFloat (S754_finite false 6004799503160661 (-54))).
Proof. reflexivity. Qed.

Example float_eq_1000 : PyNum.eqb (PyFloat (PyNum.float_of_int 1000)) (PyInt 1000) = true.
Proof. reflexivity. Qed.

(** ** Memory sampler *)


Section Memory.

Variable os : OS.
Variable meminfo : string.
Variable items : gmap string Z.
Hypothesis Hopen : os_open os "/proc/meminfo" = Text meminfo.
Hypothesis Hparse : MemorySampler.parse (PyStr.lines meminfo) ∅ = Ok items.

(** The four metrics as functions of the seven looked-up values. *)
Lemma memory_sample_formulas (h : Heap) (free total available buffers cached swap_total swap_free : Z) :
  items !! "MemFree" = Some free ->
  items !! "MemTotal" = Some total ->
  items !! "MemAvailable" = Some available ->
  items !! "Buffers" = Some buffers ->
  items !! "Cached" = Some cached ->
  items !! "SwapTotal" = Some swap_total ->
  items !! "SwapFree" = Some swap_free ->
  MemorySampler.sample os h =
    (with_samples
       (with_entries
          (<["memory.swap-used" := Scalar (PyInt (1024 * (swap_total - swap_free)))]>
             (<["memory.cached" := Scalar (PyInt (1024 * (buffers + cached)))]>
                (<["memory.used" := Scalar (PyInt (1024 * (total - available)))]>
                   (<["memory.free" := Scalar (PyInt (1024 * free))]>
                      (entries (samples h))))))
          (samples h))
       (with_log (log h ++ [EvOpen "/proc/meminfo"]) h),
     Ok tt).
Proof.
  intros Hfree Htotal Havail Hbuf Hcached Hst Hsf.
  unfold MemorySampler.sample, open_file, bind, record, lift, MemorySampler.item.
  rewrite Hopen. cbn. rewrite Hparse.
  rewrite Hfree, Htotal, Havail, Hbuf, Hcached, Hst, Hsf.
  reflexivity.
Qed.

(** C3: with MemTotal=1000, MemFree=200, MemAvailable=300, Buffers=50,
    Cached=50, SwapTotal=100 and SwapFree=40 kilobytes in the parsed
    memory-info mapping, the pass returns normally and writes exactly
    the four scalars memory.free = 204800, memory.used = 716800,
    memory.cached = 102400 and memory.swap-used = 61440 bytes. *)
Theorem memory_sample_example (h : Heap) :
  items !! "MemTotal" = Some 1000 ->
  items !! "MemFree" = Some 200 ->
  items !! "MemAvailable" = Some 300 ->
  items !! "Buffers" = Some 50 ->
  items !! "Cached" = Some 50 ->
  items !! "SwapTotal" = Some 100 ->
  items !! "SwapFree" = Some 40 ->
  MemorySampler.sample os h =
    (with_samples
       (with_entries
          (<["memory.swap-used" := Scalar (PyInt 61440)]>
             (<["memory.cached" := Scalar (PyInt 102400)]>
                (<["memory.used" := Scalar (PyInt 716800)]>
                   (<["memory.free" := Scalar (PyInt 204800)]>
                      (entries (samples h))))))
          (samples h))
       (with_log (log h ++ [EvOpen "/proc/meminfo"]) h),
     Ok tt).
Proof.
  intros Htotal Hfree Havail Hbuf Hcached Hst Hsf.
  exact (memory_sample_formulas h 200 1000 300 50 50 100 40
           Hfree Htotal Havail Hbuf Hcached Hst Hsf).
Qed.

(** C4: when a required key is absent from the parsed mapping, the
    pass raises [KeyError] for an absent required key. *)
Theorem memory_sample_missing_key (h : Heap) :
  (exists key, key ∈ required_keys /\ items !! key = None) ->
  exists key h',
    key ∈ required_keys /\ items !! key = None
    /\ MemorySampler.sample os h = (h', Raise (KeyError key)).
Proof.
  intros (key & Hin & Hnone).
  unfold MemorySampler.sample, open_file, bind, record, lift, MemorySampler.item.
  rewrite Hopen. cbn. rewrite Hparse.
  destruct (items !! "MemFree") eqn:E1; [| missing "MemFree"].
  destruct (items !! "MemTotal") eqn:E2; [| missing "MemTotal"].
  destruct (items !! "MemAvailable") eqn:E3; [| missing "MemAvailable"].
  destruct (items !! "Buffers") eqn:E4; [| missing "Buffers"].
  destruct (items !! "Cached") eqn:E5; [| missing "Cached"].
  destruct (items !! "SwapTotal") eqn:E6; [| missing "SwapTotal"].
  destruct (items !! "SwapFree") eqn:E7; [| missing "SwapFree"].
  exfalso. unfold required_keys in Hin.
  repeat (apply elem_of_cons in Hin as [-> | Hin]; [congruence |]).
  by apply elem_of_nil in Hin.
Qed.

End Memory.

Lemma memory_sample_example_witness :
  MemorySampler.sample (host [("/proc/meminfo", meminfo_example)] []) fresh =
    (with_samples
       (with_entries
          (<["memory.swap-used" := Scalar (PyInt 61440)]>
             (<["memory.cached" := Scalar (PyInt 102400)]>
                (<["memory.used" := Scalar (PyInt 716800)]>
                   (<["memory.free" := Scalar (PyInt 204800)]> ∅))))
          empty_sink)
       (with_log [EvOpen "/proc/meminfo"] fresh),
     Ok tt).
Proof.
  eapply (memory_sample_example (host [("/proc/meminfo", meminfo_example)] []) meminfo_example);
    [reflexivity | vm_compute; reflexivity | vm_compute; reflexivity ..].
Defined.

Lemma memory_sample_missing_key_witness :
  exists key h',
    key ∈ required_keys
    /\ (<["Cached" := 50]> (<["Buffers" := 50]> (<["MemAvailable" := 300]>
          (<["MemFree" := 200]> (<["MemTotal" := 1000]> (∅ : gmap string Z)))))) !! key = None
    /\ MemorySampler.sample (host [("/proc/meminfo", meminfo_no_swap)] []) fresh
        = (h', Raise (KeyError key)).
Proof.
  apply (memory_sample_missing_key (host [("/proc/meminfo", meminfo_no_swap)] []) meminfo_no_swap).
  - reflexivity.
  - vm_compute. reflexivity.
  - exists "SwapTotal". split; [in_list | vm_compute; reflexivity].
Defined.

(** ** Disk-aggregate sampler *)

(** The field read from the file is a string, and the source compares
    it with integers: the test for device-mapper and software-RAID
    majors is false on every line. *)
Lemma major_test_never_fires (dev_major : string) (major : Z) :
  py_eq (VStr dev_major) (VNum (PyInt major)) = false.
Proof. reflexivity. Qed.

Lemma disk_partition_excluded (t : DiskSampler.totals) :
  DiskSampler.add_line diskstats_sda1 t = Some t.
Proof. reflexivity. Qed.

Lemma disk_whole_disk_included (t : DiskSampler.totals) :
  DiskSampler.add_line diskstats_sda t =
    Some {| DiskSampler.bytes_read := DiskSampler.bytes_read t + 409600;
            DiskSampler.bytes_written := DiskSampler.bytes_written t + 819200;
            DiskSampler.num_ops := DiskSampler.num_ops t + 12 |}.
Proof. reflexivity. Qed.

Lemma disk_software_raid_counted (t : DiskSampler.totals) :
  DiskSampler.add_line diskstats_md t =
    Some {| DiskSampler.bytes_read := DiskSampler.bytes_read t + 409600;
            DiskSampler.bytes_written := DiskSampler.bytes_written t + 819200;
            DiskSampler.num_ops := DiskSampler.num_ops t + 12 |}.
Proof. reflexivity. Qed.

(** Two lines that differ in the device major only add the same. *)
Lemma disk_major_ignored (line1 line2 major1 major2 : string) (fields : list string)
    (t : DiskSampler.totals) :
  PyStr.split (PyStr.strip line1) = major1 :: fields ->
  PyStr.split (PyStr.strip line2) = major2 :: fields ->
  DiskSampler.add_line line1 t = DiskSampler.add_line line2 t.
Proof.
  intros H1 H2. unfold DiskSampler.add_line. rewrite H1, H2.
  do 9 (destruct fields as [| ? fields]; [reflexivity |]). reflexivity.
Qed.

(** C1 (the code departs from the claim): on a file whose only line is a
    device-mapper device (major 253) with 800 sectors read, 1600 sectors
    written and 5 + 7 merged operations, the pass writes
    disk.all.read = 409600, disk.all.written = 819200 and
    disk.all.ops = 12: the line is counted, not skipped. *)
Theorem disk_sample_device_mapper_counted :
  DiskSampler.sample (host [("/proc/diskstats", diskstats_dm)] []) fresh =
    (with_samples
       (with_entries
          (<["disk.all.ops" := Scalar (PyInt 12)]>
             (<["disk.all.written" := Scalar (PyInt 819200)]>
                (<["disk.all.read" := Scalar (PyInt 409600)]> ∅)))
          empty_sink)
       (with_log [EvOpen "/proc/diskstats"] fresh),
     Ok tt).
Proof. vm_compute. reflexivity. Qed.

(** ** Writes of instanced metrics *)

Lemma set_instanced_accepted (name key : string) (v : num) (h : Heap) :
  accepts (samples h) name ->
  set_instanced name key v h = (with_samples (put name key v (samples h)) h, Ok tt).
Proof.
  unfold accepts, set_instanced, put, dict_of.
  destruct (entries (samples h) !! name) as [[w | m] |]; [intros [] | reflexivity |].
  intros ->. reflexivity.
Qed.

Lemma instance_put_eq (name key : string) (v : num) (s : Samples) :
  instance (put name key v s) name key = Some v.
Proof.
  unfold instance, put. cbn. rewrite lookup_insert_eq. apply lookup_insert_eq.
Qed.

Lemma instance_put_other (name name' key key' : string) (v : num) (s : Samples) :
  name' <> name ->
  instance (put name key v s) name' key' = instance s name' key'.
Proof.
  intros Hne. unfold instance, put. cbn. rewrite lookup_insert_ne; [reflexivity | congruence].
Qed.

Lemma instance_put_other_key (name key key' : string) (v : num) (s : Samples) :
  key' <> key ->
  accepts s name ->
  instance (put name key v s) name key' = instance s name key'.
Proof.
  intros Hne. unfold accepts, instance, put, dict_of. cbn. rewrite lookup_insert_eq.
  destruct (entries s !! name) as [[w | m] |]; [intros [] | |]; intros _;
    rewrite lookup_insert_ne; (reflexivity || congruence).
Qed.

Lemma accepts_put (name name' key : string) (v : num) (s : Samples) :
  accepts s name' -> accepts (put name key v s) name'.
Proof.
  unfold accepts, put. cbn.
  destruct (decide (name = name')) as [-> | Hne].
  - rewrite lookup_insert_eq. trivial.
  - rewrite lookup_insert_ne; [trivial | assumption].
Qed.

(** ** CPU sampler *)

Lemma ms_per_jiffy_100 (os : OS) :
  SC_CLK_TCK os = 100 -> MS_PER_JIFFY os = PyNum.float_of_int 10.
Proof. unfold MS_PER_JIFFY, USER_HZ. intros ->. reflexivity. Qed.

(** ** CGroup sampler: the per-file read policy *)







(** A whole pass over the two groups: nothing is written for group a,
    and the pass goes on to group b. *)
Example cgroup_pass_continues :
  CGroupSampler.sample (host cgroup_files_limits cgroup_dirs_ab) (with_cgroups_v2 (Some true) fresh)
  = (with_samples
       (put "cgroup.cpu.usage" "b" (PyFloat (PyNum.float_of_int 5))
          (put "cgroup.memory.usage" "b" (PyInt 4096) empty_sink))
       (with_log
          [ EvWalk "/sys/fs/cgroup/";
            EvOpen "/sys/fs/cgroup/a/memory.current";
            EvOpen "/sys/fs/cgroup/a/memory.max";
            EvOpen "/sys/fs/cgroup/a/memory.swap.current";
            EvOpen "/sys/fs/cgroup/a/memory.swap.max";
            EvOpen "/sys/fs/cgroup/a/cpu.weight";
            EvOpen "/sys/fs/cgroup/a/cpu.stat";
            EvOpen "/sys/fs/cgroup/b/memory.current";
            EvOpen "/sys/fs/cgroup/b/memory.max";
            EvOpen "/sys/fs/cgroup/b/memory.swap.current";
            EvOpen "/sys/fs/cgroup/b/memory.swap.max";
            EvOpen "/sys/fs/cgroup/b/cpu.weight";
            EvOpen "/sys/fs/cgroup/b/cpu.stat" ]
          (with_cgroups_v2 (Some true) fresh)),
     Ok tt).
Proof. vm_compute. reflexivity. Qed.


(** ** Laws of the monad and of the loops *)

Lemma bind_run {A B} (m : M A) (k : A -> M B) (h : Heap) :
  bind m k h = match m h with
               | (h', Ok a) => k a h'
               | (h', Raise e) => (h', Raise e)
               end.
Proof. reflexivity. Qed.

Lemma for_turns_add (n m : nat) (body : N -> M ctl) (i : N) (h : Heap) :
  for_turns (n + m) body i h =
    match for_turns n body i h with
    | (h', Ok Next) => for_turns m body (i + N.of_nat n)%N h'
    | r => r
    end.
Proof.
  revert i h. induction n as [| n IH]; intros i h.
  - cbn. rewrite N.add_0_r. reflexivity.
  - cbn [Nat.add for_turns]. rewrite !bind_run.
    destruct (body i h) as [h' [[|] | e]]; try reflexivity.
    rewrite IH. replace (i + 1 + N.of_nat n)%N with (i + N.of_nat (S n))%N by lia.
    reflexivity.
Qed.

Lemma for_turns_one (body : N -> M ctl) (i : N) (h : Heap) :
  for_turns 1 body i h = body i h.
Proof.
  cbn. rewrite bind_run. destruct (body i h) as [h' [[|] | e]]; reflexivity.
Qed.

Lemma for_count_turns (count : positive) (body : N -> M ctl) (i : N) (h : Heap) :
  for_count count body i h = for_turns (Pos.to_nat count) body i h.
Proof.
  revert i h. induction count as [q IH | q IH |]; intros i h.
  - rewrite Pos2Nat.inj_xI.
    replace (S (2 * Pos.to_nat q)) with (1 + (Pos.to_nat q + Pos.to_nat q))%nat by lia.
    cbn [for_count]. rewrite for_turns_add, for_turns_one, bind_run.
    destruct (body i h) as [h1 [[|] | e]]; try reflexivity.
    rewrite for_turns_add, bind_run, IH.
    destruct (for_turns (Pos.to_nat q) body (i + N.of_nat 1)%N h1) as [h2 [[|] | e]] eqn:E;
      change (N.of_nat 1) with 1%N in E; rewrite E; try reflexivity.
    rewrite IH. f_equal. lia.
  - rewrite Pos2Nat.inj_xO.
    replace (2 * Pos.to_nat q)%nat with (Pos.to_nat q + Pos.to_nat q)%nat by lia.
    cbn [for_count]. rewrite for_turns_add, bind_run, IH.
    destruct (for_turns (Pos.to_nat q) body i h) as [h1 [[|] | e]]; try reflexivity.
    rewrite IH. f_equal. lia.
  - rewrite for_turns_one. reflexivity.
Qed.

Lemma for_range_turns (lo hi : N) (count : positive) (body : N -> M ctl) (h : Heap) :
  (hi - lo)%N = Npos count ->
  for_range lo hi body h =
    match for_turns (Pos.to_nat count) body lo h with
    | (h', Ok _) => (h', Ok tt)
    | (h', Raise e) => (h', Raise e)
    end.
Proof.
  intros Hcount. unfold for_range. rewrite Hcount, bind_run, for_count_turns. reflexivity.
Qed.

(** *** Invariants *)

Section Preserves.

Variable I : Heap -> Prop.

Lemma preserves_ret {A} (a : A) : preserves I (ret a).
Proof. intros h Hh. exact Hh. Qed.

Lemma preserves_raise {A} (e : exn) : preserves I (@raise A e).
Proof. intros h Hh. exact Hh. Qed.

Lemma preserves_lift {A} (r : Result A) : preserves I (lift r).
Proof. intros h Hh. exact Hh. Qed.

Lemma preserves_int (s : string) : preserves I (int s).
Proof. unfold int. destruct (PyStr.int s); [apply preserves_ret | apply preserves_raise]. Qed.

Lemma preserves_bind {A B} (m : M A) (k : A -> M B) :
  preserves I m -> (forall a, preserves I (k a)) -> preserves I (bind m k).
Proof.
  intros Hm Hk h Hh. rewrite bind_run. specialize (Hm h Hh).
  destruct (m h) as [h' [a | e]]; cbn in *; [apply Hk, Hm | exact Hm].
Qed.

Lemma preserves_try {A} (m handler : M A) :
  preserves I m -> preserves I handler ->
  preserves I (try_except_FileNotFoundError m handler).
Proof.
  intros Hm Hh h Hi. unfold try_except_FileNotFoundError. specialize (Hm h Hi).
  destruct (m h) as [h' [a | []]]; cbn in *; try exact Hm. apply Hh, Hm.
Qed.

Lemma preserves_for_each {A} (xs : list A) (body : A -> M ctl) :
  (forall x, x ∈ xs -> preserves I (body x)) -> preserves I (for_each xs body).
Proof.
  induction xs as [| x xs IH]; intros Hbody; [apply preserves_ret |].
  cbn [for_each]. apply preserves_bind; [apply Hbody; left |].
  intros [|]; [| apply preserves_ret].
  apply IH. intros y Hy. apply Hbody. right. exact Hy.
Qed.

Lemma preserves_for_turns (n : nat) (body : N -> M ctl) (i : N) :
  (forall j, preserves I (body j)) -> preserves I (for_turns n body i).
Proof.
  intros Hbody. revert i. induction n as [| n IH]; intros i; [apply preserves_ret |].
  cbn [for_turns]. apply preserves_bind; [apply Hbody |].
  intros [|]; [apply IH | apply preserves_ret].
Qed.

Lemma preserves_for_range (lo hi : N) (body : N -> M ctl) :
  (forall j, preserves I (body j)) -> preserves I (for_range lo hi body).
Proof.
  intros Hbody. unfold for_range. destruct (hi - lo)%N as [| count]; [apply preserves_ret |].
  apply preserves_bind; [| intros; apply preserves_ret].
  intros h Hh. rewrite for_count_turns. apply preserves_for_turns; assumption.
Qed.

Lemma preserves_open_file (os : OS) (path : string) :
  (forall h, I h -> I (with_log (log h ++ [EvOpen path]) h)) ->
  preserves I (open_file os path).
Proof.
  intros Hlog h Hh. unfold open_file, record, bind.
  destruct (os_open os path); cbn; apply Hlog, Hh.
Qed.

Lemma preserves_path_exists (os : OS) (path : string) :
  (forall h, I h -> I (with_log (log h ++ [EvExists path]) h)) ->
  preserves I (path_exists os path).
Proof. intros Hlog h Hh. cbn. apply Hlog, Hh. Qed.

Lemma preserves_walk (os : OS) (top : string) :
  (forall h, I h -> I (with_log (log h ++ [EvWalk top]) h)) ->
  preserves I (walk os top).
Proof. intros Hlog h Hh. cbn. apply Hlog, Hh. Qed.

Lemma preserves_set_instanced (name key : string) (v : num) :
  (forall s h, I h -> I (with_samples s h)) ->
  preserves I (set_instanced name key v).
Proof.
  intros Hs h Hh. unfold set_instanced.
  destruct (entries (samples h) !! name) as [[w | m] |]; cbn; try exact Hh; try apply Hs, Hh.
  destruct (auto_dict (samples h)); cbn; [apply Hs, Hh | exact Hh].
Qed.

End Preserves.

(** ** CPU-temperature sampler: discovery *)

Section Detect.

Import CPUTemperatureSampler.

Variable os : OS.
Variable hwmonid : N.
Variable name : string.

(** One turn on an input that exists and whose label file is readable:
    the path is appended exactly when the rule includes it. *)
Lemma detect_turn_labelled (index : N) (raw : string) (h : Heap) :
  os_exists os (sensor_path hwmonid index) = true ->
  os_open os (label_path hwmonid index) = Text raw ->
  exists h',
    detect_turn os hwmonid name index h = (h', Ok Next)
    /\ sensors h' =
         sensors h ++ (if rule_includes name (sensor_label os hwmonid index)
                       then [sensor_path hwmonid index] else []).
Proof.
  intros Hex Hopen.
  unfold detect_turn, path_exists, open_file, record, append_sensor.
  unfold bind at 1 2. cbn [ret]. rewrite Hex. cbn [negb].
  unfold bind at 1 2. rewrite Hopen. cbn [ret].
  unfold rule_includes, sensor_label. rewrite Hopen. cbn zeta.
  destruct (nonempty (PyStr.strip raw));
    destruct (String.eqb (PyStr.strip raw) "CPU Temperature");
    destruct (String.eqb name "atk0110");
    destruct (String.eqb (PyStr.strip raw) "Tctl");
    destruct (String.eqb name "cpu_thermal");
    cbn; eexists; (split; [reflexivity |]); cbn; rewrite ?app_nil_r; reflexivity.
Qed.

Lemma detect_turn_absent (index : N) (h : Heap) :
  os_exists os (sensor_path hwmonid index) = false ->
  exists h',
    detect_turn os hwmonid name index h = (h', Ok Stop) /\ sensors h' = sensors h.
Proof.
  intros Hex. unfold detect_turn, path_exists, record.
  unfold bind at 1 2. cbn [ret]. rewrite Hex. cbn. eexists. split; reflexivity.
Qed.

Lemma detect_turn_no_label (index : N) (h : Heap) :
  os_exists os (sensor_path hwmonid index) = true ->
  os_open os (label_path hwmonid index) = NoSuchFile ->
  exists h',
    detect_turn os hwmonid name index h
    = (h', Raise (FileNotFoundError (label_path hwmonid index)))
    /\ sensors h' = sensors h.
Proof.
  intros Hex Hopen. unfold detect_turn, path_exists, open_file, record.
  unfold bind at 1 2. cbn [ret]. rewrite Hex. cbn [negb].
  unfold bind at 1 2. rewrite Hopen. cbn. eexists. split; reflexivity.
Qed.

Variable label : N -> string.

(** [n] turns on inputs that exist and have readable labels. *)
Lemma detect_turns_labelled (n : nat) (lo : N) (h : Heap) :
  (forall i, (lo <= i < lo + N.of_nat n)%N ->
     os_exists os (sensor_path hwmonid i) = true
     /\ os_open os (label_path hwmonid i) = Text (label i)) ->
  exists h',
    for_turns n (detect_turn os hwmonid name) lo h = (h', Ok Next)
    /\ sensors h' =
         sensors h ++ map (sensor_path hwmonid)
                        (List.filter (fun i => rule_includes name (sensor_label os hwmonid i))
                           (N_range lo n)).
Proof.
  revert lo h. induction n as [| n IH]; intros lo h Hall.
  - exists h. split; [reflexivity |]. cbn. rewrite app_nil_r. reflexivity.
  - destruct (Hall lo ltac:(lia)) as [Hex Hopen].
    destruct (detect_turn_labelled lo (label lo) h Hex Hopen) as (h1 & Hrun & Hs1).
    destruct (IH (lo + 1)%N h1) as (h2 & Hrest & Hs2); [intros i Hi; apply Hall; lia |].
    exists h2. split.
    + cbn [for_turns]. rewrite bind_run, Hrun. exact Hrest.
    + rewrite Hs2, Hs1. cbn [N_range List.filter].
      destruct (rule_includes name (sensor_label os hwmonid lo)); cbn [map];
        rewrite <- ?app_assoc; reflexivity.
Qed.

(** The whole enumeration, when inputs 1..n exist with readable labels
    and the enumeration ends at input n + 1. *)
Lemma detect_enumeration (n : nat) (h h1 : Heap) (r : Result ctl) :
  (N.of_nat n < 2 ^ 32 - 1)%N ->
  (forall i, (1 <= i <= N.of_nat n)%N ->
     os_exists os (sensor_path hwmonid i) = true
     /\ os_open os (label_path hwmonid i) = Text (label i)) ->
  (forall h0, exists h',
     detect_turn os hwmonid name (N.of_nat n + 1)%N h0 = (h', r) /\ sensors h' = sensors h0) ->
  r <> Ok Next ->
  exists h',
    detect_cpu_sensors os hwmonid name h
    = (h', match r with Raise e => Raise e | Ok _ => Ok tt end)
    /\ sensors h' =
         sensors h ++ map (sensor_path hwmonid)
                        (List.filter (fun i => rule_includes name (sensor_label os hwmonid i))
                           (N_range 1 n)).
Proof.
  intros Hn Hall Hend Hr.
  unfold detect_cpu_sensors.
  rewrite (for_range_turns 1 (2 ^ 32) 4294967295 _ h eq_refl).
  assert (exists k, Pos.to_nat 4294967295 = (n + S k)%nat) as [k ->].
  { exists (Pos.to_nat 4294967295 - n - 1)%nat. lia. }
  rewrite for_turns_add.
  destruct (detect_turns_labelled n 1 h) as (h2 & Hrun & Hs2); [intros i Hi; apply Hall; lia |].
  rewrite Hrun. cbn [for_turns]. rewrite bind_run.
  replace (1 + N.of_nat n)%N with (N.of_nat n + 1)%N by lia.
  destruct (Hend h2) as (h3 & Hlast & Hs3). rewrite Hlast.
  exists h3. split; [| rewrite Hs3; exact Hs2].
  destruct r as [[|] | e]; [congruence | reflexivity | reflexivity].
Qed.

(** Where every label file can be read, the code follows the inclusion
    rule: when inputs 1..n of a device exist and have readable label
    files, discovery appends to the cache exactly those that the rule
    includes (with a label: unless the device is atk0110 and the label
    is not CPU Temperature, or the label is Tctl; with a blank label
    file: only for cpu_thermal), in order. If input n + 1 does not
    exist the enumeration ends normally; if it exists but its label
    file does not, it is not cached, whatever the device, and
    [FileNotFoundError] is raised. *)
Theorem detect_cpu_sensors_rule (n : nat) (h : Heap) :
  (N.of_nat n < 2 ^ 32 - 1)%N ->
  (forall i, (1 <= i <= N.of_nat n)%N ->
     os_exists os (sensor_path hwmonid i) = true
     /\ os_open os (label_path hwmonid i) = Text (label i)) ->
  let included :=
    map (sensor_path hwmonid)
      (List.filter (fun i => rule_includes name (sensor_label os hwmonid i)) (N_range 1 n)) in
  (os_exists os (sensor_path hwmonid (N.of_nat n + 1)) = false ->
   exists h',
     detect_cpu_sensors os hwmonid name h = (h', Ok tt)
     /\ sensors h' = sensors h ++ included)
  /\ (os_exists os (sensor_path hwmonid (N.of_nat n + 1)) = true ->
      os_open os (label_path hwmonid (N.of_nat n + 1)) = NoSuchFile ->
      exists h',
        detect_cpu_sensors os hwmonid name h
        = (h', Raise (FileNotFoundError (label_path hwmonid (N.of_nat n + 1))))
        /\ sensors h' = sensors h ++ included).
Proof.
  intros Hn Hall included. split.
  - intros Hex.
    apply (detect_enumeration n h h (Ok Stop) Hn Hall); [| discriminate].
    intros h0. apply detect_turn_absent, Hex.
  - intros Hex Hopen.
    apply (detect_enumeration n h h
             (Raise (FileNotFoundError (label_path hwmonid (N.of_nat n + 1)))) Hn Hall);
      [| discriminate].
    intros h0. apply detect_turn_no_label; assumption.
Qed.

End Detect.

Lemma detect_cpu_sensors_rule_witness :
  exists h',
    CPUTemperatureSampler.detect_cpu_sensors (host hwmon_atk []) 0 "atk0110" fresh = (h', Ok tt)
    /\ sensors h' = ["/sys/class/hwmon/hwmon0/temp1_input"].
Proof.
  refine (proj1 (detect_cpu_sensors_rule (host hwmon_atk []) 0 "atk0110"
                   (fun i => match os_open (host hwmon_atk [])
                                     (CPUTemperatureSampler.label_path 0 i) with
                             | Text s => s
                             | _ => EmptyString
                             end)
                   3 fresh _ _) _).
  - reflexivity.
  - intros i Hi.
    assert (i = 1 \/ i = 2 \/ i = 3)%N as [-> | [-> | ->]] by lia; split; reflexivity.
  - reflexivity.
Defined.

(** On an ARM device whose input has no label file at all, opening the
    label raises [FileNotFoundError]; the scan of the devices catches it
    and ends, and no sensor is cached. *)
Example discover_label_file_missing :
  CPUTemperatureSampler.discover (host hwmon_arm []) fresh
  = (with_log [EvOpen "/sys/class/hwmon/hwmon0/name";
               EvExists "/sys/class/hwmon/hwmon0/temp1_input";
               EvOpen "/sys/class/hwmon/hwmon0/temp1_label"] fresh,
     Ok tt).
Proof. vm_compute. reflexivity. Qed.

Section Scan.

Import CPUTemperatureSampler.

Variable os : OS.

(** A device whose name is not one of the CPU names is passed over. *)
Lemma scan_turn_other_device (index : N) (raw : string) (h : Heap) :
  os_open os (name_path index) = Text raw ->
  existsb (String.eqb (PyStr.strip raw)) cpu_names = false ->
  scan_turn os index h = (with_log (log h ++ [EvOpen (name_path index)]) h, Ok Next).
Proof.
  intros Hopen Hname. unfold scan_turn, try_except_FileNotFoundError, open_file, record.
  unfold bind. rewrite Hopen. cbn [ret]. rewrite Hname. reflexivity.
Qed.

(** A device with a CPU name has its inputs enumerated; a missing file
    met on the way ends the scan of the devices. *)
Lemma scan_turn_cpu_device (index : N) (raw : string) (h : Heap) :
  os_open os (name_path index) = Text raw ->
  existsb (String.eqb (PyStr.strip raw)) cpu_names = true ->
  scan_turn os index h =
    match detect_cpu_sensors os index (PyStr.strip raw)
            (with_log (log h ++ [EvOpen (name_path index)]) h) with
    | (h', Ok _) => (h', Ok Next)
    | (h', Raise (FileNotFoundError _)) => (h', Ok Stop)
    | (h', Raise e) => (h', Raise e)
    end.
Proof.
  intros Hopen Hname. unfold scan_turn, try_except_FileNotFoundError, open_file, record.
  unfold bind. rewrite Hopen. cbn [ret]. rewrite Hname.
  destruct (detect_cpu_sensors os index (PyStr.strip raw) _) as [h' [[] | []]]; reflexivity.
Qed.

(** The first missing name file ends the scan of the devices. *)
Lemma scan_turn_end (index : N) (h : Heap) :
  os_open os (name_path index) = NoSuchFile ->
  scan_turn os index h = (with_log (log h ++ [EvOpen (name_path index)]) h, Ok Stop).
Proof.
  intros Hopen. unfold scan_turn, try_except_FileNotFoundError, open_file, record.
  unfold bind. rewrite Hopen. reflexivity.
Qed.

End Scan.

Example discover_atk :
  sensors (fst (CPUTemperatureSampler.discover (host hwmon_atk []) fresh))
  = ["/sys/class/hwmon/hwmon0/temp1_input"].
Proof. vm_compute. reflexivity. Qed.

(** ** CPU-temperature sampler: reading *)

Section Reading.

Import CPUTemperatureSampler.

Variable os : OS.

Lemma read_turn_nonzero (r : Reading) (h : Heap) :
  reads_nonzero os r ->
  accepts (samples h) "cpu.temperature" ->
  read_turn os (r_path r) h
  = (with_samples (write_reading (samples h) r) (with_log (log h ++ [EvOpen (r_path r)]) h),
     Ok Next).
Proof.
  intros (raw & Hopen & Hint & Hnz & Hdiv) Hacc.
  unfold read_turn, open_file, record, int.
  unfold bind at 1 2. rewrite Hopen. cbn [ret]. rewrite Hint.
  unfold bind at 1. cbn [ret].
  destruct (Z.eqb_spec (r_millidegrees r) 0) as [? | _]; [contradiction |].
  unfold bind at 1, lift. rewrite Hdiv.
  unfold bind at 1. rewrite set_instanced_accepted by exact Hacc. reflexivity.
Qed.

Lemma read_turn_zero (path : string) (h : Heap) :
  reads_zero os path ->
  read_turn os path h = (with_log (log h ++ [EvOpen path]) h, Ok Stop).
Proof.
  intros (raw & Hopen & Hint). unfold read_turn, open_file, record, int.
  unfold bind at 1 2. rewrite Hopen. cbn [ret]. rewrite Hint. reflexivity.
Qed.

Lemma accepts_write_readings (done : list Reading) (s : Samples) (name : string) :
  accepts s name -> accepts (fold_left write_reading done s) name.
Proof.
  revert s. induction done as [| r done IH]; intros s Hacc; [exact Hacc |].
  cbn. apply IH, accepts_put, Hacc.
Qed.

(** The reading loop over sensors that read non-zero values, followed
    by nothing or by a sensor that reads zero and any others. *)
Lemma reading_loop (done : list Reading) (tail : list string) (h : Heap) :
  Forall (reads_nonzero os) done ->
  match tail with [] => True | path :: _ => reads_zero os path end ->
  accepts (samples h) "cpu.temperature" ->
  exists h',
    for_each (map r_path done ++ tail) (read_turn os) h = (h', Ok tt)
    /\ samples h' = fold_left write_reading done (samples h)
    /\ log h' = log h ++ map EvOpen (map r_path done ++ firstn 1 tail)
    /\ sensors h' = sensors h
    /\ cgroups_v2 h' = cgroups_v2 h.
Proof.
  intros Hdone Htail. revert h.
  induction Hdone as [| r done Hr _ IH]; intros h Hacc.
  - destruct tail as [| path rest].
    + exists h. cbn. rewrite app_nil_r. auto.
    + eexists. cbn [map app for_each]. rewrite bind_run, (read_turn_zero path h Htail).
      cbn. auto.
  - cbn [map app for_each]. rewrite bind_run, (read_turn_nonzero r h Hr Hacc).
    destruct (IH (with_samples (write_reading (samples h) r)
                    (with_log (log h ++ [EvOpen (r_path r)]) h)))
      as (h' & Hrun & Hs & Hl & Hc & Hf); [apply accepts_put, Hacc |].
    exists h'. split; [exact Hrun |]. split; [exact Hs |].
    split; [| auto]. rewrite Hl. cbn. rewrite <- app_assoc. reflexivity.
Qed.

(** C9: once discovery is over, the reading phase opens the cached
    sensors in order. Those that read a non-zero integer v before the
    first one that reads zero are written under their path as
    v / 1000; the first sensor that reads zero ends the pass, and
    neither it nor any sensor after it is written, or even opened. *)
Theorem temperature_reading_stops_at_zero
    (h h1 : Heap) (done : list Reading) (tail : list string) :
  discover os h = (h1, Ok tt) ->
  sensors h1 = map r_path done ++ tail ->
  Forall (reads_nonzero os) done ->
  match tail with [] => True | path :: _ => reads_zero os path end ->
  accepts (samples h1) "cpu.temperature" ->
  exists h',
    sample os h = (h', Ok tt)
    /\ samples h' = fold_left write_reading done (samples h1)
    /\ log h' = log h1 ++ map EvOpen (map r_path done ++ firstn 1 tail)
    /\ sensors h' = sensors h1
    /\ cgroups_v2 h' = cgroups_v2 h1.
Proof.
  intros Hdisc Hcache Hdone Htail Hacc.
  destruct (reading_loop done tail h1 Hdone Htail Hacc) as (h' & Hrun & Hrest).
  exists h'. split; [| exact Hrest].
  unfold sample. rewrite bind_run, Hdisc. rewrite bind_run. cbn [get_sensors].
  rewrite Hcache. exact Hrun.
Qed.

End Reading.

Lemma temperature_reading_stops_at_zero_witness :
  exists h',
    CPUTemperatureSampler.sample (host hwmon_coretemp []) fresh = (h', Ok tt)
    /\ instance (samples h') "cpu.temperature" "/sys/class/hwmon/hwmon0/temp1_input"
       = Some (PyFloat (PyNum.float_of_int 45))
    /\ instance (samples h') "cpu.temperature" "/sys/class/hwmon/hwmon0/temp2_input" = None
    /\ instance (samples h') "cpu.temperature" "/sys/class/hwmon/hwmon0/temp3_input" = None.
Proof.
  destruct (temperature_reading_stops_at_zero (host hwmon_coretemp []) fresh
              (fst (CPUTemperatureSampler.discover (host hwmon_coretemp []) fresh))
              [ {| r_path := "/sys/class/hwmon/hwmon0/temp1_input";
                   r_millidegrees := 45000;
                   r_celsius := PyFloat (PyNum.float_of_int 45) |} ]
              [ "/sys/class/hwmon/hwmon0/temp2_input"; "/sys/class/hwmon/hwmon0/temp3_input" ])
    as (h' & Hrun & Hsamples & _).
  - vm_compute. reflexivity.
  - vm_compute. reflexivity.
  - constructor; [| constructor].
    exists ("45000" +:+ nl).
    split; [reflexivity | split; [reflexivity | split; [discriminate | vm_compute; reflexivity]]].
  - exists ("0" +:+ nl). split; reflexivity.
  - reflexivity.
  - exists h'. split; [exact Hrun |]. rewrite Hsamples. repeat split.
Defined.

(** ** CPU-temperature sampler: the sensor cache across passes *)

Section Cache.

Import CPUTemperatureSampler.

Variable cache : list string.
Variable before : list event.

Lemma only_cached_opened_open (path : string) (h : Heap) :
  path ∈ cache ->
  only_cached_opened cache before h ->
  only_cached_opened cache before (with_log (log h ++ [EvOpen path]) h).
Proof.
  intros Hin (Hs & opened & Hlog & Hall). split; [exact Hs |].
  exists (opened ++ [path]). cbn. split.
  - rewrite Hlog, map_app, <- app_assoc. reflexivity.
  - apply Forall_app. split; [exact Hall | constructor; [exact Hin | constructor]].
Qed.

Lemma read_turn_only_cached (os : OS) (path : string) :
  path ∈ cache -> preserves (only_cached_opened cache before) (read_turn os path).
Proof.
  intros Hin. unfold read_turn.
  apply preserves_bind.
  { apply preserves_open_file. intros h. apply only_cached_opened_open, Hin. }
  intros raw. apply preserves_bind; [apply preserves_int |].
  intros temperature. destruct (temperature =? 0); [apply preserves_ret |].
  apply preserves_bind; [apply preserves_lift |].
  intros v. apply preserves_bind; [| intros; apply preserves_ret].
  apply preserves_set_instanced. intros s h Hh. exact Hh.
Qed.

(** A pass that starts with a non-empty cache skips discovery. *)
Lemma sample_only_cached (os : OS) :
  cache <> [] -> preserves (only_cached_opened cache before) (sample os).
Proof.
  intros Hne h Hh. pose proof Hh as (Hs & _).
  unfold sample, discover. rewrite !bind_run. cbn [get_sensors].
  destruct (sensors h) as [| path rest] eqn:E; [congruence |].
  cbn [ret]. rewrite bind_run. cbn [get_sensors]. rewrite E.
  apply preserves_for_each; [| exact Hh].
  intros p Hp. apply read_turn_only_cached. rewrite <- Hs. exact Hp.
Qed.

Lemma run_passes_only_cached (passes : list (OS * Samples)) (h : Heap) :
  cache <> [] ->
  only_cached_opened cache before h ->
  only_cached_opened cache before (run_passes sample passes h).
Proof.
  intros Hne. revert h. induction passes as [| [os sink] rest IH]; intros h Hh; [exact Hh |].
  cbn [run_passes]. apply IH, sample_only_cached; [exact Hne |]. exact Hh.
Qed.

End Cache.

(** C6 (amended): once the cache of sensor paths is not empty, every
    later pass, on whatever host state and sink, leaves the cache as it
    is and asks the operating system for nothing but the opening of
    cached sensor files: the hwmon tree is not scanned again. *)
Theorem temperature_cache_reused (passes : list (OS * Samples)) (h : Heap) :
  sensors h <> [] ->
  let h' := run_passes CPUTemperatureSampler.sample passes h in
  sensors h' = sensors h
  /\ exists opened,
       log h' = log h ++ map EvOpen opened
       /\ Forall (fun path => path ∈ sensors h) opened.
Proof.
  intros Hne.
  apply (run_passes_only_cached (sensors h) (log h) passes h Hne).
  split; [reflexivity |]. exists []. cbn. rewrite app_nil_r. split; [reflexivity | constructor].
Qed.

Lemma temperature_cache_reused_witness :
  let h := fst (CPUTemperatureSampler.sample (host hwmon_coretemp []) fresh) in
  let h' := run_passes CPUTemperatureSampler.sample
              [(host hwmon_coretemp [], empty_sink); (host hwmon_atk [], empty_sink)] h in
  sensors h' = sensors h
  /\ exists opened,
       log h' = log h ++ map EvOpen opened
       /\ Forall (fun path => path ∈ sensors h) opened.
Proof.
  apply (temperature_cache_reused
           [(host hwmon_coretemp [], empty_sink); (host hwmon_atk [], empty_sink)]
           (fst (CPUTemperatureSampler.sample (host hwmon_coretemp []) fresh))).
  vm_compute. discriminate.
Defined.

(** C6 (as stated, refuted): on a host whose only CPU device offers
    nothing but the control temperature, the first pass finds no sensor,
    and the second pass scans the hwmon tree again, query for query. *)
Lemma temperature_rescans_when_nothing_found :
  let os := host hwmon_k10temp_tctl [] in
  let scan := [ EvOpen "/sys/class/hwmon/hwmon0/name";
                EvExists "/sys/class/hwmon/hwmon0/temp1_input";
                EvOpen "/sys/class/hwmon/hwmon0/temp1_label";
                EvExists "/sys/class/hwmon/hwmon0/temp2_input";
                EvOpen "/sys/class/hwmon/hwmon1/name" ] in
  let first := fst (CPUTemperatureSampler.sample os fresh) in
  let second := fst (CPUTemperatureSampler.sample os (with_samples empty_sink first)) in
  log first = scan /\ sensors first = [] /\ log second = scan ++ scan.
Proof. vm_compute. repeat split. Qed.

(** ** CGroup sampler: the walk *)

Section WalkInvariant.

Import CGroupSampler.

(** An invariant that no write to the sink, no opening of a file and
    no walk can break. *)
Variable I : Heap -> Prop.
Hypothesis I_sink : forall s h, I h -> I (with_samples s h).
Hypothesis I_open : forall path h, I h -> I (with_log (log h ++ [EvOpen path]) h).
Hypothesis I_walk : forall top h, I h -> I (with_log (log h ++ [EvWalk top]) h).

Lemma integer_stat_preserves (os : OS) (path cgroup name : string) :
  preserves I (read_cgroup_integer_stat os path cgroup name).
Proof.
  unfold read_cgroup_integer_stat.
  apply preserves_try; [| apply preserves_ret].
  apply preserves_bind; [apply preserves_open_file, I_open |].
  intros stat. destruct (PyStr.int (PyStr.strip stat)) as [value |]; [| apply preserves_ret].
  destruct (in_range os value); [| apply preserves_ret].
  apply preserves_set_instanced, I_sink.
Qed.

Lemma keyed_stat_preserves (os : OS) (path cgroup name key : string) :
  preserves I (read_cgroup_keyed_stat os path cgroup name key).
Proof.
  unfold read_cgroup_keyed_stat.
  apply preserves_bind; [apply preserves_open_file, I_open |].
  intros stat. apply preserves_for_each. intros line _. unfold keyed_turn.
  destruct (negb (PyStr.startswith line key)); [apply preserves_ret |].
  destruct (List.last (Some <$> PyStr.split line) None) as [field |];
    [| apply preserves_raise].
  apply preserves_bind; [apply preserves_int |].
  intros value. destruct (in_range os value); [| apply preserves_ret].
  apply preserves_bind; [apply preserves_lift |].
  intros v. apply preserves_bind; [| intros; apply preserves_ret].
  apply preserves_set_instanced, I_sink.
Qed.

Lemma walk_turn_preserves (os : OS) (path : string) : preserves I (walk_turn os path).
Proof.
  unfold walk_turn. destruct (negb (nonempty _)); [apply preserves_ret |].
  repeat (apply preserves_bind; [apply integer_stat_preserves | intros _]).
  apply preserves_bind; [apply keyed_stat_preserves | intros _; apply preserves_ret].
Qed.

(** The part of the pass that follows the probe. *)
Lemma walk_all_preserves (os : OS) :
  preserves I (paths <- walk os cgroups_v2_path ;; for_each paths (walk_turn os)).
Proof.
  apply preserves_bind; [apply preserves_walk, I_walk |].
  intros paths. apply preserves_for_each. intros path _. apply walk_turn_preserves.
Qed.

End WalkInvariant.

Lemma existence_queries_app (l1 l2 : list event) :
  existence_queries (l1 ++ l2) = existence_queries l1 ++ existence_queries l2.
Proof. unfold existence_queries. apply flat_map_app. Qed.

Lemma root_nonempty : nonempty CGroupSampler.cgroups_v2_path = true.
Proof. reflexivity. Qed.

Lemma sample_resolved (os : OS) (b : bool) (queries : list string) :
  preserves (resolved b queries) (CGroupSampler.sample os).
Proof.
  intros h Hh. pose proof Hh as (Hflag & _).
  unfold CGroupSampler.sample, CGroupSampler.probe.
  rewrite !bind_run. cbn [CGroupSampler.get_cgroups_v2]. rewrite Hflag. cbn [ret].
  rewrite root_nonempty.
  apply (walk_all_preserves (resolved b queries)); [| | | exact Hh]; clear; unfold resolved.
  - intros s h Hh. exact Hh.
  - intros path h (Hflag & Hq). split; [exact Hflag |]. cbn.
    rewrite existence_queries_app, Hq. cbn. apply app_nil_r.
  - intros top h (Hflag & Hq). split; [exact Hflag |]. cbn.
    rewrite existence_queries_app, Hq. cbn. apply app_nil_r.
Qed.

(** C7: once the cgroups-v2 flag is resolved, every later pass, on
    whatever host state and sink, leaves the flag as it is and makes no
    existence query: the probe file is not examined again. *)
Theorem cgroup_probe_idempotent (passes : list (OS * Samples)) (h : Heap) (b : bool) :
  cgroups_v2 h = Some b ->
  let h' := run_passes CGroupSampler.sample passes h in
  cgroups_v2 h' = Some b
  /\ existence_queries (log h') = existence_queries (log h).
Proof.
  intros Hflag.
  enough (Hgen : forall queries passes h0,
             resolved b queries h0 ->
             resolved b queries (run_passes CGroupSampler.sample passes h0)).
  { apply (Hgen (existence_queries (log h)) passes h). split; [exact Hflag | reflexivity]. }
  clear. intros queries passes.
  induction passes as [| [os sink] rest IH]; intros h Hinv; [exact Hinv |].
  cbn [run_passes]. apply IH. apply (sample_resolved os b queries). exact Hinv.
Qed.

Lemma cgroup_probe_idempotent_witness :
  let h := fst (CGroupSampler.sample (host cgroup_files_one cgroup_dirs_a) fresh) in
  let h' := run_passes CGroupSampler.sample
              [(host cgroup_files_one cgroup_dirs_a, empty_sink);
               (host cgroup_files_limits cgroup_dirs_ab, empty_sink)] h in
  cgroups_v2 h' = Some true
  /\ existence_queries (log h') = existence_queries (log h).
Proof.
  apply (cgroup_probe_idempotent
           [(host cgroup_files_one cgroup_dirs_a, empty_sink);
            (host cgroup_files_limits cgroup_dirs_ab, empty_sink)]
           (fst (CGroupSampler.sample (host cgroup_files_one cgroup_dirs_a) fresh)) true).
  vm_compute. reflexivity.
Defined.

(** The first pass of a process does examine the probe file, once. *)
Example cgroup_first_pass_probes :
  let h := fst (CGroupSampler.sample (host cgroup_files_one cgroup_dirs_a) fresh) in
  cgroups_v2 h = Some true
  /\ existence_queries (log h) = ["/sys/fs/cgroup/cgroup.controllers"].
Proof. vm_compute. split; reflexivity. Qed.

(** ** CGroup sampler: the flag and the walk *)

Section FlagBlind.

Lemma flag_blind_ret {A} (a : A) : flag_blind (ret a).
Proof. intros f h. reflexivity. Qed.

Lemma flag_blind_raise {A} (e : exn) : flag_blind (@raise A e).
Proof. intros f h. reflexivity. Qed.

Lemma flag_blind_lift {A} (r : Result A) : flag_blind (lift r).
Proof. intros f h. reflexivity. Qed.

Lemma flag_blind_int (s : string) : flag_blind (int s).
Proof. unfold int. destruct (PyStr.int s); [apply flag_blind_ret | apply flag_blind_raise]. Qed.

Lemma flag_blind_bind {A B} (m : M A) (k : A -> M B) :
  flag_blind m -> (forall a, flag_blind (k a)) -> flag_blind (bind m k).
Proof.
  intros Hm Hk f h. rewrite !bind_run, Hm.
  destruct (m h) as [h' [a | e]]; cbn [fst snd]; [apply Hk | reflexivity].
Qed.

Lemma flag_blind_try {A} (m handler : M A) :
  flag_blind m -> flag_blind handler ->
  flag_blind (try_except_FileNotFoundError m handler).
Proof.
  intros Hm Hh f h. unfold try_except_FileNotFoundError. rewrite Hm.
  destruct (m h) as [h' [a | []]]; cbn [fst snd]; try reflexivity. apply Hh.
Qed.

Lemma flag_blind_for_each {A} (xs : list A) (body : A -> M ctl) :
  (forall x, flag_blind (body x)) -> flag_blind (for_each xs body).
Proof.
  intros Hbody. induction xs as [| x xs IH]; [apply flag_blind_ret |].
  cbn [for_each]. apply flag_blind_bind; [apply Hbody |].
  intros [|]; [exact IH | apply flag_blind_ret].
Qed.

Lemma flag_blind_open_file (os : OS) (path : string) : flag_blind (open_file os path).
Proof. intros f h. unfold open_file, record, bind. destruct (os_open os path); reflexivity. Qed.

Lemma flag_blind_walk (os : OS) (top : string) : flag_blind (walk os top).
Proof. intros f h. reflexivity. Qed.

Lemma flag_blind_set_instanced (name key : string) (v : num) :
  flag_blind (set_instanced name key v).
Proof.
  intros f h. unfold set_instanced. cbn [samples with_cgroups_v2].
  destruct (entries (samples h) !! name) as [[w | m] |]; try reflexivity.
  destruct (auto_dict (samples h)); reflexivity.
Qed.

Import CGroupSampler.

Lemma flag_blind_integer_stat (os : OS) (path cgroup name : string) :
  flag_blind (read_cgroup_integer_stat os path cgroup name).
Proof.
  unfold read_cgroup_integer_stat.
  apply flag_blind_try; [| apply flag_blind_ret].
  apply flag_blind_bind; [apply flag_blind_open_file |].
  intros stat. destruct (PyStr.int (PyStr.strip stat)) as [value |]; [| apply flag_blind_ret].
  destruct (in_range os value); [apply flag_blind_set_instanced | apply flag_blind_ret].
Qed.

Lemma flag_blind_keyed_stat (os : OS) (path cgroup name key : string) :
  flag_blind (read_cgroup_keyed_stat os path cgroup name key).
Proof.
  unfold read_cgroup_keyed_stat.
  apply flag_blind_bind; [apply flag_blind_open_file |].
  intros stat. apply flag_blind_for_each. intros line. unfold keyed_turn.
  destruct (negb (PyStr.startswith line key)); [apply flag_blind_ret |].
  destruct (List.last (Some <$> PyStr.split line) None) as [field |];
    [| apply flag_blind_raise].
  apply flag_blind_bind; [apply flag_blind_int |].
  intros value. destruct (in_range os value); [| apply flag_blind_ret].
  apply flag_blind_bind; [apply flag_blind_lift |].
  intros v. apply flag_blind_bind; [apply flag_blind_set_instanced |].
  intros _. apply flag_blind_ret.
Qed.

Lemma flag_blind_walk_turn (os : OS) (path : string) : flag_blind (walk_turn os path).
Proof.
  unfold walk_turn. destruct (negb (nonempty _)); [apply flag_blind_ret |].
  repeat (apply flag_blind_bind; [apply flag_blind_integer_stat | intros _]).
  apply flag_blind_bind; [apply flag_blind_keyed_stat | intros _; apply flag_blind_ret].
Qed.

Lemma flag_blind_walk_all (os : OS) :
  flag_blind (paths <- walk os cgroups_v2_path ;; for_each paths (walk_turn os)).
Proof.
  apply flag_blind_bind; [apply flag_blind_walk |].
  intros paths. apply flag_blind_for_each, flag_blind_walk_turn.
Qed.

(** With the flag resolved, a pass is the walk, whatever the flag. *)
Lemma sample_with_flag (os : OS) (b : bool) (h : Heap) :
  let walked := (paths <- walk os cgroups_v2_path ;; for_each paths (walk_turn os)) h in
  sample os (with_cgroups_v2 (Some b) h) = (with_cgroups_v2 (Some b) (fst walked), snd walked).
Proof.
  cbn zeta. unfold sample, probe. rewrite !bind_run. cbn [get_cgroups_v2 with_cgroups_v2 cgroups_v2 ret].
  rewrite root_nonempty. apply flag_blind_walk_all.
Qed.

End FlagBlind.

(** C10: two passes over the same host that start from heaps differing
    only in the resolved value of the cgroups-v2 flag end with the same
    outcome, the same sink and the same log of queries; in both, the
    cgroup tree is walked. *)
Theorem cgroup_walk_ignores_flag (os : OS) (h : Heap) (b1 b2 : bool) :
  let r1 := CGroupSampler.sample os (with_cgroups_v2 (Some b1) h) in
  let r2 := CGroupSampler.sample os (with_cgroups_v2 (Some b2) h) in
  snd r1 = snd r2
  /\ samples (fst r1) = samples (fst r2)
  /\ log (fst r1) = log (fst r2)
  /\ sensors (fst r1) = sensors (fst r2)
  /\ EvWalk CGroupSampler.cgroups_v2_path ∈ log (fst r1).
Proof.
  cbn zeta. rewrite !sample_with_flag. cbn [fst snd samples log sensors with_cgroups_v2].
  repeat split.
  rewrite bind_run. unfold walk, record. rewrite bind_run. cbn [ret].
  apply (preserves_for_each (fun h0 => EvWalk CGroupSampler.cgroups_v2_path ∈ log h0)).
  - intros path _.
    apply (walk_turn_preserves (fun h0 => EvWalk CGroupSampler.cgroups_v2_path ∈ log h0)).
    + intros s h0 Hin. exact Hin.
    + intros p h0 Hin. cbn. apply elem_of_app. left. exact Hin.
  - cbn. apply elem_of_app. right. left.
Qed.

(** ** CPU sampler: the lines of the stat file *)

Section StatLines.

Variable os : OS.

Lemma jiffies_finite (field : string) (z : Z) (h : Heap) :
  PyStr.int field = Some z ->
  PyNum.is_finite (PyNum.float_of_int z) = true ->
  CPUSampler.jiffies os field h = (h, Ok (ticks_ms os z)).
Proof.
  intros Hint Hfin.
  unfold CPUSampler.jiffies, int, lift, PyNum.int_mul_float, PyNum.checked, bind.
  rewrite Hint. cbn [ret]. rewrite Hfin. reflexivity.
Qed.

Lemma accepts_all_put (name key : string) (v : num) (s : Samples) :
  Forall (accepts s) core_metrics -> Forall (accepts (put name key v s)) core_metrics.
Proof.
  intros Hacc. eapply Forall_impl; [exact Hacc |].
  intros name' Hname. apply accepts_put, Hname.
Qed.

(** A line about a core writes the four per-core metrics under the key
    of the core. *)
Lemma core_line_written (line cpu user nice system idle iowait : string)
    (u n s w : Z) (h : Heap) :
  PyStr.startswith line "cpu" = true ->
  firstn 6 (PyStr.split line) = [cpu; user; nice; system; idle; iowait] ->
  nonempty (PyStr.drop 3 cpu) = true ->
  PyStr.int user = Some u -> PyStr.int nice = Some n ->
  PyStr.int system = Some s -> PyStr.int iowait = Some w ->
  Forall (fun z => PyNum.is_finite (PyNum.float_of_int z) = true) [u; n; s; w] ->
  Forall (accepts (samples h)) core_metrics ->
  let core := PyStr.drop 3 cpu in
  CPUSampler.sample_line os line h =
    (with_samples
       (put "cpu.core.iowait" core (ticks_ms os w)
          (put "cpu.core.system" core (ticks_ms os s)
             (put "cpu.core.user" core (ticks_ms os u)
                (put "cpu.core.nice" core (ticks_ms os n) (samples h))))) h,
     Ok Next).
Proof.
  intros Hcpu Hfields Hcore Hu Hn Hs Hw Hfin Hacc core.
  inversion_clear Hfin as [| ? ? Fu Hfin']. inversion_clear Hfin' as [| ? ? Fn Hfin].
  inversion_clear Hfin as [| ? ? Fs Hfin']. inversion_clear Hfin' as [| ? ? Fw _].
  pose (s1 := put "cpu.core.nice" core (ticks_ms os n) (samples h)).
  pose (s2 := put "cpu.core.user" core (ticks_ms os u) s1).
  pose (s3 := put "cpu.core.system" core (ticks_ms os s) s2).
  assert (A0 : Forall (accepts (samples h)) core_metrics) by exact Hacc.
  assert (A1 : Forall (accepts s1) core_metrics) by apply accepts_all_put, A0.
  assert (A2 : Forall (accepts s2) core_metrics) by apply accepts_all_put, A1.
  assert (A3 : Forall (accepts s3) core_metrics) by apply accepts_all_put, A2.
  unfold CPUSampler.sample_line. rewrite Hcpu, Hfields. cbn [negb]. rewrite Hcore. fold core.
  rewrite bind_run, (jiffies_finite nice n h Hn Fn).
  rewrite bind_run, (set_instanced_accepted "cpu.core.nice" core (ticks_ms os n) h)
    by (apply (proj1 (Forall_forall _ _) A0); in_list).
  fold s1.
  rewrite bind_run, (jiffies_finite user u _ Hu Fu).
  rewrite bind_run, (set_instanced_accepted "cpu.core.user" core (ticks_ms os u) (with_samples s1 h))
    by (apply (proj1 (Forall_forall _ _) A1); in_list).
  change (put "cpu.core.user" core (ticks_ms os u) (samples (with_samples s1 h))) with s2.
  rewrite bind_run, (jiffies_finite system s _ Hs Fs).
  rewrite bind_run,
    (set_instanced_accepted "cpu.core.system" core (ticks_ms os s)
       (with_samples s2 (with_samples s1 h)))
    by (apply (proj1 (Forall_forall _ _) A2); in_list).
  change (put "cpu.core.system" core (ticks_ms os s)
            (samples (with_samples s2 (with_samples s1 h)))) with s3.
  rewrite bind_run, (jiffies_finite iowait w _ Hw Fw).
  rewrite bind_run,
    (set_instanced_accepted "cpu.core.iowait" core (ticks_ms os w)
       (with_samples s3 (with_samples s2 (with_samples s1 h))))
    by (apply (proj1 (Forall_forall _ _) A3); in_list).
  reflexivity.
Qed.

(** The aggregate line writes the four scalars, whatever the sink held
    under their names. *)
Lemma basic_line_written (line cpu user nice system idle iowait : string)
    (u n s w : Z) (h : Heap) :
  PyStr.startswith line "cpu" = true ->
  firstn 6 (PyStr.split line) = [cpu; user; nice; system; idle; iowait] ->
  nonempty (PyStr.drop 3 cpu) = false ->
  PyStr.int user = Some u -> PyStr.int nice = Some n ->
  PyStr.int system = Some s -> PyStr.int iowait = Some w ->
  Forall (fun z => PyNum.is_finite (PyNum.float_of_int z) = true) [u; n; s; w] ->
  CPUSampler.sample_line os line h =
    (with_samples
       (with_entries
          (<["cpu.basic.iowait" := Scalar (ticks_ms os w)]>
             (<["cpu.basic.system" := Scalar (ticks_ms os s)]>
                (<["cpu.basic.user" := Scalar (ticks_ms os u)]>
                   (<["cpu.basic.nice" := Scalar (ticks_ms os n)]> (entries (samples h))))))
          (samples h)) h,
     Ok Next).
Proof.
  intros Hcpu Hfields Hcore Hu Hn Hs Hw Hfin.
  inversion_clear Hfin as [| ? ? Fu Hfin']. inversion_clear Hfin' as [| ? ? Fn Hfin].
  inversion_clear Hfin as [| ? ? Fs Hfin']. inversion_clear Hfin' as [| ? ? Fw _].
  unfold CPUSampler.sample_line. rewrite Hcpu, Hfields. cbn [negb]. rewrite Hcore.
  rewrite bind_run, (jiffies_finite nice n h Hn Fn).
  rewrite bind_run. cbn [set_scalar].
  rewrite bind_run, (jiffies_finite user u _ Hu Fu).
  rewrite bind_run. cbn [set_scalar].
  rewrite bind_run, (jiffies_finite system s _ Hs Fs).
  rewrite bind_run. cbn [set_scalar].
  rewrite bind_run, (jiffies_finite iowait w _ Hw Fw).
  rewrite bind_run. cbn [set_scalar].
  reflexivity.
Qed.

(** A write for another core leaves the entries of core 0 alone. *)
Lemma put_keeps_core_0 (name name' key : string) (v : num) (s : Samples) :
  key <> "0" ->
  accepts s name ->
  instance (put name key v s) name' "0" = instance s name' "0".
Proof.
  intros Hkey Hacc. destruct (decide (name' = name)) as [-> | Hne].
  - apply instance_put_other_key; [congruence | exact Hacc].
  - apply instance_put_other, Hne.
Qed.

(** A line that the sampler gets through keeps the sink ready for the
    per-core metrics, and changes those of core 0 only if it is about
    core 0. *)
Lemma taken_line_runs (line : string) (h : Heap) :
  stat_line_taken line = true ->
  Forall (accepts (samples h)) core_metrics ->
  exists h',
    CPUSampler.sample_line os line h = (h', Ok Next)
    /\ Forall (accepts (samples h')) core_metrics
    /\ ((PyStr.startswith line "cpu" = true -> core_of line <> "0") ->
        forall name, name ∈ core_metrics ->
          instance (samples h') name "0" = instance (samples h) name "0").
Proof.
  unfold stat_line_taken. intros Htaken Hacc.
  destruct (PyStr.startswith line "cpu") eqn:Hcpu.
  2: { exists h. split; [| split; [exact Hacc | reflexivity]].
       unfold CPUSampler.sample_line. rewrite Hcpu. reflexivity. }
  cbn [negb orb] in Htaken.
  destruct (firstn 6 (PyStr.split line))
    as [| cpu [| user [| nice [| system [| idle [| iowait [| extra rest]]]]]]] eqn:Hfields;
    try discriminate.
  cbn [forallb] in Htaken.
  apply andb_prop in Htaken as [Fu Htaken]. apply andb_prop in Htaken as [Fn Htaken].
  apply andb_prop in Htaken as [Fs Htaken]. apply andb_prop in Htaken as [Fw _].
  destruct (PyStr.int user) as [u |] eqn:Hu; [| discriminate].
  destruct (PyStr.int nice) as [n |] eqn:Hn; [| discriminate].
  destruct (PyStr.int system) as [s |] eqn:Hs; [| discriminate].
  destruct (PyStr.int iowait) as [w |] eqn:Hw; [| discriminate].
  assert (Hfin : Forall (fun z => PyNum.is_finite (PyNum.float_of_int z) = true) [u; n; s; w])
    by (repeat constructor; assumption).
  assert (Hcore_of : core_of line = PyStr.drop 3 cpu).
  { unfold core_of. destruct (PyStr.split line) as [| first others]; [discriminate |].
    cbn [firstn] in Hfields. congruence. }
  destruct (nonempty (PyStr.drop 3 cpu)) eqn:Hcore.
  - eexists. split.
    { exact (core_line_written line cpu user nice system idle iowait u n s w h
               Hcpu Hfields Hcore Hu Hn Hs Hw Hfin Hacc). }
    cbn [samples with_samples]. split.
    { do 4 apply accepts_all_put. exact Hacc. }
    intros Hother name Hname. specialize (Hother eq_refl). rewrite Hcore_of in Hother.
    pose proof (accepts_all_put "cpu.core.nice" (PyStr.drop 3 cpu) (ticks_ms os n) _ Hacc) as A1.
    pose proof (accepts_all_put "cpu.core.user" (PyStr.drop 3 cpu) (ticks_ms os u) _ A1) as A2.
    pose proof (accepts_all_put "cpu.core.system" (PyStr.drop 3 cpu) (ticks_ms os s) _ A2) as A3.
    rewrite put_keeps_core_0
      by (try exact Hother; apply (proj1 (Forall_forall _ _) A3); in_list).
    rewrite put_keeps_core_0
      by (try exact Hother; apply (proj1 (Forall_forall _ _) A2); in_list).
    rewrite put_keeps_core_0
      by (try exact Hother; apply (proj1 (Forall_forall _ _) A1); in_list).
    rewrite put_keeps_core_0
      by (try exact Hother; apply (proj1 (Forall_forall _ _) Hacc); in_list).
    reflexivity.
  - eexists. split.
    { exact (basic_line_written line cpu user nice system idle iowait u n s w h
               Hcpu Hfields Hcore Hu Hn Hs Hw Hfin). }
    cbn [samples with_samples]. split.
    + apply Forall_forall. intros name Hname.
      pose proof (proj1 (Forall_forall _ _) Hacc name Hname) as Hone.
      apply list_elem_of_In in Hname. simpl in Hname.
      destruct Hname as [<- | [<- | [<- | [<- | []]]]];
        unfold accepts in *; cbn [entries auto_dict with_entries];
        rewrite !lookup_insert_ne by discriminate; exact Hone.
    + intros _ name Hname.
      apply list_elem_of_In in Hname. simpl in Hname.
      destruct Hname as [<- | [<- | [<- | [<- | []]]]];
        unfold instance; cbn [entries with_entries];
        rewrite !lookup_insert_ne by discriminate; reflexivity.
Qed.

(** Lines that the sampler gets through are all processed. *)
Lemma taken_lines_run (lines : list string) (h : Heap) :
  Forall (fun line => stat_line_taken line = true) lines ->
  Forall (accepts (samples h)) core_metrics ->
  exists h',
    (forall rest,
       for_each (lines ++ rest) (CPUSampler.sample_line os) h
       = for_each rest (CPUSampler.sample_line os) h')
    /\ Forall (accepts (samples h')) core_metrics
    /\ (Forall (fun line => PyStr.startswith line "cpu" = true -> core_of line <> "0") lines ->
        forall name, name ∈ core_metrics ->
          instance (samples h') name "0" = instance (samples h) name "0").
Proof.
  revert h. induction lines as [| line lines IH]; intros h Htaken Hacc.
  - exists h. split; [reflexivity | split; [exact Hacc | reflexivity]].
  - inversion_clear Htaken as [| ? ? Hline Hlines].
    destruct (taken_line_runs line h Hline Hacc) as (h1 & Hrun & Hacc1 & Hkeep1).
    destruct (IH h1 Hlines Hacc1) as (h2 & Hrest & Hacc2 & Hkeep2).
    exists h2. split; [| split; [exact Hacc2 |]].
    + intros rest. cbn [app for_each]. rewrite bind_run, Hrun. apply Hrest.
    + intros Hother name Hname. inversion_clear Hother as [| ? ? Hhere Hthere].
      rewrite (Hkeep2 Hthere name Hname). apply (Hkeep1 Hhere name Hname).
Qed.

(** C2: with 100 clock ticks per second, a line of the stat file with the
    fields cpu0 100 10 50 0 20 makes the pass write, for instance key
    0, cpu.core.user = 1000, cpu.core.nice = 100, cpu.core.system = 500
    and cpu.core.iowait = 200, as binary64 numbers. The line may stand
    anywhere in a file whose other lines the sampler gets through,
    provided no later line is about core 0 again. *)
Theorem cpu_sample_core_example (h : Heap) (stat line : string) (before after : list string) :
  SC_CLK_TCK os = 100 ->
  os_open os "/proc/stat" = Text stat ->
  PyStr.lines stat = before ++ line :: after ->
  PyStr.startswith line "cpu" = true ->
  firstn 6 (PyStr.split line) = ["cpu0"; "100"; "10"; "50"; "0"; "20"] ->
  Forall (fun other => stat_line_taken other = true) (before ++ after) ->
  Forall (fun later => PyStr.startswith later "cpu" = true -> core_of later <> "0") after ->
  Forall (accepts (samples h)) core_metrics ->
  exists h',
    CPUSampler.sample os h = (h', Ok tt)
    /\ instance (samples h') "cpu.core.user" "0" = Some (PyFloat (dyadic (1000 * 2 ^ 43) (-43)))
    /\ instance (samples h') "cpu.core.nice" "0" = Some (PyFloat (dyadic (100 * 2 ^ 46) (-46)))
    /\ instance (samples h') "cpu.core.system" "0" = Some (PyFloat (dyadic (500 * 2 ^ 44) (-44)))
    /\ instance (samples h') "cpu.core.iowait" "0" = Some (PyFloat (dyadic (200 * 2 ^ 45) (-45))).
Proof.
  intros Hhz Hopen Hlines Hcpu Hfields Hothers Hafter Hacc.
  apply Forall_app in Hothers as [Hbefore Htaken].
  unfold CPUSampler.sample, open_file, record. unfold bind at 1 2. rewrite Hopen.
  cbn [ret]. rewrite Hlines.
  set (h0 := with_log (log h ++ [EvOpen "/proc/stat"]) h).
  destruct (taken_lines_run before h0 Hbefore Hacc) as (h1 & Hrun1 & Hacc1 & _).
  rewrite Hrun1. cbn [for_each]. rewrite bind_run.
  rewrite (core_line_written line "cpu0" "100" "10" "50" "0" "20" 100 10 50 20 h1
             Hcpu Hfields eq_refl eq_refl eq_refl eq_refl eq_refl
             ltac:(repeat constructor) Hacc1).
  match goal with
  | |- context [for_each after _ ?heap] => set (h2 := heap)
  end.
  assert (Hacc2 : Forall (accepts (samples h2)) core_metrics)
    by (do 4 apply accepts_all_put; exact Hacc1).
  destruct (taken_lines_run after h2 Htaken Hacc2) as (h3 & Hrun3 & _ & Hkeep).
  specialize (Hrun3 []). rewrite app_nil_r in Hrun3. rewrite Hrun3.
  exists h3. split; [reflexivity |].
  rewrite !(Hkeep Hafter) by in_list.
  subst h2. cbn [samples with_samples]. unfold ticks_ms. rewrite (ms_per_jiffy_100 os Hhz).
  change (PyStr.drop 3 "cpu0") with "0".
  split; [| split; [| split]].
  - rewrite !instance_put_other by discriminate. apply instance_put_eq.
  - rewrite !instance_put_other by discriminate. apply instance_put_eq.
  - rewrite !instance_put_other by discriminate. apply instance_put_eq.
  - apply instance_put_eq.
Qed.

End StatLines.

Lemma cpu_sample_core_example_witness :
  exists h',
    CPUSampler.sample (host [("/proc/stat", stat_two_cores)] []) fresh = (h', Ok tt)
    /\ instance (samples h') "cpu.core.user" "0" = Some (PyFloat (dyadic (1000 * 2 ^ 43) (-43)))
    /\ instance (samples h') "cpu.core.nice" "0" = Some (PyFloat (dyadic (100 * 2 ^ 46) (-46)))
    /\ instance (samples h') "cpu.core.system" "0" = Some (PyFloat (dyadic (500 * 2 ^ 44) (-44)))
    /\ instance (samples h') "cpu.core.iowait" "0" = Some (PyFloat (dyadic (200 * 2 ^ 45) (-45))).
Proof.
  apply (cpu_sample_core_example (host [("/proc/stat", stat_two_cores)] []) fresh
           stat_two_cores ("cpu0 100 10 50 0 20" +:+ nl)
           ["cpu  200 20 100 9999 40 0 0 0 0 0" +:+ nl]
           ["cpu1 100 10 50 9999 20 0 0 0 0 0" +:+ nl; "intr 5 0 0" +:+ nl; "ctxt 77" +:+ nl]).
  - reflexivity.
  - reflexivity.
  - reflexivity.
  - reflexivity.
  - reflexivity.
  - repeat constructor.
  - repeat constructor; intros _; vm_compute; discriminate.
  - repeat constructor.
Defined.

(** * Properties of the whole module *)

(** ** Invariants of the sink *)

Ltac preserve :=
  repeat
    match goal with
    | |- preserves _ (bind _ _) => apply preserves_bind; [| intros ?]
    | |- preserves _ (ret _) => apply preserves_ret
    | |- preserves _ (raise _) => apply preserves_raise
    | |- preserves _ (lift _) => apply preserves_lift
    | |- preserves _ (int _) => apply preserves_int
    | |- preserves _ (PySeq.item _ _) => unfold PySeq.item
    | |- preserves _ (for_each _ _) => apply preserves_for_each; intros ? _
    | |- preserves _ (for_range _ _ _) => apply preserves_for_range; intros ?
    | |- preserves _ (try_except_FileNotFoundError _ _) => apply preserves_try
    | |- preserves _ (open_file _ _) => apply preserves_open_file; intros ? ?; assumption
    | |- preserves _ (path_exists _ _) => apply preserves_path_exists; intros ? ?; assumption
    | |- preserves _ (walk _ _) => apply preserves_walk; intros ? ?; assumption
    | |- preserves _ (match ?x with _ => _ end) => destruct x
    end.

Section SinkInvariant.

(** An invariant of the sink that survives the writes of scalars under
    the names in [scalars] and of instances under the names in [dicts]. *)
Variable J : Samples -> Prop.
Variable scalars dicts : string -> Prop.
Hypothesis J_scalar :
  forall n v s, scalars n -> J s -> J (with_entries (<[n := Scalar v]> (entries s)) s).
Hypothesis J_dict :
  forall n key v s, dicts n -> accepts s n -> J s -> J (put n key v s).

Lemma keeps_set_scalar (n : string) (v : num) :
  scalars n -> preserves (fun h => J (samples h)) (set_scalar n v).
Proof. intros Hn h Hh. cbn. apply J_scalar; assumption. Qed.

Lemma keeps_set_instanced (n key : string) (v : num) :
  dicts n -> preserves (fun h => J (samples h)) (set_instanced n key v).
Proof.
  intros Hn h Hh.
  assert (Hcases : accepts (samples h) n \/ fst (set_instanced n key v h) = h).
  { unfold accepts, set_instanced.
    destruct (entries (samples h) !! n) as [[w | m] |]; [right | left | ]; try reflexivity; trivial.
    destruct (auto_dict (samples h)); [left | right]; reflexivity. }
  destruct Hcases as [Hacc | ->]; [| exact Hh].
  rewrite set_instanced_accepted by exact Hacc. cbn. apply J_dict; assumption.
Qed.

Lemma keeps_cpu (os : OS) :
  Forall scalars
    ["cpu.basic.nice"; "cpu.basic.user"; "cpu.basic.system"; "cpu.basic.iowait"] ->
  Forall dicts
    ["cpu.core.nice"; "cpu.core.user"; "cpu.core.system"; "cpu.core.iowait"] ->
  preserves (fun h => J (samples h)) (CPUSampler.sample os).
Proof.
  intros Hs Hd.
  repeat match goal with H : Forall _ (_ :: _) |- _ => inversion_clear H end.
  unfold CPUSampler.sample, CPUSampler.sample_line, CPUSampler.jiffies. preserve;
    first [apply keeps_set_scalar; assumption | apply keeps_set_instanced; assumption].
Qed.

Lemma keeps_memory (os : OS) :
  Forall scalars
    ["memory.free"; "memory.used"; "memory.cached"; "memory.swap-used"] ->
  preserves (fun h => J (samples h)) (MemorySampler.sample os).
Proof.
  intros Hs.
  repeat match goal with H : Forall _ (_ :: _) |- _ => inversion_clear H end.
  unfold MemorySampler.sample, MemorySampler.item. preserve;
    apply keeps_set_scalar; assumption.
Qed.

Lemma keeps_disk (os : OS) :
  Forall scalars ["disk.all.read"; "disk.all.written"; "disk.all.ops"] ->
  preserves (fun h => J (samples h)) (DiskSampler.sample os).
Proof.
  intros Hs.
  repeat match goal with H : Forall _ (_ :: _) |- _ => inversion_clear H end.
  unfold DiskSampler.sample. preserve; apply keeps_set_scalar; assumption.
Qed.

Lemma keeps_temperature (os : OS) :
  dicts "cpu.temperature" ->
  preserves (fun h => J (samples h)) (CPUTemperatureSampler.sample os).
Proof.
  intros Hd.
  unfold CPUTemperatureSampler.sample, CPUTemperatureSampler.discover,
    CPUTemperatureSampler.scan_turn, CPUTemperatureSampler.detect_cpu_sensors,
    CPUTemperatureSampler.detect_turn, CPUTemperatureSampler.read_turn.
  preserve; try (intros ? ?; assumption); apply keeps_set_instanced; assumption.
Qed.

Lemma keeps_cgroup (os : OS) :
  Forall dicts
    ["cgroup.memory.usage"; "cgroup.memory.limit"; "cgroup.memory.sw-usage";
     "cgroup.memory.sw-limit"; "cgroup.cpu.shares"; "cgroup.cpu.usage"] ->
  preserves (fun h => J (samples h)) (CGroupSampler.sample os).
Proof.
  intros Hd.
  repeat match goal with H : Forall _ (_ :: _) |- _ => inversion_clear H end.
  unfold CGroupSampler.sample, CGroupSampler.probe, CGroupSampler.walk_turn,
    CGroupSampler.read_cgroup_integer_stat, CGroupSampler.read_cgroup_keyed_stat,
    CGroupSampler.keyed_turn.
  preserve; try (intros ? ?; assumption); apply keeps_set_instanced; assumption.
Qed.

Lemma keeps_network (os : OS) :
  Forall dicts ["network.interface.rx"; "network.interface.tx"] ->
  preserves (fun h => J (samples h)) (NetworkSampler.sample os).
Proof.
  intros Hd.
  repeat match goal with H : Forall _ (_ :: _) |- _ => inversion_clear H end.
  unfold NetworkSampler.sample, NetworkSampler.sample_line.
  preserve; apply keeps_set_instanced; assumption.
Qed.

Lemma keeps_mount (host : Host) :
  Forall dicts ["mount.total"; "mount.used"] ->
  preserves (fun h => J (samples h)) (MountSampler.sample host).
Proof.
  intros Hd.
  repeat match goal with H : Forall _ (_ :: _) |- _ => inversion_clear H end.
  unfold MountSampler.sample, MountSampler.sample_line, statvfs.
  preserve; apply keeps_set_instanced; assumption.
Qed.

Lemma keeps_block (os : OS) :
  Forall dicts ["block.device.read"; "block.device.written"] ->
  preserves (fun h => J (samples h)) (BlockSampler.sample os).
Proof.
  intros Hd.
  repeat match goal with H : Forall _ (_ :: _) |- _ => inversion_clear H end.
  unfold BlockSampler.sample, BlockSampler.sample_line.
  preserve; apply keeps_set_instanced; assumption.
Qed.

End SinkInvariant.

(** ** The registry: what the samplers write *)

Lemma kind_of_sound (b : bool) (n : string) (d : SampleDescription) :
  kind_of b n = true -> d ∈ all_descriptions -> name d = n -> instanced d = b.
Proof.
  unfold kind_of. intros Hall Hd Hn.
  rewrite forallb_forall in Hall. apply list_elem_of_In in Hd.
  specialize (Hall d Hd). rewrite Hn, String.eqb_refl in Hall.
  apply Bool.eqb_prop. exact Hall.
Qed.

Lemma conforms_scalar (n : string) (v : num) (s : Samples) :
  kind_of false n = true ->
  conforms s -> conforms (with_entries (<[n := Scalar v]> (entries s)) s).
Proof.
  intros Hkind Hs d Hd. cbn.
  destruct (decide (n = name d)) as [-> | Hne].
  - rewrite lookup_insert_eq. exact (kind_of_sound false (name d) d Hkind Hd eq_refl).
  - rewrite lookup_insert_ne by exact Hne. apply Hs, Hd.
Qed.

Lemma conforms_put (n key : string) (v : num) (s : Samples) :
  kind_of true n = true -> conforms s -> conforms (put n key v s).
Proof.
  intros Hkind Hs d Hd. unfold put. cbn.
  destruct (decide (n = name d)) as [-> | Hne].
  - rewrite lookup_insert_eq. exact (kind_of_sound true (name d) d Hkind Hd eq_refl).
  - rewrite lookup_insert_ne by exact Hne. apply Hs, Hd.
Qed.

Ltac all_names := repeat constructor; try reflexivity.

(** X1: the shape of the sink is kept by every registered sampler, on every
    host and whatever the outcome of the pass. *)
Theorem samplers_keep_shape (c : Sampler) (host : Host) (h : Heap) :
  c ∈ SAMPLERS ->
  conforms (samples h) ->
  conforms (samples (fst (sample c host h))).
Proof.
  intros Hc Hconf. apply list_elem_of_In in Hc. simpl in Hc.
  pose (scalars := fun n => kind_of false n = true).
  pose (dicts := fun n => kind_of true n = true).
  assert (Hscalar : forall n v s, scalars n -> conforms s ->
                      conforms (with_entries (<[n := Scalar v]> (entries s)) s))
    by (intros n v s; apply conforms_scalar).
  assert (Hdict : forall n key v s, dicts n -> accepts s n -> conforms s ->
                    conforms (put n key v s))
    by (intros n key v s Hn _; apply conforms_put, Hn).
  destruct Hc as [<- | [<- | [<- | [<- | [<- | [<- | [<- | [<- | []]]]]]]]]; cbn [sample].
  - apply (keeps_block conforms dicts Hdict); [all_names | exact Hconf].
  - apply (keeps_cgroup conforms dicts Hdict); [all_names | exact Hconf].
  - apply (keeps_cpu conforms scalars dicts Hscalar Hdict); [all_names | all_names | exact Hconf].
  - apply (keeps_temperature conforms dicts Hdict); [reflexivity | exact Hconf].
  - apply (keeps_disk conforms scalars Hscalar); [all_names | exact Hconf].
  - apply (keeps_memory conforms scalars Hscalar); [all_names | exact Hconf].
  - apply (keeps_mount conforms dicts Hdict); [all_names | exact Hconf].
  - apply (keeps_network conforms dicts Hdict); [all_names | exact Hconf].
Qed.

Lemma samplers_keep_shape_witness :
  conforms (samples (fst (sample CPUSampler_class
                            (host_with (host [("/proc/stat", stat_core0)] []) []) fresh))).
Proof.
  apply (samplers_keep_shape CPUSampler_class
           (host_with (host [("/proc/stat", stat_core0)] []) []) fresh).
  - in_list.
  - intros d _. exact I.
Defined.

Lemma not_declared (n : string) (names : list string) :
  n ∉ names -> Forall (fun m => m <> n) names.
Proof.
  intros Hn. apply Forall_forall. intros m Hm ->. exact (Hn Hm).
Qed.

(** X2: a pass of a registered sampler leaves alone every entry of the sink
    whose name it does not declare, but for disk.all.ops; and it never
    changes whether the sink creates dictionaries on demand. *)
Theorem samplers_write_declared_only (c : Sampler) (host : Host) (h : Heap) (n : string) :
  c ∈ SAMPLERS ->
  n ∉ declared c ->
  n <> "disk.all.ops" ->
  let s' := samples (fst (sample c host h)) in
  entries s' !! n = entries (samples h) !! n
  /\ auto_dict s' = auto_dict (samples h).
Proof.
  intros Hc Hn Hops. apply list_elem_of_In in Hc. simpl in Hc.
  pose (J := fun s : Samples =>
               entries s !! n = entries (samples h) !! n
               /\ auto_dict s = auto_dict (samples h)).
  pose (other := fun m : string => m <> n).
  assert (Hscalar : forall m v s, other m -> J s ->
                      J (with_entries (<[m := Scalar v]> (entries s)) s)).
  { intros m v s Hm [He Ha]. split; [| exact Ha]. cbn. rewrite lookup_insert_ne; assumption. }
  assert (Hdict : forall m key v s, other m -> accepts s m -> J s -> J (put m key v s)).
  { intros m key v s Hm _ [He Ha]. split; [| exact Ha].
    unfold put. cbn. rewrite lookup_insert_ne; assumption. }
  assert (Hstart : J (samples h)) by (split; reflexivity).
  apply not_declared in Hn. unfold declared in Hn.
  destruct Hc as [<- | [<- | [<- | [<- | [<- | [<- | [<- | [<- | []]]]]]]]];
    cbn [sample descriptions map name] in *; cbn in Hn.
  - apply (keeps_block J other Hdict); [| exact Hstart].
    inversion_clear Hn as [| ? ? H1 Hn']. inversion_clear Hn' as [| ? ? H2 _].
    repeat constructor; assumption.
  - apply (keeps_cgroup J other Hdict); [| exact Hstart].
    repeat match goal with H : Forall _ (_ :: _) |- _ => inversion_clear H end.
    repeat constructor; assumption.
  - apply (keeps_cpu J other other Hscalar Hdict); [| | exact Hstart];
      repeat match goal with H : Forall _ (_ :: _) |- _ => inversion_clear H end;
      repeat constructor; assumption.
  - apply (keeps_temperature J other Hdict); [| exact Hstart].
    inversion_clear Hn. assumption.
  - apply (keeps_disk J other Hscalar); [| exact Hstart].
    repeat match goal with H : Forall _ (_ :: _) |- _ => inversion_clear H end.
    repeat constructor; try assumption. intros E. apply Hops. symmetry. exact E.
  - apply (keeps_memory J other Hscalar); [| exact Hstart].
    repeat match goal with H : Forall _ (_ :: _) |- _ => inversion_clear H end.
    repeat constructor; assumption.
  - apply (keeps_mount J other Hdict); [| exact Hstart].
    repeat match goal with H : Forall _ (_ :: _) |- _ => inversion_clear H end.
    repeat constructor; assumption.
  - apply (keeps_network J other Hdict); [| exact Hstart].
    repeat match goal with H : Forall _ (_ :: _) |- _ => inversion_clear H end.
    repeat constructor; assumption.
Qed.

Lemma samplers_write_declared_only_witness :
  let h := fst (CPUTemperatureSampler.sample (host hwmon_coretemp []) fresh) in
  let s' := samples (fst (sample MemorySampler_class
                            (host_with (host [("/proc/meminfo", meminfo_example)] []) []) h)) in
  entries s' !! "cpu.temperature" = entries (samples h) !! "cpu.temperature"
  /\ auto_dict s' = auto_dict (samples h).
Proof.
  apply (samplers_write_declared_only MemorySampler_class
           (host_with (host [("/proc/meminfo", meminfo_example)] []) [])
           (fst (CPUTemperatureSampler.sample (host hwmon_coretemp []) fresh))
           "cpu.temperature").
  - in_list.
  - intros Hin. apply list_elem_of_In in Hin. simpl in Hin.
    repeat (destruct Hin as [Hin | Hin]; [discriminate |]). exact Hin.
  - discriminate.
Defined.

(** ** Source files that cannot be opened *)

(** X3: the six samplers that read one file of /proc raise
    [FileNotFoundError] when it is missing, and write nothing. *)
Theorem missing_source_file_propagates (host : Host) (h : Heap) :
  let os := kernel host in
  let failed path := (with_log (log h ++ [EvOpen path]) h, @Raise unit (FileNotFoundError path)) in
  (os_open os "/proc/stat" = NoSuchFile -> CPUSampler.sample os h = failed "/proc/stat")
  /\ (os_open os "/proc/meminfo" = NoSuchFile -> MemorySampler.sample os h = failed "/proc/meminfo")
  /\ (os_open os "/proc/diskstats" = NoSuchFile ->
      DiskSampler.sample os h = failed "/proc/diskstats"
      /\ BlockSampler.sample os h = failed "/proc/diskstats")
  /\ (os_open os "/proc/net/dev" = NoSuchFile -> NetworkSampler.sample os h = failed "/proc/net/dev")
  /\ (os_open os "/proc/mounts" = NoSuchFile -> MountSampler.sample host h = failed "/proc/mounts").
Proof.
  cbn zeta.
  unfold CPUSampler.sample, MemorySampler.sample, DiskSampler.sample, BlockSampler.sample,
    NetworkSampler.sample, MountSampler.sample, open_file, record, bind.
  split; [intros ->; reflexivity |].
  split; [intros ->; reflexivity |].
  split; [intros ->; split; reflexivity |].
  split; intros ->; reflexivity.
Qed.

(** ** CPU sampler *)

Lemma for_each_ext {A} (xs : list A) (f g : A -> M ctl) (h : Heap) :
  (forall x h', f x h' = g x h') -> for_each xs f h = for_each xs g h.
Proof.
  intros Hfg. revert h. induction xs as [| x xs IH]; intros h; [reflexivity |].
  cbn [for_each]. rewrite !bind_run, Hfg.
  destruct (g x h) as [h' [[|] | e]]; try reflexivity. apply IH.
Qed.

(** X4: a host that reports a non-positive number of clock ticks per second
    is sampled exactly as one that reports 100. *)
Theorem cpu_tick_rate_fallback (os os' : OS) (h : Heap) :
  SC_CLK_TCK os <= 0 ->
  SC_CLK_TCK os' = 100 ->
  (forall path, os_open os path = os_open os' path) ->
  CPUSampler.sample os h = CPUSampler.sample os' h.
Proof.
  intros Hlow Hhz Hopen.
  assert (Hms : MS_PER_JIFFY os = MS_PER_JIFFY os').
  { unfold MS_PER_JIFFY, USER_HZ. rewrite Hhz.
    destruct (Z.gtb_spec (SC_CLK_TCK os) 0); [lia | reflexivity]. }
  unfold CPUSampler.sample, open_file, record, bind. rewrite Hopen.
  destruct (os_open os' "/proc/stat"); cbn [ret raise]; try reflexivity.
  apply for_each_ext. intros line h'.
  unfold CPUSampler.sample_line, CPUSampler.jiffies. rewrite Hms. reflexivity.
Qed.

(** X5: a stat file without any line that starts with cpu is read to its
    end, and nothing is written. *)
Theorem cpu_other_lines_ignored (os : OS) (stat : string) (h : Heap) :
  os_open os "/proc/stat" = Text stat ->
  (forall line, line ∈ PyStr.lines stat -> PyStr.startswith line "cpu" = false) ->
  CPUSampler.sample os h = (with_log (log h ++ [EvOpen "/proc/stat"]) h, Ok tt).
Proof.
  intros Hopen Hlines. unfold CPUSampler.sample, open_file, record.
  unfold bind at 1 2. rewrite Hopen. cbn [ret].
  generalize (with_log (log h ++ [EvOpen "/proc/stat"]) h) as h0.
  induction (PyStr.lines stat) as [| line rest IH]; intros h0; [reflexivity |].
  cbn [for_each]. rewrite bind_run. unfold CPUSampler.sample_line at 1.
  rewrite (Hlines line) by left. cbn [negb ret].
  apply IH. intros l Hl. apply Hlines. right. exact Hl.
Qed.

(** X6: a line that starts with cpu and has fewer than six fields cannot be
    unpacked: [ValueError], and the line writes nothing. *)
Theorem cpu_short_line_raises (os : OS) (line : string) (h : Heap) :
  PyStr.startswith line "cpu" = true ->
  (length (PyStr.split line) < 6)%nat ->
  CPUSampler.sample_line os line h = (h, Raise ValueError).
Proof.
  intros Hcpu Hshort. unfold CPUSampler.sample_line. rewrite Hcpu. cbn [negb].
  destruct (PyStr.split line) as [| f0 [| f1 [| f2 [| f3 [| f4 [| f5 rest]]]]]];
    cbn in Hshort; try lia; reflexivity.
Qed.

(** X7: the aggregate line: the token cpu, then user, nice, system, idle and
    iowait. The four cpu.basic scalars are the tick counts times
    [MS_PER_JIFFY]; the idle field and any further field are not read,
    and what the sink held under these names does not matter. *)
Theorem cpu_aggregate_line (os : OS) (line user nice system idle iowait : string)
    (u n s w : Z) (h : Heap) :
  PyStr.startswith line "cpu" = true ->
  firstn 6 (PyStr.split line) = ["cpu"; user; nice; system; idle; iowait] ->
  PyStr.int user = Some u -> PyStr.int nice = Some n ->
  PyStr.int system = Some s -> PyStr.int iowait = Some w ->
  Forall (fun z => PyNum.is_finite (PyNum.float_of_int z) = true) [u; n; s; w] ->
  let ms z := PyFloat (SFmul PyNum.prec PyNum.emax (PyNum.float_of_int z) (MS_PER_JIFFY os)) in
  CPUSampler.sample_line os line h =
    (with_samples
       (with_entries
          (<["cpu.basic.iowait" := Scalar (ms w)]>
             (<["cpu.basic.system" := Scalar (ms s)]>
                (<["cpu.basic.user" := Scalar (ms u)]>
                   (<["cpu.basic.nice" := Scalar (ms n)]> (entries (samples h))))))
          (samples h)) h,
     Ok Next).
Proof.
  intros Hcpu Hfields Hu Hn Hs Hw Hfin.
  inversion_clear Hfin as [| ? ? Fu Hfin']. inversion_clear Hfin' as [| ? ? Fn Hfin].
  inversion_clear Hfin as [| ? ? Fs Hfin']. inversion_clear Hfin' as [| ? ? Fw _].
  unfold CPUSampler.sample_line. rewrite Hcpu, Hfields.
  cbn [negb PyStr.drop nonempty String.eqb].
  unfold CPUSampler.jiffies, int, lift, PyNum.int_mul_float, PyNum.checked, bind.
  rewrite Hu, Hn, Hs, Hw. cbn [ret]. rewrite Fn. cbn [set_scalar].
  rewrite Fu. cbn [set_scalar]. rewrite Fs. cbn [set_scalar]. rewrite Fw. reflexivity.
Qed.

Lemma missing_source_file_propagates_witness :
  MemorySampler.sample (host [] []) fresh
  = (with_log [EvOpen "/proc/meminfo"] fresh, Raise (FileNotFoundError "/proc/meminfo")).
Proof.
  exact (proj1 (proj2 (missing_source_file_propagates (host_with (host [] []) []) fresh)) eq_refl).
Defined.

Lemma cpu_tick_rate_fallback_witness :
  CPUSampler.sample (with_tick_rate 0 (host [("/proc/stat", stat_core0)] [])) fresh
  = CPUSampler.sample (host [("/proc/stat", stat_core0)] []) fresh.
Proof.
  apply (cpu_tick_rate_fallback (with_tick_rate 0 (host [("/proc/stat", stat_core0)] []))
           (host [("/proc/stat", stat_core0)] []) fresh).
  - vm_compute. discriminate.
  - reflexivity.
  - reflexivity.
Defined.

Lemma cpu_other_lines_ignored_witness :
  CPUSampler.sample (host [("/proc/stat", stat_no_cpu)] []) fresh
  = (with_log [EvOpen "/proc/stat"] fresh, Ok tt).
Proof.
  apply (cpu_other_lines_ignored (host [("/proc/stat", stat_no_cpu)] []) stat_no_cpu fresh).
  - reflexivity.
  - intros line Hin. apply list_elem_of_In in Hin. simpl in Hin.
    destruct Hin as [<- | [<- | []]]; reflexivity.
Defined.

Lemma cpu_short_line_raises_witness :
  CPUSampler.sample_line (host [] []) "cpu 1 2" fresh = (fresh, Raise ValueError).
Proof.
  apply (cpu_short_line_raises (host [] []) "cpu 1 2" fresh).
  - reflexivity.
  - vm_compute. lia.
Defined.

Lemma cpu_aggregate_line_witness :
  CPUSampler.sample_line (host [] []) stat_aggregate fresh =
    (with_samples
       (with_entries
          (<["cpu.basic.iowait" := Scalar (PyFloat (PyNum.float_of_int 200))]>
             (<["cpu.basic.system" := Scalar (PyFloat (PyNum.float_of_int 500))]>
                (<["cpu.basic.user" := Scalar (PyFloat (PyNum.float_of_int 1000))]>
                   (<["cpu.basic.nice" := Scalar (PyFloat (PyNum.float_of_int 100))]> ∅))))
          empty_sink) fresh,
     Ok Next).
Proof.
  apply (cpu_aggregate_line (host [] []) stat_aggregate "100" "10" "50" "9999" "20"
           100 10 50 20 fresh); try reflexivity.
  repeat constructor.
Defined.

(** ** Memory sampler *)

Lemma split_once_no_separator (sep : ascii) (s : string) :
  PyStr.char_in sep s = false -> PyStr.split_once sep s = [s].
Proof.
  unfold PyStr.char_in. induction s as [| c s IH]; [reflexivity |].
  cbn. intros Hno. apply orb_false_iff in Hno as [Hc Hs].
  rewrite Ascii.eqb_sym, Hc, (IH Hs). reflexivity.
Qed.

Lemma parse_raises_value_error (lines : list string) (items : gmap string Z) (e : exn) :
  MemorySampler.parse lines items = Raise e -> e = ValueError.
Proof.
  revert items. induction lines as [| line rest IH]; intros items; [discriminate |].
  cbn [MemorySampler.parse].
  destruct (PyStr.split_once ":" line) as [| k [| v [| ? ?]]]; try congruence.
  destruct (PyStr.int _); [apply IH | congruence].
Qed.

Lemma parse_malformed_line (lines : list string) (items : gmap string Z) :
  (exists line, line ∈ lines /\ PyStr.char_in ":" line = false) ->
  MemorySampler.parse lines items = Raise ValueError.
Proof.
  intros (bad & Hin & Hbad). revert items.
  induction lines as [| line rest IH]; intros items; [by apply elem_of_nil in Hin |].
  cbn [MemorySampler.parse]. apply elem_of_cons in Hin as [<- | Hin].
  - rewrite (split_once_no_separator _ _ Hbad). reflexivity.
  - destruct (PyStr.split_once ":" line) as [| k [| v [| ? ?]]]; try reflexivity.
    destruct (PyStr.int _); [apply IH, Hin | reflexivity].
Qed.

(** X8: a memory-info file with a line that holds no colon, wherever it is,
    makes the pass raise [ValueError] before anything is written. *)
Theorem memory_malformed_line_raises (os : OS) (meminfo : string) (h : Heap) :
  os_open os "/proc/meminfo" = Text meminfo ->
  (exists line, line ∈ PyStr.lines meminfo /\ PyStr.char_in ":" line = false) ->
  MemorySampler.sample os h
  = (with_log (log h ++ [EvOpen "/proc/meminfo"]) h, Raise ValueError).
Proof.
  intros Hopen Hbad. unfold MemorySampler.sample, open_file, record, lift.
  unfold bind at 1 2. rewrite Hopen. cbn [ret]. rewrite bind_run.
  rewrite (parse_malformed_line _ ∅ Hbad). reflexivity.
Qed.

Lemma memory_malformed_line_raises_witness :
  MemorySampler.sample (host [("/proc/meminfo", meminfo_blank_line)] []) fresh
  = (with_log [EvOpen "/proc/meminfo"] fresh, Raise ValueError).
Proof.
  apply (memory_malformed_line_raises (host [("/proc/meminfo", meminfo_blank_line)] [])
           meminfo_blank_line fresh).
  - reflexivity.
  - exists nl. split; [in_list | reflexivity].
Defined.

Lemma first_failure_unique {A} (P : A -> Prop) (pre pre' post post' : list A) (x x' : A) :
  pre ++ x :: post = pre' ++ x' :: post' ->
  Forall P pre -> ~ P x -> Forall P pre' -> ~ P x' -> x = x'.
Proof.
  revert pre'. induction pre as [| a pre IH]; intros [| a' pre'] Heq Hpre Hx Hpre' Hx';
    cbn in Heq; simplify_eq.
  - reflexivity.
  - inversion_clear Hpre' as [| ? ? Hp _]. contradiction.
  - inversion_clear Hpre as [| ? ? Hp _]. contradiction.
  - inversion_clear Hpre. inversion_clear Hpre'. eapply IH; eassumption.
Qed.

Ltac first_missing Hreq Hpre Hkey earlier :=
  match goal with
  | E : ?items !! ?k = None |- _ =>
      let Hk := fresh "Hk" in
      assert (Hk : k = _) by
        (symmetry;
         apply (first_failure_unique (fun x => is_Some (items !! x)) _ earlier _ _ _ k Hreq Hpre);
         [rewrite Hkey; apply is_Some_None
         | repeat constructor; eauto
         | rewrite E; apply is_Some_None]);
      subst
  end.

(** X9: the key that fails is the first one, in the order of the look-ups,
    that the file lacks; what was computed before it is already in the
    sink (memory.free, if MemFree is there), and memory.swap-used is
    not written. *)
Theorem memory_first_missing_key (os : OS) (meminfo : string) (items : gmap string Z)
    (h : Heap) (pre post : list string) (key : string) :
  os_open os "/proc/meminfo" = Text meminfo ->
  MemorySampler.parse (PyStr.lines meminfo) ∅ = Ok items ->
  required_keys = pre ++ key :: post ->
  Forall (fun k => is_Some (items !! k)) pre ->
  items !! key = None ->
  let r := MemorySampler.sample os h in
  snd r = Raise (KeyError key)
  /\ (forall free, items !! "MemFree" = Some free ->
        scalar (samples (fst r)) "memory.free" = Some (PyInt (1024 * free)))
  /\ entries (samples (fst r)) !! "memory.swap-used" = entries (samples h) !! "memory.swap-used".
Proof.
  intros Hopen Hparse Hreq Hpre Hkey. cbn zeta.
  unfold MemorySampler.sample, open_file, bind, record, lift, MemorySampler.item.
  rewrite Hopen. cbn [ret]. rewrite Hparse. unfold required_keys in Hreq. symmetry in Hreq.
  destruct (items !! "MemFree") as [free |] eqn:E1.
  2: { first_missing Hreq Hpre Hkey (@nil string).
       cbn. split; [reflexivity |]. split; [intros ? [=] | reflexivity]. }
  destruct (items !! "MemTotal") as [total |] eqn:E2.
  2: { first_missing Hreq Hpre Hkey ["MemFree"].
       cbn. split; [reflexivity |]. unfold scalar. cbn.
       split; [intros ? [= <-]; rewrite lookup_insert_eq; reflexivity |].
       rewrite lookup_insert_ne by discriminate. reflexivity. }
  destruct (items !! "MemAvailable") as [avail |] eqn:E3.
  2: { first_missing Hreq Hpre Hkey ["MemFree"; "MemTotal"].
       cbn. split; [reflexivity |]. unfold scalar. cbn.
       split; [intros ? [= <-]; rewrite lookup_insert_eq; reflexivity |].
       rewrite lookup_insert_ne by discriminate. reflexivity. }
  destruct (items !! "Buffers") as [buffers |] eqn:E4.
  2: { first_missing Hreq Hpre Hkey ["MemFree"; "MemTotal"; "MemAvailable"].
       cbn. split; [reflexivity |]. unfold scalar. cbn.
       split; [intros ? [= <-]; rewrite lookup_insert_ne by discriminate;
               rewrite lookup_insert_eq; reflexivity |].
       rewrite !lookup_insert_ne by discriminate. reflexivity. }
  destruct (items !! "Cached") as [cached |] eqn:E5.
  2: { first_missing Hreq Hpre Hkey ["MemFree"; "MemTotal"; "MemAvailable"; "Buffers"].
       cbn. split; [reflexivity |]. unfold scalar. cbn.
       split; [intros ? [= <-]; rewrite lookup_insert_ne by discriminate;
               rewrite lookup_insert_eq; reflexivity |].
       rewrite !lookup_insert_ne by discriminate. reflexivity. }
  destruct (items !! "SwapTotal") as [swap_total |] eqn:E6.
  2: { first_missing Hreq Hpre Hkey
         ["MemFree"; "MemTotal"; "MemAvailable"; "Buffers"; "Cached"].
       cbn. split; [reflexivity |]. unfold scalar. cbn.
       split; [intros ? [= <-]; rewrite !lookup_insert_ne by discriminate;
               rewrite lookup_insert_eq; reflexivity |].
       rewrite !lookup_insert_ne by discriminate. reflexivity. }
  destruct (items !! "SwapFree") as [swap_free |] eqn:E7.
  2: { first_missing Hreq Hpre Hkey
         ["MemFree"; "MemTotal"; "MemAvailable"; "Buffers"; "Cached"; "SwapTotal"].
       cbn. split; [reflexivity |]. unfold scalar. cbn.
       split; [intros ? [= <-]; rewrite !lookup_insert_ne by discriminate;
               rewrite lookup_insert_eq; reflexivity |].
       rewrite !lookup_insert_ne by discriminate. reflexivity. }
  exfalso.
  assert (Hin : key ∈ ["MemFree"; "MemTotal"; "MemAvailable"; "Buffers"; "Cached";
                       "SwapTotal"; "SwapFree"])
    by (rewrite <- Hreq; apply elem_of_app; right; left).
  repeat (apply elem_of_cons in Hin as [-> | Hin]; [congruence |]).
  by apply elem_of_nil in Hin.
Qed.

Lemma memory_first_missing_key_witness :
  let r := MemorySampler.sample (host [("/proc/meminfo", meminfo_old_kernel)] []) fresh in
  snd r = Raise (KeyError "MemAvailable")
  /\ scalar (samples (fst r)) "memory.free" = Some (PyInt (1024 * 200))
  /\ entries (samples (fst r)) !! "memory.swap-used" = None.
Proof.
  destruct (memory_first_missing_key (host [("/proc/meminfo", meminfo_old_kernel)] [])
              meminfo_old_kernel
              (<["SwapFree" := 40]> (<["SwapTotal" := 100]> (<["Cached" := 50]>
                 (<["Buffers" := 50]> (<["MemFree" := 200]> (<["MemTotal" := 1000]> ∅))))))
              fresh ["MemFree"; "MemTotal"] ["Buffers"; "Cached"; "SwapTotal"; "SwapFree"]
              "MemAvailable")
    as (Hraise & Hfree & Hswap).
  - reflexivity.
  - vm_compute. reflexivity.
  - reflexivity.
  - repeat constructor; vm_compute; eauto.
  - vm_compute. reflexivity.
  - split; [exact Hraise |]. split; [apply Hfree; vm_compute; reflexivity | exact Hswap].
Defined.

(** ** Disk-aggregate sampler *)

Lemma totals_eq (a b : DiskSampler.totals) :
  DiskSampler.bytes_read a = DiskSampler.bytes_read b ->
  DiskSampler.bytes_written a = DiskSampler.bytes_written b ->
  DiskSampler.num_ops a = DiskSampler.num_ops b ->
  a = b.
Proof. destruct a, b. cbn. congruence. Qed.

(** What a line adds does not depend on the totals so far. *)
Lemma add_line_contribution (line : string) (t : DiskSampler.totals) :
  DiskSampler.add_line line t =
    match DiskSampler.add_line line totals_zero with
    | Some c => Some (totals_add t c)
    | None => None
    end.
Proof.
  unfold DiskSampler.add_line.
  destruct (PyStr.split (PyStr.strip line))
    as [| f0 [| f1 [| f2 [| f3 [| f4 [| f5 [| f6 [| f7 [| f8 [| f9 rest]]]]]]]]]];
    try reflexivity.
  assert (Hsame : Some t = Some (totals_add t totals_zero)).
  { f_equal. apply totals_eq; cbn; lia. }
  destruct (_ || _); [exact Hsame |].
  destruct (DiskSampler.is_partition f2); [exact Hsame |].
  destruct (DiskSampler.is_nvme_partition f2); [exact Hsame |].
  destruct (PyStr.int f5); [| reflexivity].
  destruct (PyStr.int f9); [| reflexivity].
  destruct (PyStr.int f4); [| reflexivity].
  destruct (PyStr.int f8); [| reflexivity].
  cbn. f_equal.
Qed.

Lemma add_lines_permutation (lines1 lines2 : list string) :
  lines1 ≡ₚ lines2 ->
  forall t, DiskSampler.add_lines lines1 t = DiskSampler.add_lines lines2 t.
Proof.
  induction 1 as [| x l1 l2 _ IH | x y l | l1 l2 l3 _ IH1 _ IH2]; intros t.
  - reflexivity.
  - cbn. destruct (DiskSampler.add_line x t); [apply IH | reflexivity].
  - cbn. rewrite (add_line_contribution y t), (add_line_contribution x t).
    destruct (DiskSampler.add_line y totals_zero) as [cy |] eqn:Ey;
      destruct (DiskSampler.add_line x totals_zero) as [cx |] eqn:Ex;
      rewrite ?(add_line_contribution x (totals_add t cy)),
              ?(add_line_contribution y (totals_add t cx)), ?Ex, ?Ey;
      try reflexivity.
    f_equal. apply totals_eq; cbn; lia.
  - rewrite IH1. apply IH2.
Qed.

(** X10: the totals do not depend on the order of the lines: two hosts whose
    statistics files hold the same lines in different orders are
    sampled alike, error included. *)
Theorem disk_order_independent (os os' : OS) (diskstats diskstats' : string) (h : Heap) :
  os_open os "/proc/diskstats" = Text diskstats ->
  os_open os' "/proc/diskstats" = Text diskstats' ->
  PyStr.lines diskstats ≡ₚ PyStr.lines diskstats' ->
  DiskSampler.sample os h = DiskSampler.sample os' h.
Proof.
  intros Hopen Hopen' Hperm. unfold DiskSampler.sample, open_file, record, bind.
  rewrite Hopen, Hopen'. cbn [ret].
  rewrite (add_lines_permutation _ _ Hperm). reflexivity.
Qed.

Lemma disk_order_independent_witness :
  DiskSampler.sample (host [("/proc/diskstats", diskstats_two)] []) fresh
  = DiskSampler.sample (host [("/proc/diskstats", diskstats_two_swapped)] []) fresh.
Proof.
  apply (disk_order_independent (host [("/proc/diskstats", diskstats_two)] [])
           (host [("/proc/diskstats", diskstats_two_swapped)] [])
           diskstats_two diskstats_two_swapped fresh).
  - reflexivity.
  - reflexivity.
  - change (PyStr.lines diskstats_two) with [diskstats_sda; diskstats_dm].
    change (PyStr.lines diskstats_two_swapped) with [diskstats_dm; diskstats_sda].
    apply Permutation_swap.
Defined.

Lemma add_line_short (line : string) (t : DiskSampler.totals) :
  (length (PyStr.split (PyStr.strip line)) < 10)%nat ->
  DiskSampler.add_line line t = None.
Proof.
  unfold DiskSampler.add_line. intros Hshort.
  destruct (PyStr.split (PyStr.strip line))
    as [| f0 [| f1 [| f2 [| f3 [| f4 [| f5 [| f6 [| f7 [| f8 [| f9 rest]]]]]]]]]];
    try reflexivity.
  cbn in Hshort. lia.
Qed.

Lemma add_lines_short (lines : list string) (t : DiskSampler.totals) :
  (exists line, line ∈ lines /\ (length (PyStr.split (PyStr.strip line)) < 10)%nat) ->
  DiskSampler.add_lines lines t = None.
Proof.
  intros (bad & Hin & Hshort). revert t.
  induction lines as [| line rest IH]; intros t; [by apply elem_of_nil in Hin |].
  cbn. apply elem_of_cons in Hin as [<- | Hin].
  - rewrite (add_line_short _ _ Hshort). reflexivity.
  - destruct (DiskSampler.add_line line t); [apply IH, Hin | reflexivity].
Qed.

(** X11: the pass is all or nothing: a line with fewer than ten fields, a
    blank line for one, wherever it is, makes it raise [ValueError]
    with none of the three totals written. *)
Theorem disk_malformed_line_raises (os : OS) (diskstats : string) (h : Heap) :
  os_open os "/proc/diskstats" = Text diskstats ->
  (exists line, line ∈ PyStr.lines diskstats
                /\ (length (PyStr.split (PyStr.strip line)) < 10)%nat) ->
  DiskSampler.sample os h
  = (with_log (log h ++ [EvOpen "/proc/diskstats"]) h, Raise ValueError).
Proof.
  intros Hopen Hbad. unfold DiskSampler.sample, open_file, record, bind.
  rewrite Hopen. cbn [ret]. rewrite (add_lines_short _ _ Hbad). reflexivity.
Qed.

Lemma disk_malformed_line_raises_witness :
  DiskSampler.sample (host [("/proc/diskstats", diskstats_blank_line)] []) fresh
  = (with_log [EvOpen "/proc/diskstats"] fresh, Raise ValueError).
Proof.
  apply (disk_malformed_line_raises (host [("/proc/diskstats", diskstats_blank_line)] [])
           diskstats_blank_line fresh).
  - reflexivity.
  - exists nl. split; [| vm_compute; lia].
    change (PyStr.lines diskstats_blank_line) with [diskstats_sda; nl; diskstats_dm]. in_list.
Defined.

Lemma add_lines_sector_multiple (lines : list string) (t t' : DiskSampler.totals) :
  DiskSampler.add_lines lines t = Some t' ->
  (512 | DiskSampler.bytes_read t) -> (512 | DiskSampler.bytes_written t) ->
  (512 | DiskSampler.bytes_read t') /\ (512 | DiskSampler.bytes_written t').
Proof.
  revert t. induction lines as [| line rest IH]; intros t Hrun Hr Hw.
  - injection Hrun as <-. split; assumption.
  - cbn in Hrun. destruct (DiskSampler.add_line line t) as [t1 |] eqn:E; [| discriminate].
    apply (IH t1 Hrun); unfold DiskSampler.add_line in E;
      destruct (PyStr.split (PyStr.strip line))
        as [| f0 [| f1 [| f2 [| f3 [| f4 [| f5 [| f6 [| f7 [| f8 [| f9 more]]]]]]]]]];
      try discriminate;
      destruct (_ || _); [injection E as <-; assumption | | injection E as <-; assumption |];
      (destruct (DiskSampler.is_partition f2); [injection E as <-; assumption |]);
      (destruct (DiskSampler.is_nvme_partition f2); [injection E as <-; assumption |]);
      (destruct (PyStr.int f5) as [a |]; [| discriminate]);
      (destruct (PyStr.int f9) as [b |]; [| discriminate]);
      (destruct (PyStr.int f4) as [c |]; [| discriminate]);
      (destruct (PyStr.int f8) as [d |]; [| discriminate]);
      cbn in E; injection E as <-; cbn;
      apply Z.divide_add_r; try assumption; apply Z.divide_factor_r.
Qed.

(** X12: a pass that succeeds writes three integers: disk.all.read and
    disk.all.written, both multiples of the sector size of 512 bytes,
    and disk.all.ops, a name that no sampler declares. *)
Theorem disk_success_writes_three (os : OS) (h : Heap) :
  snd (DiskSampler.sample os h) = Ok tt ->
  exists r w ops,
    fst (DiskSampler.sample os h)
    = with_samples
        (with_entries
           (<["disk.all.ops" := Scalar (PyInt ops)]>
              (<["disk.all.written" := Scalar (PyInt w)]>
                 (<["disk.all.read" := Scalar (PyInt r)]> (entries (samples h)))))
           (samples h))
        (with_log (log h ++ [EvOpen "/proc/diskstats"]) h)
    /\ (512 | r) /\ (512 | w)
    /\ "disk.all.ops" ∉ map name all_descriptions.
Proof.
  unfold DiskSampler.sample, open_file, record, bind.
  destruct (os_open os "/proc/diskstats") as [diskstats | |]; cbn [ret raise snd fst];
    try discriminate.
  destruct (DiskSampler.add_lines _ _) as [t |] eqn:E; cbn; [intros _ | discriminate].
  exists (DiskSampler.bytes_read t), (DiskSampler.bytes_written t), (DiskSampler.num_ops t).
  split; [reflexivity |].
  destruct (add_lines_sector_multiple _ _ _ E) as [Hr Hw]; try (cbn; apply Z.divide_0_r).
  split; [exact Hr |]. split; [exact Hw |].
  intros Hin. apply list_elem_of_In in Hin. vm_compute in Hin.
  repeat (destruct Hin as [Hin | Hin]; [discriminate |]). exact Hin.
Qed.

Lemma disk_success_writes_three_witness :
  exists r w ops,
    fst (DiskSampler.sample (host [("/proc/diskstats", diskstats_two)] []) fresh)
    = with_samples
        (with_entries
           (<["disk.all.ops" := Scalar (PyInt ops)]>
              (<["disk.all.written" := Scalar (PyInt w)]>
                 (<["disk.all.read" := Scalar (PyInt r)]> ∅)))
           empty_sink)
        (with_log [EvOpen "/proc/diskstats"] fresh)
    /\ (512 | r) /\ (512 | w)
    /\ "disk.all.ops" ∉ map name all_descriptions.
Proof.
  apply (disk_success_writes_three (host [("/proc/diskstats", diskstats_two)] []) fresh).
  vm_compute. reflexivity.
Defined.

(** ** Facts about splitting *)

Lemma split_fields_nonempty (s w : string) : w ∈ PyStr.split s -> w <> EmptyString.
Proof.
  revert w. induction s as [| c s IH]; intros w Hin; cbn in Hin.
  - by apply elem_of_nil in Hin.
  - destruct (PyStr.is_space c); [apply IH, Hin |].
    destruct s as [| c' s'].
    + apply list_elem_of_singleton in Hin as ->. discriminate.
    + destruct (PyStr.is_space c').
      * apply elem_of_cons in Hin as [-> | Hin]; [discriminate | apply IH, Hin].
      * destruct (PyStr.split (String c' s')) as [| w0 ws].
        -- apply list_elem_of_singleton in Hin as ->. discriminate.
        -- apply elem_of_cons in Hin as [-> | Hin]; [discriminate |].
           apply IH. right. exact Hin.
Qed.

Lemma lines_nonempty (s line : string) : line ∈ PyStr.lines s -> line <> EmptyString.
Proof.
  revert line. induction s as [| c s IH]; intros line Hin; cbn in Hin.
  - by apply elem_of_nil in Hin.
  - destruct (Ascii.eqb c "010").
    + apply elem_of_cons in Hin as [-> | Hin]; [discriminate | apply IH, Hin].
    + destruct s as [| c' s'].
      * apply list_elem_of_singleton in Hin as ->. discriminate.
      * destruct (PyStr.lines (String c' s')) as [| w0 ws].
        -- apply list_elem_of_singleton in Hin as ->. discriminate.
        -- apply elem_of_cons in Hin as [-> | Hin]; [discriminate |].
           apply IH. right. exact Hin.
Qed.

Lemma last_char_some (s : string) : s <> EmptyString -> is_Some (PyStr.last_char s).
Proof.
  induction s as [| c s IH]; [congruence |]. intros _. cbn.
  destruct s as [| c' s']; [eauto |]. apply IH. discriminate.
Qed.

Lemma last_char_append (s : string) (c : ascii) :
  PyStr.last_char (s +:+ String c EmptyString) = Some c.
Proof.
  induction s as [| a s IH]; [reflexivity |].
  change (String a s +:+ String c EmptyString) with (String a (s +:+ String c EmptyString)).
  destruct (s +:+ String c EmptyString) as [| b r] eqn:E; [destruct s; discriminate |].
  exact IH.
Qed.

Lemma but_last_append (s : string) (c : ascii) :
  PySeq.but_last (s +:+ String c EmptyString) = s.
Proof.
  induction s as [| a s IH]; [reflexivity |].
  change (String a s +:+ String c EmptyString) with (String a (s +:+ String c EmptyString)).
  destruct (s +:+ String c EmptyString) as [| b r] eqn:E; [destruct s; discriminate |].
  change (PySeq.but_last (String a (String b r))) with (String a (PySeq.but_last (String b r))).
  rewrite IH. reflexivity.
Qed.

(** ** Block-device sampler *)

(** X13: every line of ten fields or more whose sector counts are integers
    gets its two entries, keyed by the device name: partitions and
    device-mapper devices as well as whole disks. *)
Theorem block_line_written (line dev : string) (h : Heap)
    (f0 f1 f3 f4 sectors_read f6 f7 f8 sectors_written : string) (rest : list string)
    (r w : Z) :
  PyStr.split (PyStr.strip line)
  = f0 :: f1 :: dev :: f3 :: f4 :: sectors_read :: f6 :: f7 :: f8 :: sectors_written :: rest ->
  PyStr.int sectors_read = Some r ->
  PyStr.int sectors_written = Some w ->
  accepts (samples h) "block.device.read" ->
  accepts (samples h) "block.device.written" ->
  BlockSampler.sample_line line h
  = (with_samples
       (put "block.device.written" dev (PyInt (w * 512))
          (put "block.device.read" dev (PyInt (r * 512)) (samples h))) h,
     Ok Next).
Proof.
  intros Hsplit Hr Hw Ar Aw. unfold BlockSampler.sample_line. rewrite Hsplit.
  unfold int. rewrite Hr, Hw. rewrite bind_run. cbn [ret]. rewrite bind_run.
  rewrite (set_instanced_accepted _ _ _ h Ar). rewrite bind_run. cbn [ret]. rewrite bind_run.
  rewrite set_instanced_accepted by (apply accepts_put, Aw). reflexivity.
Qed.

Lemma block_line_written_witness :
  BlockSampler.sample_line diskstats_sda1 fresh
  = (with_samples
       (put "block.device.written" "sda1" (PyInt (1600 * 512))
          (put "block.device.read" "sda1" (PyInt (800 * 512)) empty_sink)) fresh,
     Ok Next).
Proof.
  apply (block_line_written diskstats_sda1 "sda1" fresh
           "8" "1" "100" "5" "800" "30" "200" "7" "1600" ["50"; "0"; "90"; "80"] 800 1600);
    vm_compute; reflexivity.
Defined.

(** X14: where the disk-aggregate sampler counts a line, what it adds to its
    two byte totals is what the block-device sampler writes for the
    device of that line. *)
Theorem block_agrees_with_disk (line dev : string) (t t' : DiskSampler.totals) (h : Heap) :
  device_name line = Some dev ->
  DiskSampler.is_partition dev = false ->
  DiskSampler.is_nvme_partition dev = false ->
  DiskSampler.add_line line t = Some t' ->
  accepts (samples h) "block.device.read" ->
  accepts (samples h) "block.device.written" ->
  exists h',
    BlockSampler.sample_line line h = (h', Ok Next)
    /\ instance (samples h') "block.device.read" dev
       = Some (PyInt (DiskSampler.bytes_read t' - DiskSampler.bytes_read t))
    /\ instance (samples h') "block.device.written" dev
       = Some (PyInt (DiskSampler.bytes_written t' - DiskSampler.bytes_written t)).
Proof.
  unfold device_name, DiskSampler.add_line. intros Hdev Hpart Hnvme Hadd Ar Aw.
  destruct (PyStr.split (PyStr.strip line))
    as [| f0 [| f1 [| f2 [| f3 [| f4 [| f5 [| f6 [| f7 [| f8 [| f9 rest]]]]]]]]]] eqn:Hsplit;
    try discriminate.
  cbn in Hdev. injection Hdev as ->.
  rewrite Hpart, Hnvme in Hadd. cbn in Hadd.
  destruct (PyStr.int f5) as [a |] eqn:Ea; [| discriminate].
  destruct (PyStr.int f9) as [b |] eqn:Eb; [| discriminate].
  destruct (PyStr.int f4) as [c |]; [| discriminate].
  destruct (PyStr.int f8) as [d |]; [| discriminate].
  cbn in Hadd. injection Hadd as <-. cbn.
  eexists. split.
  - exact (block_line_written line dev h _ _ _ _ _ _ _ _ _ _ a b Hsplit Ea Eb Ar Aw).
  - cbn [samples with_samples]. split.
    + rewrite instance_put_other by discriminate. rewrite instance_put_eq.
      do 2 f_equal. lia.
    + rewrite instance_put_eq. do 2 f_equal. lia.
Qed.

Lemma block_agrees_with_disk_witness :
  exists h',
    BlockSampler.sample_line diskstats_sda fresh = (h', Ok Next)
    /\ instance (samples h') "block.device.read" "sda" = Some (PyInt (409600 - 0))
    /\ instance (samples h') "block.device.written" "sda" = Some (PyInt (819200 - 0)).
Proof.
  apply (block_agrees_with_disk diskstats_sda "sda" totals_zero
           {| DiskSampler.bytes_read := 409600; DiskSampler.bytes_written := 819200;
              DiskSampler.num_ops := 12 |} fresh); reflexivity.
Defined.

(** ** Network sampler *)

(** X15: a line is passed over, with nothing parsed or written, when its
    first field does not end with a colon: the two header lines, and a
    line whose interface name runs into its first counter. A line
    without any field raises [IndexError]. *)
Theorem network_non_data_line (line : string) (h : Heap) :
  (PyStr.split line = [] -> NetworkSampler.sample_line line h = (h, Raise IndexError))
  /\ (forall first rest,
        PyStr.split line = first :: rest ->
        PyStr.last_char first <> Some ":"%char ->
        NetworkSampler.sample_line line h = (h, Ok Next)).
Proof.
  unfold NetworkSampler.sample_line, PySeq.item. split.
  - intros ->. reflexivity.
  - intros first rest Hsplit Hlast. rewrite Hsplit. cbn [nth_error]. rewrite bind_run.
    cbn [ret].
    destruct (last_char_some first) as [c Hc].
    { apply (split_fields_nonempty line). rewrite Hsplit. left. }
    rewrite Hc. destruct (Ascii.eqb_spec c ":"); [congruence | reflexivity].
Qed.

Lemma network_non_data_line_witness :
  NetworkSampler.sample_line nl fresh = (fresh, Raise IndexError)
  /\ NetworkSampler.sample_line ("eth0:123456789 50 0 0 0 0 0 0 7000 70" +:+ nl) fresh
     = (fresh, Ok Next).
Proof.
  split.
  - exact (proj1 (network_non_data_line nl fresh) eq_refl).
  - refine (proj2 (network_non_data_line
                     ("eth0:123456789 50 0 0 0 0 0 0 7000 70" +:+ nl) fresh)
              "eth0:123456789" ["50"; "0"; "0"; "0"; "0"; "0"; "0"; "7000"; "70"] eq_refl _).
    discriminate.
Defined.

(** X16: a data line: the interface name with its colon, then the counters.
    The second field is written as network.interface.rx and the tenth
    as network.interface.tx, under the name without its colon. *)
Theorem network_data_line (line iface received sent : string) (fields : list string)
    (rx tx : Z) (h : Heap) :
  PyStr.split line = (iface +:+ ":") :: fields ->
  nth_error fields 0 = Some received ->
  nth_error fields 8 = Some sent ->
  PyStr.int received = Some rx ->
  PyStr.int sent = Some tx ->
  accepts (samples h) "network.interface.rx" ->
  accepts (samples h) "network.interface.tx" ->
  NetworkSampler.sample_line line h
  = (with_samples
       (put "network.interface.tx" iface (PyInt tx)
          (put "network.interface.rx" iface (PyInt rx) (samples h))) h,
     Ok Next).
Proof.
  intros Hsplit Hrec Hsent Hrx Htx Arx Atx.
  unfold NetworkSampler.sample_line, PySeq.item. rewrite Hsplit.
  change (nth_error ((iface +:+ ":") :: fields) 0) with (Some (iface +:+ ":")).
  rewrite bind_run. cbn [ret].
  rewrite last_char_append, but_last_append. cbn [Ascii.eqb Bool.eqb negb].
  change (nth_error ((iface +:+ ":") :: fields) 1) with (nth_error fields 0).
  change (nth_error ((iface +:+ ":") :: fields) 9) with (nth_error fields 8).
  rewrite Hrec, Hsent. unfold bind, int. cbn [ret]. rewrite Hrx. cbn [ret].
  rewrite (set_instanced_accepted _ _ _ h Arx). rewrite Htx. cbn [ret].
  rewrite set_instanced_accepted by (apply accepts_put, Atx). reflexivity.
Qed.

Lemma network_data_line_witness :
  NetworkSampler.sample_line ("  eth0: 5000 50 0 0 0 0 0 0 7000 70 0 0 0 0 0 0" +:+ nl) fresh
  = (with_samples
       (put "network.interface.tx" "eth0" (PyInt 7000)
          (put "network.interface.rx" "eth0" (PyInt 5000) empty_sink)) fresh,
     Ok Next).
Proof.
  apply (network_data_line ("  eth0: 5000 50 0 0 0 0 0 0 7000 70 0 0 0 0 0 0" +:+ nl)
           "eth0" "5000" "7000"
           ["5000"; "50"; "0"; "0"; "0"; "0"; "0"; "0"; "7000"; "70"; "0"; "0"; "0"; "0"; "0"; "0"]
           5000 7000 fresh); vm_compute; reflexivity.
Defined.

Example network_pass_example :
  NetworkSampler.sample (host [("/proc/net/dev", net_dev_example)] []) fresh
  = (with_samples
       (put "network.interface.tx" "eth0" (PyInt 7000)
          (put "network.interface.rx" "eth0" (PyInt 5000)
             (put "network.interface.tx" "lo" (PyInt 2000)
                (put "network.interface.rx" "lo" (PyInt 1000) empty_sink))))
       (with_log [EvOpen "/proc/net/dev"] fresh),
     Ok tt).
Proof. vm_compute. reflexivity. Qed.

(** ** Mount sampler *)

Lemma first_char_slash (c : ascii) (s : string) :
  PyStr.startswith (String c s) "/" = true <-> c = "/"%char.
Proof.
  unfold PyStr.startswith.
  change (String.prefix "/" (String c s))
    with (if ascii_dec "/" c then String.prefix EmptyString s else false).
  destruct (ascii_dec "/" c) as [<- | Hne].
  - split; [intros _; reflexivity | intros _; destruct s; reflexivity].
  - split; [discriminate | intros ->; congruence].
Qed.

(** X17: a line that starts with a slash: the second field is the mount
    path, and its file system statistics give mount.total, the
    fragment size times the number of blocks, and mount.used, which is
    the fragment size times the number of blocks in use and lies
    between zero and the total when the counts are in order. *)
Theorem mount_line_written (host : Host) (line path : string) (res : statvfs_result)
    (h : Heap) :
  PyStr.startswith line "/" = true ->
  nth_error (PyStr.split line) 1 = Some path ->
  os_statvfs host path = Stat res ->
  accepts (samples h) "mount.total" ->
  accepts (samples h) "mount.used" ->
  let total := f_frsize res * f_blocks res in
  let used := total - f_frsize res * f_bfree res in
  MountSampler.sample_line host line h
  = (with_samples
       (put "mount.used" path (PyInt used) (put "mount.total" path (PyInt total) (samples h))) h,
     Ok Next)
  /\ used = f_frsize res * (f_blocks res - f_bfree res)
  /\ (0 <= f_frsize res -> 0 <= f_bfree res <= f_blocks res -> 0 <= used <= total).
Proof.
  intros Hstart Hpath Hstat At Au. cbn zeta. split; [| split; [lia | nia]].
  unfold MountSampler.sample_line.
  destruct line as [| c line']; [discriminate |].
  apply first_char_slash in Hstart as ->. cbn [Ascii.eqb Bool.eqb negb].
  unfold PySeq.item. rewrite Hpath. rewrite bind_run. cbn [ret].
  rewrite bind_run. unfold statvfs at 1. rewrite Hstat. cbn [ret statvfs_truthy].
  rewrite bind_run. rewrite (set_instanced_accepted _ _ _ h At).
  rewrite bind_run. rewrite set_instanced_accepted by (apply accepts_put, Au). reflexivity.
Qed.

Lemma mount_line_written_witness :
  MountSampler.sample_line (host_with (host [] []) [("/", root_fs)])
    ("/dev/sda1 / ext4 rw,relatime 0 0" +:+ nl) fresh
  = (with_samples
       (put "mount.used" "/" (PyInt (4096 * 1000 - 4096 * 250))
          (put "mount.total" "/" (PyInt (4096 * 1000)) empty_sink)) fresh,
     Ok Next)
  /\ 4096 * 1000 - 4096 * 250 = 4096 * (1000 - 250)
  /\ (0 <= 4096 -> 0 <= 250 <= 1000 -> 0 <= 4096 * 1000 - 4096 * 250 <= 4096 * 1000).
Proof.
  apply (mount_line_written (host_with (host [] []) [("/", root_fs)])
           ("/dev/sda1 / ext4 rw,relatime 0 0" +:+ nl) "/" root_fs fresh); reflexivity.
Defined.

(** X18: a mount table without any line that starts with a slash is read to
    its end: nothing is written and no file system is consulted, so
    the pass succeeds whatever the file systems answer. *)
Theorem mount_pseudo_lines_ignored (host : Host) (mounts : string) (h : Heap) :
  os_open (kernel host) "/proc/mounts" = Text mounts ->
  (forall line, line ∈ PyStr.lines mounts -> PyStr.startswith line "/" = false) ->
  MountSampler.sample host h = (with_log (log h ++ [EvOpen "/proc/mounts"]) h, Ok tt).
Proof.
  intros Hopen Hlines. unfold MountSampler.sample, open_file, record.
  unfold bind at 1 2. rewrite Hopen. cbn [ret].
  generalize (with_log (log h ++ [EvOpen "/proc/mounts"]) h) as h0.
  pose proof (lines_nonempty mounts) as Hne.
  induction (PyStr.lines mounts) as [| line rest IH]; intros h0; [reflexivity |].
  cbn [for_each]. rewrite bind_run. unfold MountSampler.sample_line at 1.
  destruct line as [| c line']; [exfalso; apply (Hne EmptyString); [left | reflexivity] |].
  assert (Hc : Ascii.eqb c "/" = false).
  { destruct (Ascii.eqb_spec c "/") as [-> | _]; [| reflexivity].
    pose proof (Hlines (String "/" line') ltac:(left)) as Hline.
    rewrite (proj2 (first_char_slash "/" line') eq_refl) in Hline.
    discriminate. }
  rewrite Hc. cbn [negb ret].
  apply IH.
  - intros l Hl. apply Hlines. right. exact Hl.
  - intros l Hl. apply Hne. right. exact Hl.
Qed.

Lemma mount_pseudo_lines_ignored_witness :
  MountSampler.sample (host_with (host [("/proc/mounts", mounts_pseudo_only)] []) []) fresh
  = (with_log [EvOpen "/proc/mounts"] fresh, Ok tt).
Proof.
  apply (mount_pseudo_lines_ignored
           (host_with (host [("/proc/mounts", mounts_pseudo_only)] []) [])
           mounts_pseudo_only fresh).
  - reflexivity.
  - intros line Hin. apply list_elem_of_In in Hin. simpl in Hin.
    destruct Hin as [<- | [<- | []]]; reflexivity.
Defined.

(** X19: a mount path that the file system does not know (the table writes
    a space in a path as a backslash and 040) raises
    [FileNotFoundError] for that path; the line writes nothing. *)
Theorem mount_statvfs_failure (host : Host) (line path : string) (h : Heap) :
  PyStr.startswith line "/" = true ->
  nth_error (PyStr.split line) 1 = Some path ->
  os_statvfs host path = StatNoSuchFile ->
  MountSampler.sample_line host line h = (h, Raise (FileNotFoundError path)).
Proof.
  intros Hstart Hpath Hstat. unfold MountSampler.sample_line.
  destruct line as [| c line']; [discriminate |].
  apply first_char_slash in Hstart as ->. cbn [Ascii.eqb Bool.eqb negb].
  unfold PySeq.item. rewrite Hpath. rewrite bind_run. cbn [ret].
  rewrite bind_run. unfold statvfs at 1. rewrite Hstat. reflexivity.
Qed.

Lemma mount_statvfs_failure_witness :
  MountSampler.sample_line (host_with (host [] []) [("/mnt/my disk", root_fs)])
    ("/dev/sdb1 /mnt/my\040disk ext4 rw 0 0" +:+ nl) fresh
  = (fresh, Raise (FileNotFoundError "/mnt/my\040disk")).
Proof.
  apply (mount_statvfs_failure (host_with (host [] []) [("/mnt/my disk", root_fs)])
           ("/dev/sdb1 /mnt/my\040disk ext4 rw 0 0" +:+ nl) "/mnt/my\040disk" fresh);
    reflexivity.
Defined.

(** ** CGroup sampler *)

(** X20: a missing single-integer file is passed over; any other failure to
    open it is raised; and a missing keyed file is raised as well:
    [cpu.stat] is not optional. *)
Theorem cgroup_missing_files (os : OS) (path cgroup name key : string) (h : Heap) :
  let opened := with_log (log h ++ [EvOpen path]) h in
  (os_open os path = NoSuchFile ->
   CGroupSampler.read_cgroup_integer_stat os path cgroup name h = (opened, Ok tt)
   /\ CGroupSampler.read_cgroup_keyed_stat os path cgroup name key h
      = (opened, Raise (FileNotFoundError path)))
  /\ (forall errno, os_open os path = Failed errno ->
        CGroupSampler.read_cgroup_integer_stat os path cgroup name h
        = (opened, Raise (OSError errno path))).
Proof.
  cbn zeta.
  unfold CGroupSampler.read_cgroup_integer_stat, CGroupSampler.read_cgroup_keyed_stat,
    try_except_FileNotFoundError, open_file, record, bind.
  split; [intros -> | intros errno ->]; [split |]; reflexivity.
Qed.

Lemma cgroup_missing_files_witness :
  CGroupSampler.read_cgroup_integer_stat (host cgroup_files_v1 cgroup_dirs_v1)
    "/sys/fs/cgroup/memory/cpu.weight" "memory" "cgroup.cpu.shares" fresh
  = (with_log [EvOpen "/sys/fs/cgroup/memory/cpu.weight"] fresh, Ok tt)
  /\ CGroupSampler.read_cgroup_keyed_stat (host cgroup_files_v1 cgroup_dirs_v1)
       "/sys/fs/cgroup/memory/cpu.weight" "memory" "cgroup.cpu.shares" "usage_usec" fresh
     = (with_log [EvOpen "/sys/fs/cgroup/memory/cpu.weight"] fresh,
        Raise (FileNotFoundError "/sys/fs/cgroup/memory/cpu.weight")).
Proof.
  exact (proj1 (cgroup_missing_files (host cgroup_files_v1 cgroup_dirs_v1)
                  "/sys/fs/cgroup/memory/cpu.weight" "memory" "cgroup.cpu.shares"
                  "usage_usec" fresh) eq_refl).
Defined.

Lemma walk_turn_never_stops (os : OS) (path : string) (h : Heap) :
  snd (CGroupSampler.walk_turn os path h) <> Ok Stop.
Proof.
  unfold CGroupSampler.walk_turn. destruct (negb (nonempty _)); [discriminate |].
  repeat (rewrite bind_run;
          destruct (CGroupSampler.read_cgroup_integer_stat _ _ _ _ _) as [? [[] | ?]];
          [| discriminate]).
  rewrite bind_run.
  destruct (CGroupSampler.read_cgroup_keyed_stat _ _ _ _ _ _) as [? [[] | ?]]; discriminate.
Qed.

Lemma walk_turn_without_cpu_stat (os : OS) (path : string) (h : Heap) :
  nonempty (PyStr.replace CGroupSampler.cgroups_v2_path EmptyString path) = true ->
  os_open os (PyStr.path_join path "cpu.stat") = NoSuchFile ->
  exists e, snd (CGroupSampler.walk_turn os path h) = Raise e.
Proof.
  intros Hne Hopen. unfold CGroupSampler.walk_turn. rewrite Hne. cbn [negb].
  repeat (rewrite bind_run;
          destruct (CGroupSampler.read_cgroup_integer_stat _ _ _ _ _) as [? [[] | ?]];
          [| eexists; reflexivity]).
  rewrite bind_run.
  unfold CGroupSampler.read_cgroup_keyed_stat, open_file, record, bind. rewrite Hopen.
  eexists. reflexivity.
Qed.

(** X21: a directory below the root that has no [cpu.stat] makes the whole
    pass fail, as the directories of a cgroup-v1 tree do. *)
Theorem cgroup_pass_needs_cpu_stat (os : OS) (path : string) (h : Heap) :
  path ∈ os_walk os CGroupSampler.cgroups_v2_path ->
  nonempty (PyStr.replace CGroupSampler.cgroups_v2_path EmptyString path) = true ->
  os_open os (PyStr.path_join path "cpu.stat") = NoSuchFile ->
  exists e, snd (CGroupSampler.sample os h) = Raise e.
Proof.
  intros Hin Hne Hopen. unfold CGroupSampler.sample. rewrite bind_run.
  destruct (CGroupSampler.probe os h) as [h0 [[] | e]]; [| eexists; reflexivity].
  rewrite root_nonempty, bind_run. unfold walk, record. rewrite bind_run. cbn [ret].
  generalize (with_log (log h0 ++ [EvWalk CGroupSampler.cgroups_v2_path]) h0) as h1.
  induction (os_walk os CGroupSampler.cgroups_v2_path) as [| p rest IH]; intros h1;
    [by apply elem_of_nil in Hin |].
  cbn [for_each]. rewrite bind_run.
  apply elem_of_cons in Hin as [<- | Hin].
  - destruct (walk_turn_without_cpu_stat os path h1 Hne Hopen) as [e He].
    destruct (CGroupSampler.walk_turn os path h1) as [h2 [c | e']]; cbn in He;
      [discriminate | eexists; reflexivity].
  - pose proof (walk_turn_never_stops os p h1) as Hstop.
    destruct (CGroupSampler.walk_turn os p h1) as [h2 [[|] | e']]; cbn in Hstop.
    + apply IH, Hin.
    + congruence.
    + eexists. reflexivity.
Qed.

Lemma cgroup_pass_needs_cpu_stat_witness :
  exists e, snd (CGroupSampler.sample (host cgroup_files_v1 cgroup_dirs_v1) fresh) = Raise e.
Proof.
  apply (cgroup_pass_needs_cpu_stat (host cgroup_files_v1 cgroup_dirs_v1)
           "/sys/fs/cgroup/memory" fresh).
  - in_list.
  - reflexivity.
  - reflexivity.
Defined.

Lemma in_range_inside (os : OS) (value : Z) :
  0 < value < sys_maxsize os -> CGroupSampler.in_range os value = true.
Proof.
  intros [Hlo Hhi]. unfold CGroupSampler.in_range.
  apply andb_true_intro. split; apply Z.gtb_lt; assumption.
Qed.

Lemma for_each_skip {A} (xs ys : list A) (f : A -> M ctl) (h : Heap) :
  (forall x h', x ∈ xs -> f x h' = (h', Ok Next)) ->
  for_each (xs ++ ys) f h = for_each ys f h.
Proof.
  induction xs as [| x xs IH]; intros Hskip; [reflexivity |].
  cbn [app for_each]. rewrite bind_run, Hskip by left.
  apply IH. intros y h' Hy. apply Hskip. right. exact Hy.
Qed.

(** X22: a value inside the open interval is written: the integer of a
    single-integer file as it is, and the integer of the one line of a
    keyed file that starts with the key divided by 1000. *)
Theorem cgroup_usable_value_written (os : OS) (path cgroup name key stat : string) (h : Heap) :
  os_open os path = Text stat ->
  accepts (samples h) name ->
  let opened := with_log (log h ++ [EvOpen path]) h in
  (forall value,
     PyStr.int (PyStr.strip stat) = Some value ->
     0 < value < sys_maxsize os ->
     CGroupSampler.read_cgroup_integer_stat os path cgroup name h
     = (with_samples (put name cgroup (PyInt value) (samples h)) opened, Ok tt))
  /\ (forall before line after value quotient,
        PyStr.lines stat = before ++ line :: after ->
        (forall l, l ∈ before ++ after -> PyStr.startswith l key = false) ->
        PyStr.startswith line key = true ->
        last_field line = Some value ->
        0 < value < sys_maxsize os ->
        PyNum.int_truediv value 1000 = Ok quotient ->
        CGroupSampler.read_cgroup_keyed_stat os path cgroup name key h
        = (with_samples (put name cgroup quotient (samples h)) opened, Ok tt)).
Proof.
  intros Hopen Hacc. cbn zeta. split.
  - intros value Hint Hin.
    unfold CGroupSampler.read_cgroup_integer_stat, try_except_FileNotFoundError,
      open_file, record, bind.
    rewrite Hopen. cbn [ret]. rewrite Hint, (in_range_inside os value Hin).
    rewrite set_instanced_accepted by exact Hacc. reflexivity.
  - intros before line after value quotient Hlines Hothers Hline Hlast Hin Hdiv.
    assert (Hskip : forall l h', l ∈ before ++ after ->
                      CGroupSampler.keyed_turn os cgroup name key l h' = (h', Ok Next)).
    { intros l h' Hl. unfold CGroupSampler.keyed_turn. rewrite (Hothers l Hl). reflexivity. }
    unfold CGroupSampler.read_cgroup_keyed_stat, open_file, record.
    unfold bind at 1 2. rewrite Hopen. cbn [ret]. rewrite Hlines.
    rewrite for_each_skip by (intros l h' Hl; apply Hskip, elem_of_app; left; exact Hl).
    cbn [for_each]. rewrite bind_run.
    unfold CGroupSampler.keyed_turn at 1. rewrite Hline. cbn [negb].
    unfold last_field in Hlast.
    destruct (List.last (Some <$> PyStr.split line) None) as [field |]; [| discriminate].
    unfold bind at 1, int. rewrite Hlast. cbn [ret]. rewrite (in_range_inside os value Hin).
    unfold bind at 1, lift. rewrite Hdiv.
    unfold bind at 1. rewrite set_instanced_accepted by exact Hacc. cbn [ret].
    rewrite <- (app_nil_r after).
    rewrite for_each_skip by (intros l h' Hl; apply Hskip, elem_of_app; right; exact Hl).
    reflexivity.
Qed.

Lemma cgroup_usable_value_written_witness :
  let os := host cgroup_files_limits cgroup_dirs_ab in
  CGroupSampler.read_cgroup_integer_stat os "/sys/fs/cgroup/b/memory.current"
    "b" "cgroup.memory.usage" fresh
  = (with_samples (put "cgroup.memory.usage" "b" (PyInt 4096) empty_sink)
       (with_log [EvOpen "/sys/fs/cgroup/b/memory.current"] fresh), Ok tt)
  /\ CGroupSampler.read_cgroup_keyed_stat os "/sys/fs/cgroup/b/cpu.stat"
       "b" "cgroup.cpu.usage" "usage_usec" fresh
     = (with_samples (put "cgroup.cpu.usage" "b" (PyFloat (PyNum.float_of_int 5)) empty_sink)
          (with_log [EvOpen "/sys/fs/cgroup/b/cpu.stat"] fresh), Ok tt).
Proof.
  cbn zeta. split.
  - refine (proj1 (cgroup_usable_value_written (host cgroup_files_limits cgroup_dirs_ab)
                     "/sys/fs/cgroup/b/memory.current" "b" "cgroup.memory.usage" "usage_usec"
                     ("4096" +:+ nl) fresh eq_refl eq_refl) 4096 eq_refl _).
    split; reflexivity.
  - refine (proj2 (cgroup_usable_value_written (host cgroup_files_limits cgroup_dirs_ab)
                     "/sys/fs/cgroup/b/cpu.stat" "b" "cgroup.cpu.usage" "usage_usec"
                     ("usage_usec 5000" +:+ nl) fresh eq_refl eq_refl)
              [] ("usage_usec 5000" +:+ nl) [] 5000 (PyFloat (PyNum.float_of_int 5))
              eq_refl _ eq_refl eq_refl _ eq_refl).
    + intros l Hl. by apply elem_of_nil in Hl.
    + split; reflexivity.
Defined.

Lemma replace_without_occurrence (old new s : string) :
  contains old s = false -> PyStr.replace old new s = s.
Proof.
  unfold PyStr.replace. induction s as [| c s IH]; [reflexivity |].
  cbn [contains PyStr.replace_from]. intros Hno. apply orb_false_iff in Hno as [Hp Hs].
  rewrite Hp, (IH Hs). reflexivity.
Qed.

Lemma replace_root_prefix (rel : string) :
  PyStr.replace CGroupSampler.cgroups_v2_path EmptyString
    (CGroupSampler.cgroups_v2_path +:+ rel)
  = PyStr.replace CGroupSampler.cgroups_v2_path EmptyString rel.
Proof. destruct rel; vm_compute; reflexivity. Qed.

(** X23: the root of the tree is passed over without any read; a directory
    below it is read under the instance key that is its path relative
    to the root. *)
Theorem cgroup_keyed_by_relative_path (os : OS) (rel : string) (h : Heap) :
  CGroupSampler.walk_turn os CGroupSampler.cgroups_v2_path h = (h, Ok Next)
  /\ (nonempty rel = true ->
      contains CGroupSampler.cgroups_v2_path rel = false ->
      CGroupSampler.walk_turn os (CGroupSampler.cgroups_v2_path +:+ rel) h
      = cgroup_reads os (CGroupSampler.cgroups_v2_path +:+ rel) rel h).
Proof.
  split; [reflexivity |].
  intros Hne Hno. unfold CGroupSampler.walk_turn.
  rewrite replace_root_prefix, (replace_without_occurrence _ _ _ Hno), Hne. reflexivity.
Qed.

Lemma cgroup_keyed_by_relative_path_witness :
  CGroupSampler.walk_turn (host cgroup_files_one cgroup_dirs_a)
    "/sys/fs/cgroup/system.slice/sshd.service" fresh
  = cgroup_reads (host cgroup_files_one cgroup_dirs_a)
      "/sys/fs/cgroup/system.slice/sshd.service" "system.slice/sshd.service" fresh.
Proof.
  exact (proj2 (cgroup_keyed_by_relative_path (host cgroup_files_one cgroup_dirs_a)
                  "system.slice/sshd.service" fresh) eq_refl eq_refl).
Defined.

Lemma run_passes_resolved (passes : list (OS * Samples)) (b : bool) (queries : list string)
    (h : Heap) :
  resolved b queries h -> resolved b queries (run_passes CGroupSampler.sample passes h).
Proof.
  revert h. induction passes as [| [os sink] rest IH]; intros h Hh; [exact Hh |].
  cbn [run_passes]. apply IH. apply (sample_resolved os b queries). exact Hh.
Qed.

(** X24: the first pass of a process asks once whether
    /sys/fs/cgroup/cgroup.controllers exists, and its answer is the
    flag for the rest of the lifetime of the process: no later pass
    asks again, whatever becomes of the file. *)
Theorem cgroup_flag_resolved_once (os : OS) (sink : Samples) (later : list (OS * Samples))
    (h : Heap) :
  cgroups_v2 h = None ->
  let h' := run_passes CGroupSampler.sample ((os, sink) :: later) h in
  cgroups_v2 h' = Some (os_exists os "/sys/fs/cgroup/cgroup.controllers")
  /\ existence_queries (log h')
     = existence_queries (log h) ++ ["/sys/fs/cgroup/cgroup.controllers"].
Proof.
  intros Hnone. cbn zeta. cbn [run_passes].
  apply (run_passes_resolved later (os_exists os "/sys/fs/cgroup/cgroup.controllers")).
  unfold CGroupSampler.sample, CGroupSampler.probe, path_exists, record.
  rewrite !bind_run. cbn [CGroupSampler.get_cgroups_v2 cgroups_v2 with_samples].
  rewrite Hnone. cbn [ret CGroupSampler.set_cgroups_v2]. rewrite root_nonempty.
  apply (walk_all_preserves
           (resolved (os_exists os "/sys/fs/cgroup/cgroup.controllers")
              (existence_queries (log h) ++ ["/sys/fs/cgroup/cgroup.controllers"]))).
  - intros s h0 Hh0. exact Hh0.
  - intros path h0 (Hflag & Hq). split; [exact Hflag |]. cbn.
    rewrite existence_queries_app, Hq. cbn. apply app_nil_r.
  - intros top h0 (Hflag & Hq). split; [exact Hflag |]. cbn.
    rewrite existence_queries_app, Hq. cbn. apply app_nil_r.
  - split; [reflexivity |]. cbn. rewrite existence_queries_app. reflexivity.
Qed.

Lemma cgroup_flag_resolved_once_witness :
  let h' := run_passes CGroupSampler.sample
              [(host cgroup_files_one cgroup_dirs_a, empty_sink);
               (host cgroup_files_v1 cgroup_dirs_v1, empty_sink)] fresh in
  cgroups_v2 h' = Some true
  /\ existence_queries (log h') = [] ++ ["/sys/fs/cgroup/cgroup.controllers"].
Proof.
  apply (cgroup_flag_resolved_once (host cgroup_files_one cgroup_dirs_a) empty_sink
           [(host cgroup_files_v1 cgroup_dirs_v1, empty_sink)] fresh).
  reflexivity.
Defined.

(** ** CPU-temperature sampler *)

Lemma N_range_snoc (lo : N) (k : nat) :
  N_range lo (S k) = N_range lo k ++ [(lo + N.of_nat k)%N].
Proof.
  revert lo. induction k as [| k IH]; intros lo.
  - cbn. rewrite N.add_0_r. reflexivity.
  - change (N_range lo (S (S k))) with (lo :: N_range (lo + 1) (S k)).
    rewrite IH. cbn [N_range app]. do 3 f_equal. lia.
Qed.

Section Devices.

Import CPUTemperatureSampler.

Variable os : OS.

Lemma scan_turns_other_devices (k : nat) (lo : N) (h : Heap) :
  (forall i, (lo <= i < lo + N.of_nat k)%N ->
     exists raw, os_open os (name_path i) = Text raw
                 /\ existsb (String.eqb (PyStr.strip raw)) cpu_names = false) ->
  for_turns k (scan_turn os) lo h
  = (with_log (log h ++ map (fun i => EvOpen (name_path i)) (N_range lo k)) h, Ok Next).
Proof.
  revert lo h. induction k as [| k IH]; intros lo h Hall.
  - cbn. rewrite app_nil_r. destruct h. reflexivity.
  - cbn [for_turns N_range map]. rewrite bind_run.
    destruct (Hall lo ltac:(lia)) as (raw & Hopen & Hname).
    rewrite (scan_turn_other_device os lo raw h Hopen Hname).
    rewrite IH by (intros i Hi; apply Hall; lia).
    cbn. rewrite <- app_assoc. reflexivity.
Qed.

(** X25: on a host whose hwmon devices 0..k-1 are not CPUs and which has no
    device k, a pass with an empty cache opens the k + 1 name files and
    nothing else: it makes no existence query, caches no sensor, writes
    nothing and returns normally. *)
Theorem temperature_without_cpu_device (k : nat) (h : Heap) :
  sensors h = [] ->
  (N.of_nat k < 2 ^ 32)%N ->
  (forall i, (i < N.of_nat k)%N ->
     exists raw, os_open os (name_path i) = Text raw
                 /\ existsb (String.eqb (PyStr.strip raw)) cpu_names = false) ->
  os_open os (name_path (N.of_nat k)) = NoSuchFile ->
  sample os h
  = (with_log (log h ++ map (fun i => EvOpen (name_path i)) (N_range 0 (S k))) h, Ok tt).
Proof.
  intros Hempty Hk Hothers Hend.
  unfold sample, discover. rewrite !bind_run. cbn [get_sensors]. rewrite Hempty.
  rewrite (for_range_turns 0 (2 ^ 32) 4294967296 _ h eq_refl).
  assert (exists m, Pos.to_nat 4294967296 = (k + S m)%nat) as [m ->].
  { exists (Pos.to_nat 4294967296 - k - 1)%nat. lia. }
  rewrite for_turns_add.
  rewrite scan_turns_other_devices by (intros i Hi; apply Hothers; lia).
  cbn [for_turns]. rewrite bind_run. change (0 + N.of_nat k)%N with (N.of_nat k).
  rewrite (scan_turn_end os (N.of_nat k) _ Hend). cbn [ret].
  rewrite bind_run. cbn [get_sensors with_log sensors]. rewrite Hempty. cbn [for_each ret].
  f_equal. cbn [log with_log].
  rewrite (N_range_snoc 0 k), map_app, <- app_assoc. destruct h; reflexivity.
Qed.

(** One turn of the enumeration on an input that exists but has no
    label file: the opening of the label raises, nothing is cached. *)
Lemma detect_turn_label_file_missing (hwmonid : N) (name : string) (index : N) (h : Heap) :
  os_exists os (sensor_path hwmonid index) = true ->
  os_open os (label_path hwmonid index) = NoSuchFile ->
  detect_turn os hwmonid name index h
  = (with_log (log h ++ [EvExists (sensor_path hwmonid index);
                         EvOpen (label_path hwmonid index)]) h,
     Raise (FileNotFoundError (label_path hwmonid index))).
Proof.
  intros Hex Hopen. unfold detect_turn, path_exists, open_file, record.
  unfold bind at 1 2. cbn [ret]. rewrite Hex. cbn [negb].
  unfold bind at 1 2. rewrite Hopen. cbn. rewrite <- app_assoc. reflexivity.
Qed.

(** C8: the rule is broken for the input without a label of a
    cpu_thermal device, which it includes. On a host whose hwmon devices
    0..k-1 are not CPUs and whose device k is a cpu_thermal device with
    an input temp1_input and no file temp1_label, the rule includes
    that input, but a pass with an empty cache stops at the missing
    label file: the cache stays empty, nothing is written, no device
    after k is looked at, and the pass returns normally. *)
Theorem temperature_label_less_input_dropped (k : nat) (raw : string) (h : Heap) :
  sensors h = [] ->
  (N.of_nat k < 2 ^ 32)%N ->
  (forall i, (i < N.of_nat k)%N ->
     exists raw, os_open os (name_path i) = Text raw
                 /\ existsb (String.eqb (PyStr.strip raw)) cpu_names = false) ->
  os_open os (name_path (N.of_nat k)) = Text raw ->
  PyStr.strip raw = "cpu_thermal" ->
  os_exists os (sensor_path (N.of_nat k) 1) = true ->
  os_open os (label_path (N.of_nat k) 1) = NoSuchFile ->
  rule_includes "cpu_thermal" (sensor_label os (N.of_nat k) 1) = true
  /\ exists h',
       sample os h = (h', Ok tt)
       /\ sensors h' = []
       /\ samples h' = samples h
       /\ log h' = log h ++ map (fun i => EvOpen (name_path i)) (N_range 0 (S k))
                         ++ [EvExists (sensor_path (N.of_nat k) 1);
                             EvOpen (label_path (N.of_nat k) 1)].
Proof.
  intros Hempty Hk Hothers Hname Hcpu Hex Hlabel. split.
  { unfold sensor_label. rewrite Hlabel. reflexivity. }
  unfold sample, discover. rewrite !bind_run. cbn [get_sensors]. rewrite Hempty.
  rewrite (for_range_turns 0 (2 ^ 32) 4294967296 _ h eq_refl).
  assert (exists m, Pos.to_nat 4294967296 = (k + S m)%nat) as [m ->].
  { exists (Pos.to_nat 4294967296 - k - 1)%nat. lia. }
  rewrite for_turns_add.
  rewrite scan_turns_other_devices by (intros i Hi; apply Hothers; lia).
  cbn [for_turns]. rewrite bind_run. change (0 + N.of_nat k)%N with (N.of_nat k).
  rewrite (scan_turn_cpu_device os (N.of_nat k) raw _ Hname)
    by (rewrite Hcpu; reflexivity).
  rewrite Hcpu. unfold detect_cpu_sensors.
  rewrite (for_range_turns 1 (2 ^ 32) 4294967295 _ _ eq_refl).
  assert (exists m', Pos.to_nat 4294967295 = S m') as [m' ->].
  { exists (Pos.to_nat 4294967295 - 1)%nat. lia. }
  cbn [for_turns]. rewrite bind_run.
  rewrite (detect_turn_label_file_missing (N.of_nat k) "cpu_thermal" 1 _ Hex Hlabel).
  cbn [ret]. rewrite bind_run. cbn [get_sensors with_log sensors]. rewrite Hempty.
  cbn [for_each ret]. eexists. split; [reflexivity |].
  split; [exact Hempty |]. split; [reflexivity |].
  cbn [log with_log]. rewrite (N_range_snoc 0 k), map_app, <- !app_assoc. reflexivity.
Qed.

End Devices.

Lemma temperature_label_less_input_dropped_witness :
  rule_includes "cpu_thermal" (sensor_label (host hwmon_arm_board []) 1 1) = true
  /\ exists h',
       CPUTemperatureSampler.sample (host hwmon_arm_board []) fresh = (h', Ok tt)
       /\ sensors h' = []
       /\ samples h' = samples fresh
       /\ log h' = [EvOpen "/sys/class/hwmon/hwmon0/name";
                    EvOpen "/sys/class/hwmon/hwmon1/name";
                    EvExists "/sys/class/hwmon/hwmon1/temp1_input";
                    EvOpen "/sys/class/hwmon/hwmon1/temp1_label"].
Proof.
  apply (temperature_label_less_input_dropped (host hwmon_arm_board []) 1
           ("cpu_thermal" +:+ nl) fresh).
  - reflexivity.
  - reflexivity.
  - intros i Hi. assert (i = 0%N) as -> by lia.
    exists ("pwmfan" +:+ nl). split; reflexivity.
  - reflexivity.
  - reflexivity.
  - reflexivity.
  - reflexivity.
Defined.

Lemma temperature_without_cpu_device_witness :
  CPUTemperatureSampler.sample (host hwmon_acpitz []) fresh
  = (with_log [EvOpen "/sys/class/hwmon/hwmon0/name"; EvOpen "/sys/class/hwmon/hwmon1/name"]
       fresh, Ok tt).
Proof.
  apply (temperature_without_cpu_device (host hwmon_acpitz []) 1 fresh).
  - reflexivity.
  - reflexivity.
  - intros i Hi. assert (i = 0%N) as -> by lia.
    exists ("acpitz" +:+ nl). split; reflexivity.
  - reflexivity.
Defined.

Section CacheGrowth.

Import CPUTemperatureSampler.

Variable os : OS.
Variable old : list string.

Lemma cache_extended_log (l : list event) (h : Heap) :
  cache_extended os old h -> cache_extended os old (with_log l h).
Proof. intros Hh. exact Hh. Qed.

Lemma append_sensor_extends (hwmonid index : N) :
  os_exists os (sensor_path hwmonid index) = true ->
  preserves (cache_extended os old) (append_sensor (sensor_path hwmonid index)).
Proof.
  intros Hex h (added & Hs & Hall). exists (added ++ [sensor_path hwmonid index]). cbn. split.
  - rewrite Hs, app_assoc. reflexivity.
  - apply Forall_app. split; [exact Hall |]. repeat constructor; eauto.
Qed.

Lemma detect_turn_extends (hwmonid : N) (name : string) (index : N) :
  preserves (cache_extended os old) (detect_turn os hwmonid name index).
Proof.
  intros h Hh. unfold detect_turn. rewrite bind_run.
  change (path_exists os (sensor_path hwmonid index) h)
    with (with_log (log h ++ [EvExists (sensor_path hwmonid index)]) h,
          Ok (os_exists os (sensor_path hwmonid index))).
  destruct (os_exists os (sensor_path hwmonid index)) eqn:Hex; cbn [negb]; [| exact Hh].
  assert (Hh1 : cache_extended os old
                  (with_log (log h ++ [EvExists (sensor_path hwmonid index)]) h))
    by exact Hh.
  revert Hh1. generalize (with_log (log h ++ [EvExists (sensor_path hwmonid index)]) h).
  refine (preserves_bind (cache_extended os old) _ _ _ _).
  { apply preserves_open_file. intros ? ?; assumption. }
  intros raw.
  repeat match goal with
         | |- preserves _ (if ?b then _ else _) => destruct b
         | |- preserves _ (ret _) => apply preserves_ret
         | |- preserves _ (bind _ _) =>
             apply preserves_bind; [apply append_sensor_extends, Hex | intros _]
         end.
Qed.

End CacheGrowth.

(** X26: a pass only ever appends to the cache, and what it appends are
    paths of temperature inputs that exist on the host at that time. *)
Theorem temperature_cache_grows (os : OS) (h : Heap) :
  cache_extended os (sensors h) (fst (CPUTemperatureSampler.sample os h)).
Proof.
  assert (Hstart : cache_extended os (sensors h) h).
  { exists []. split; [symmetry; apply app_nil_r | constructor]. }
  enough (Hkeeps : preserves (cache_extended os (sensors h)) (CPUTemperatureSampler.sample os))
    by exact (Hkeeps h Hstart).
  clear Hstart.
  unfold CPUTemperatureSampler.sample, CPUTemperatureSampler.discover,
    CPUTemperatureSampler.scan_turn, CPUTemperatureSampler.detect_cpu_sensors,
    CPUTemperatureSampler.read_turn.
  repeat match goal with
         | |- preserves _ (bind _ _) => apply preserves_bind; [| intros ?]
         | |- preserves _ (ret _) => apply preserves_ret
         | |- preserves _ (raise _) => apply preserves_raise
         | |- preserves _ (lift _) => apply preserves_lift
         | |- preserves _ (int _) => apply preserves_int
         | |- preserves _ (for_each _ _) => apply preserves_for_each; intros ? _
         | |- preserves _ (for_range _ _ _) => apply preserves_for_range; intros ?
         | |- preserves _ (try_except_FileNotFoundError _ _) => apply preserves_try
         | |- preserves _ (open_file _ _) => apply preserves_open_file; intros ? ?; assumption
         | |- preserves _ (set_instanced _ _ _) =>
             apply preserves_set_instanced; intros ? ? ?; assumption
         | |- preserves _ (CPUTemperatureSampler.detect_turn _ _ _ _) =>
             apply detect_turn_extends
         | |- preserves _ CPUTemperatureSampler.get_sensors => intros ? ?; assumption
         | |- preserves _ (match ?x with _ => _ end) => destruct x
         end.
Qed.

